(** * Transaction signing core: [apps/wallet/sign_tx/signing.py] and
    [apps/wallet/sign_tx/bitcoinlike.py]

    A shallow embedding of the seven-phase signer.  Python objects become
    records, [self] is passed explicitly, exceptions are values of [exn],
    and every [await helpers.request_*] / [helpers.confirm_*] is a typed
    event of an interaction tree that a host (and the user) answers. *)

From Stdlib Require Import ZArith Ascii String Floats.
From Stdlib.Strings Require Import Byte.
From stdpp Require Import gmap strings list.

Local Open Scope Z_scope.

(** ** Python values used by the signer *)

Definition bytes := list byte.

#[global] Instance byte_eq_decision : EqDecision byte := Byte.byte_eq_dec.

(** [bytes([v])]: a byte string of one element; [ValueError] outside
    [range(256)]. *)
Definition byte_of_int (v : Z) : option byte :=
  if bool_decide (0 <= v < 256) then Byte.of_N (Z.to_N v) else None.

(** [trezor.messages.FailureType], restricted to the members the signer
    names. *)
Inductive FailureType := DataError | ProcessError | ActionCancelled | NotEnoughFunds.

(** Positional arguments of an exception. *)
Inductive pyarg :=
| ArgFailure (f : FailureType)
| ArgStr (s : string).

(** Exceptions that leave the signer.  [SigningError] subclasses
    [ValueError] and adds nothing, so it carries its [args] verbatim. *)
Inductive exn :=
| SigningError (args : list pyarg)
| AttributeError
| IndexError
| KeyError
| NameError
| TypeError
| UnboundLocalError
| ValueError.

Inductive result (A : Type) :=
| Ok (a : A)
| Err (e : exn).
Arguments Ok {A} a.
Arguments Err {A} e.

#[global] Instance FailureType_eq_dec : EqDecision FailureType.
Proof. solve_decision. Defined.
#[global] Instance pyarg_eq_dec : EqDecision pyarg.
Proof. solve_decision. Defined.
#[global] Instance exn_eq_dec : EqDecision exn.
Proof. solve_decision. Defined.

(** [ensure(cond)]: the module imports [utils] but never binds the name
    [ensure] ([utils.ensure] is not what it calls), so the call raises
    [NameError] when the name is looked up, whatever the condition. *)
Definition ensure (cond : bool) : result unit := Err NameError.

(** ** Messages *)

Inductive InputScriptType :=
| SPENDADDRESS | SPENDMULTISIG | EXTERNAL | SPENDWITNESS | SPENDP2SHWITNESS.

Inductive OutputScriptType :=
| PAYTOADDRESS | PAYTOSCRIPTHASH | PAYTOMULTISIG
| PAYTOOPRETURN | PAYTOWITNESS | PAYTOP2SHWITNESS.

#[global] Instance InputScriptType_eq_dec : EqDecision InputScriptType.
Proof. solve_decision. Defined.
#[global] Instance OutputScriptType_eq_dec : EqDecision OutputScriptType.
Proof. solve_decision. Defined.

Record MultisigRedeemScriptType := {
  ms_pubkeys : list bytes;
  ms_signatures : list bytes;
  ms_m : Z;
}.

Record TxInputType := {
  txi_address_n : list Z;
  txi_prev_hash : bytes;
  txi_prev_index : Z;
  txi_script_sig : bytes;
  txi_sequence : Z;
  txi_script_type : InputScriptType;
  txi_multisig : option MultisigRedeemScriptType;
  txi_amount : option Z;
}.

Record TxOutputType := {
  txo_address : option string;
  txo_address_n : list Z;
  txo_amount : Z;
  txo_script_type : OutputScriptType;
  txo_multisig : option MultisigRedeemScriptType;
  txo_op_return_data : bytes;
}.

Record TxOutputBinType := {
  bin_amount : Z;
  bin_script_pubkey : bytes;
}.

(** [SignTx] after [helpers.sanitize_sign_tx]. *)
Record SignTx := {
  tx_version : Z;
  tx_inputs_count : Z;
  tx_outputs_count : Z;
  tx_lock_time : Z;
  tx_timestamp : Z;
}.

(** [TransactionType]: the meta data of a previous transaction. *)
Record TransactionType := {
  prev_version : Z;
  prev_lock_time : Z;
  prev_inputs_cnt : Z;
  prev_outputs_cnt : Z;
  prev_extra_data_len : Z;
  prev_timestamp : Z;
}.

(** [coininfo.CoinInfo], the fields the signer reads. *)
Record CoinInfo := {
  coin_address_type : Z;
  coin_address_type_p2sh : Z;
  coin_bech32_prefix : option string;
  coin_cashaddr_prefix : option string;
  coin_curve_name : string;
  coin_maxfee_kb : Z;
  coin_sign_hash_double : bool;
  coin_segwit : bool;
  coin_force_bip143 : bool;
  coin_negative_fee : bool;
  coin_fork_id : option Z;
  coin_extra_data : bool;
  coin_timestamp : bool;
  coin_b58_hash : Z;
}.

#[global] Instance Multisig_eq_dec : EqDecision MultisigRedeemScriptType.
Proof. solve_decision. Defined.

(** The part of [Union[TxInputType, TxOutputType]] that
    [attribute_from_tx] looks at. *)
Record TxIO := {
  txio_address_n : list Z;
  txio_multisig : option MultisigRedeemScriptType;
}.

Definition txio_of_input (txi : TxInputType) : TxIO :=
  {| txio_address_n := txi_address_n txi; txio_multisig := txi_multisig txi |}.

Definition txio_of_output (txo : TxOutputType) : TxIO :=
  {| txio_address_n := txo_address_n txo; txio_multisig := txo_multisig txo |}.

(** ** Constants *)

Definition _BIP32_WALLET_DEPTH : Z := 2.
Definition _BIP32_CHANGE_CHAIN : Z := 1.
Definition _BIP32_MAX_LAST_ELEMENT : Z := 1000000.
Definition _MAX_SERIALIZED_CHUNK_SIZE : Z := 2048.

(** ** Python list indexing *)

(** [l[:-k]] for [k > 0]: everything but the last [k] elements. *)
Definition slice_to_neg {A} (l : list A) (k : Z) : list A :=
  take (length l - Z.to_nat k)%nat l.

(** [l[-k]] for [k > 0]: [IndexError] when the list is shorter than [k]. *)
Definition index_neg {A} (l : list A) (k : Z) : result A :=
  if bool_decide (Z.of_nat (length l) < k) then Err IndexError
  else match l !! (length l - Z.to_nat k)%nat with
       | Some x => Ok x
       | None => Err IndexError
       end.

(** ** MatchChecker *)

(** [attribute] is one of the two sentinel objects or a stored value. *)
Inductive Attribute (A : Type) :=
| UNDEFINED
| MISMATCH
| Value (a : A).
Arguments UNDEFINED {A}.
Arguments MISMATCH {A}.
Arguments Value {A} a.

Record MatchChecker (A : Type) := {
  attribute : Attribute A;
  read_only : bool;
}.
Arguments attribute {A} _.
Arguments read_only {A} _.

(** The interface a subclass supplies.  [A] is the type of what
    [attribute_from_tx] returns (Python's [None] included) and [truthy]
    its truth value. *)
Class CheckerClass (A : Type) := {
  attribute_from_tx : TxIO -> A;
  truthy : A -> bool;
  attribute_eq_dec :: EqDecision A;
}.

Section MatchChecker.
Context {A : Type} `{CheckerClass A}.

Definition MatchChecker_init : MatchChecker A :=
  {| attribute := UNDEFINED; read_only := false |}.

Definition is_MISMATCH (a : Attribute A) : bool :=
  match a with MISMATCH => true | _ => false end.

Definition is_UNDEFINED (a : Attribute A) : bool :=
  match a with UNDEFINED => true | _ => false end.

(** [self.attribute == x]: a sentinel object equals nothing that
    [attribute_from_tx] can return. *)
Definition attribute_eq (a : Attribute A) (x : A) : bool :=
  match a with
  | Value v => bool_decide (v = x)
  | _ => false
  end.

Definition set_attribute (self : MatchChecker A) (a : Attribute A) : MatchChecker A :=
  {| attribute := a; read_only := read_only self |}.

Definition set_read_only (self : MatchChecker A) (b : bool) : MatchChecker A :=
  {| attribute := attribute self; read_only := b |}.

(** [add_input], statement by statement; the call of [ensure] comes
    first and raises, so the statements after it are never reached. *)
Definition add_input (self : MatchChecker A) (txi : TxInputType)
  : result unit * MatchChecker A :=
  match ensure (negb (read_only self)) with
  | Err e => (Err e, self)
  | Ok _ =>
    if is_MISMATCH (attribute self) then (Ok tt, self)
    else
      let added_attribute := attribute_from_tx (txio_of_input txi) in
      if negb (truthy added_attribute) then (Ok tt, set_attribute self MISMATCH)
      else if is_UNDEFINED (attribute self)
           then (Ok tt, set_attribute self (Value added_attribute))
      else if negb (attribute_eq (attribute self) added_attribute)
           then (Ok tt, set_attribute self MISMATCH)
      else (Ok tt, self)
  end.

Definition changed_during_signing : exn :=
  SigningError [ArgFailure ProcessError; ArgStr "Transaction has changed during signing"].

Definition check_input (self : MatchChecker A) (txi : TxInputType) : result unit :=
  if is_MISMATCH (attribute self) then Ok tt
  else if negb (attribute_eq (attribute self) (attribute_from_tx (txio_of_input txi)))
       then Err changed_during_signing
  else Ok tt.

Definition output_matches (self : MatchChecker A) (txo : TxOutputType)
  : bool * MatchChecker A :=
  let self := set_read_only self true in
  if is_MISMATCH (attribute self) then (false, self)
  else (attribute_eq (attribute self) (attribute_from_tx (txio_of_output txo)), self).
End MatchChecker.

(** [not l] for a Python list, bytes or str. *)
Definition is_empty {A} (l : list A) : bool :=
  match l with [] => true | _ => false end.

Definition truthy_list {A} (x : option (list A)) : bool :=
  match x with
  | None => false
  | Some l => negb (is_empty l)
  end.

#[global] Instance WalletPathChecker : CheckerClass (option (list Z)) := {
  attribute_from_tx txio :=
    if is_empty (txio_address_n txio) then None
    else Some (slice_to_neg (txio_address_n txio) _BIP32_WALLET_DEPTH);
  truthy := truthy_list;
}.

(** ** External collaborators

    Everything the two modules import from elsewhere in the firmware:
    hashing, serialisation, scripts, key derivation, address codecs and
    the tables of [helpers].  A function that raises in Python returns a
    [result]. *)
Class Primitives := {
  (* trezor.crypto.hashlib *)
  sha256 : bytes -> bytes;
  (* writers *)
  writers_tx_input_check : TxInputType -> bytes;
  writers_tx_input : TxInputType -> bytes;
  writers_tx_output : TxOutputBinType -> bytes;
  writers_uint32 : Z -> bytes;
  writers_varint : Z -> bytes;
  (* helpers *)
  CHANGE_OUTPUT_TO_INPUT_SCRIPT_TYPES : OutputScriptType -> option InputScriptType;
  CHANGE_OUTPUT_SCRIPT_TYPES : list OutputScriptType;
  SEGWIT_INPUT_SCRIPT_TYPES : list InputScriptType;
  NONSEGWIT_INPUT_SCRIPT_TYPES : list InputScriptType;
  (* multisig *)
  multisig_multisig_fingerprint : MultisigRedeemScriptType -> bytes;
  multisig_multisig_pubkey_index : MultisigRedeemScriptType -> bytes -> result Z;
  multisig_multisig_get_pubkeys : MultisigRedeemScriptType -> list bytes;
  (* tx_weight.TxWeightCalculator *)
  TxWeightCalculator : Type;
  TxWeightCalculator_init : Z -> Z -> TxWeightCalculator;
  weight_add_input : TxWeightCalculator -> TxInputType -> TxWeightCalculator;
  weight_add_output : TxWeightCalculator -> bytes -> TxWeightCalculator;
  weight_get_total : TxWeightCalculator -> Z;
  (* [fee > (coin.maxfee_kb / 1000) * (weight.get_total() / 4)], a
     comparison of an int with a float product *)
  fee_over_threshold : Z -> Z -> Z -> bool;
  (* segwit_bip143.Bip143 *)
  Bip143 : Type;
  Bip143_init : Bip143;
  bip143_add_prevouts : Bip143 -> TxInputType -> Bip143;
  bip143_add_sequence : Bip143 -> TxInputType -> Bip143;
  bip143_add_output : Bip143 -> TxOutputBinType -> Bip143;
  bip143_preimage_hash : Bip143 -> CoinInfo -> SignTx -> TxInputType -> bytes -> Z -> bytes;
  (* seed.Keychain and bip32.HDNode *)
  Keychain : Type;
  HDNode : Type;
  keychain_derive : Keychain -> list Z -> string -> result HDNode;
  node_public_key : HDNode -> bytes;
  node_private_key : HDNode -> bytes;
  (* trezor.crypto.curve.secp256k1, trezor.crypto.der *)
  secp256k1_sign : bytes -> bytes -> bytes;
  der_encode_seq : bytes -> bytes -> bytes;
  (* addresses *)
  addresses_validate_full_path : list Z -> CoinInfo -> InputScriptType -> bool;
  addresses_ecdsa_hash_pubkey : bytes -> CoinInfo -> bytes;
  addresses_get_address :
    InputScriptType -> CoinInfo -> HDNode -> option MultisigRedeemScriptType -> result string;
  addresses_decode_bech32_address : string -> string -> result bytes;
  (* apps.common.address_type *)
  address_type_check : Z -> bytes -> bool;
  address_type_strip : Z -> bytes -> bytes;
  (* trezor.crypto.base58, trezor.crypto.cashaddr *)
  base58_decode_check : string -> Z -> result bytes;
  cashaddr_decode : string -> string -> result (Z * bytes);
  cashaddr_ADDRESS_TYPE_P2KH : Z;
  cashaddr_ADDRESS_TYPE_P2SH : Z;
  (* scripts *)
  scripts_output_script_multisig : list bytes -> Z -> bytes;
  scripts_output_script_p2pkh : bytes -> bytes;
  scripts_output_script_p2sh : bytes -> bytes;
  scripts_output_script_paytoopreturn : bytes -> bytes;
  scripts_output_script_native_p2wpkh_or_p2wsh : bytes -> bytes;
  scripts_input_script_p2pkh_or_p2sh : bytes -> option bytes -> Z -> bytes;
  scripts_input_script_p2wsh_in_p2sh : bytes -> bytes;
  scripts_input_script_p2wpkh_in_p2sh : bytes -> bytes;
  scripts_input_script_native_p2wpkh_or_p2wsh : bytes;
  scripts_input_script_multisig :
    MultisigRedeemScriptType -> option bytes -> Z -> Z -> CoinInfo -> bytes;
  scripts_witness_p2wsh : MultisigRedeemScriptType -> bytes -> Z -> Z -> bytes;
  scripts_witness_p2wpkh : bytes -> bytes -> Z -> bytes;
}.

(** [utils.HashWriter(sha256())]: the context is determined by the bytes
    fed so far; [get_digest] hashes them. *)
Definition HashWriter := bytes.

Definition get_digest `{Primitives} (w : HashWriter) : bytes := sha256 w.

(** Modelled from the spec: [writers.get_tx_hash(w, double, reverse)] is
    defined outside these two files; the digest is "optionally
    double-hashed per coin" and, for a transaction id, reversed. *)
Definition get_tx_hash `{Primitives} (w : HashWriter) (double reverse : bool) : bytes :=
  let d := get_digest w in
  let d := if double then sha256 d else d in
  if reverse then rev d else d.

Definition truthy_bytes (x : option bytes) : bool := truthy_list x.

#[global] Instance MultisigFingerprintChecker `{Primitives} : CheckerClass (option bytes) := {
  attribute_from_tx txio :=
    match txio_multisig txio with
    | None => None
    | Some ms => Some (multisig_multisig_fingerprint ms)
    end;
  truthy := truthy_bytes;
}.

(** ** Requests to the host and to the user *)

Inductive Event : Type -> Type :=
| request_tx_input (i : Z) (prev_hash : option bytes) : Event TxInputType
| request_tx_output (i : Z) : Event TxOutputType
| request_prev_tx_output (i : Z) (prev_hash : bytes) : Event TxOutputBinType
| request_tx_meta (prev_hash : bytes) : Event TransactionType
| request_tx_extra_data (ofs size : Z) (prev_hash : bytes) : Event bytes
| request_tx_finish : Event unit
| confirm_output_ui (txo : TxOutputType) : Event bool
| confirm_feeoverthreshold (fee : Z) : Event bool
| confirm_nondefault_locktime (lock_time : Z) : Event bool
| confirm_total (spending fee : Z) : Event bool
| confirm_foreign_address (address_n : list Z) : Event bool
| progress_init (inputs outputs : Z) : Event unit
| progress_advance : Event unit.

(** A coroutine that has not yet been run: it has returned, or it is
    suspended on a request, or (only in the extra-data loop, which the
    host can keep alive for ever) it has used up its fuel. *)
Inductive Prog (R : Type) : Type :=
| Ret (r : R)
| Vis {X : Type} (e : Event X) (k : X -> Prog R)
| OutOfFuel.
Arguments Ret {R} r.
Arguments Vis {R X} e k.
Arguments OutOfFuel {R}.

Fixpoint prog_bind {R T} (p : Prog R) (f : R -> Prog T) : Prog T :=
  match p with
  | Ret r => f r
  | Vis e k => Vis e (fun x => prog_bind (k x) f)
  | OutOfFuel => OutOfFuel
  end.

(** One exchange with the host or the user, as seen from outside. *)
Inductive IO :=
| Exchange {X : Type} (e : Event X) (x : X).

(** The other side of the conversation: a host (and user) with a state of
    its own, free to answer the same request differently each time. *)
Record Host := {
  host_state : Type;
  respond : forall X, Event X -> host_state -> X * host_state;
}.

(** Running a coroutine against a host: the result, if the coroutine
    finishes, the exchanges in order, and the host as it is left. *)
Fixpoint run {R} (h : Host) (p : Prog R) (hs : host_state h)
  : option R * list IO * host_state h :=
  match p with
  | Ret r => (Some r, [], hs)
  | Vis e k =>
    let '(x, hs') := respond h _ e hs in
    let '(r, tr, hs'') := run h (k x) hs' in
    (r, Exchange e x :: tr, hs'')
  | OutOfFuel => (None, [], hs)
  end.

(** [P tr r] holds of every way the coroutine can finish: [tr] are the
    exchanges and [r] the result, whatever the host answers. *)
Fixpoint Forall_runs {R} (P : list IO -> R -> Prop) (p : Prog R) : Prop :=
  match p with
  | Ret r => P [] r
  | Vis e k => forall x, Forall_runs (fun tr r => P (Exchange e x :: tr) r) (k x)
  | OutOfFuel => True
  end.

(** The coroutine never gives up for lack of fuel. *)
Fixpoint fuel_free {R} (p : Prog R) : Prop :=
  match p with
  | Ret _ => True
  | Vis e k => forall x, fuel_free (k x)
  | OutOfFuel => False
  end.

(** ** The signer *)

(** The two classes of the module pair; [Bitcoinlike] overrides part of
    [Bitcoin]. *)
Inductive SignerClass := Bitcoin | Bitcoinlike.

Section Signer.
Context `{Primitives}.

(** The instance attributes of a signer.  [serialized_tx] is the byte
    array that [tx_req.serialized.serialized_tx] aliases: it holds what
    has been written for the host (the request helpers hand it over
    chunk by chunk); [signature_index] and [signature] are the other
    two fields of [tx_req.serialized]. *)
Record Signer := {
  coin : CoinInfo;
  tx : SignTx;
  keychain : Keychain;
  multisig_fingerprint : MatchChecker (option bytes);
  wallet_path : MatchChecker (option (list Z));
  segwit : gmap Z bool;
  total_in : Z;
  bip143_in : Z;
  total_out : Z;
  change_out : Z;
  weight : TxWeightCalculator;
  serialized_tx : bytes;
  signature_index : option Z;
  signature : option bytes;
  h_confirmed : HashWriter;
  hash143 : Bip143;
  hash143_hash : option bytes;
}.

Definition set_multisig_fingerprint (v : MatchChecker (option bytes)) (self : Signer) : Signer :=
  {| coin := coin self; tx := tx self; keychain := keychain self; multisig_fingerprint := v; wallet_path := wallet_path self; segwit := segwit self; total_in := total_in self; bip143_in := bip143_in self; total_out := total_out self; change_out := change_out self; weight := weight self; serialized_tx := serialized_tx self; signature_index := signature_index self; signature := signature self; h_confirmed := h_confirmed self; hash143 := hash143 self; hash143_hash := hash143_hash self |}.

Definition set_wallet_path (v : MatchChecker (option (list Z))) (self : Signer) : Signer :=
  {| coin := coin self; tx := tx self; keychain := keychain self; multisig_fingerprint := multisig_fingerprint self; wallet_path := v; segwit := segwit self; total_in := total_in self; bip143_in := bip143_in self; total_out := total_out self; change_out := change_out self; weight := weight self; serialized_tx := serialized_tx self; signature_index := signature_index self; signature := signature self; h_confirmed := h_confirmed self; hash143 := hash143 self; hash143_hash := hash143_hash self |}.

Definition set_segwit (v : gmap Z bool) (self : Signer) : Signer :=
  {| coin := coin self; tx := tx self; keychain := keychain self; multisig_fingerprint := multisig_fingerprint self; wallet_path := wallet_path self; segwit := v; total_in := total_in self; bip143_in := bip143_in self; total_out := total_out self; change_out := change_out self; weight := weight self; serialized_tx := serialized_tx self; signature_index := signature_index self; signature := signature self; h_confirmed := h_confirmed self; hash143 := hash143 self; hash143_hash := hash143_hash self |}.

Definition set_total_in (v : Z) (self : Signer) : Signer :=
  {| coin := coin self; tx := tx self; keychain := keychain self; multisig_fingerprint := multisig_fingerprint self; wallet_path := wallet_path self; segwit := segwit self; total_in := v; bip143_in := bip143_in self; total_out := total_out self; change_out := change_out self; weight := weight self; serialized_tx := serialized_tx self; signature_index := signature_index self; signature := signature self; h_confirmed := h_confirmed self; hash143 := hash143 self; hash143_hash := hash143_hash self |}.

Definition set_bip143_in (v : Z) (self : Signer) : Signer :=
  {| coin := coin self; tx := tx self; keychain := keychain self; multisig_fingerprint := multisig_fingerprint self; wallet_path := wallet_path self; segwit := segwit self; total_in := total_in self; bip143_in := v; total_out := total_out self; change_out := change_out self; weight := weight self; serialized_tx := serialized_tx self; signature_index := signature_index self; signature := signature self; h_confirmed := h_confirmed self; hash143 := hash143 self; hash143_hash := hash143_hash self |}.

Definition set_total_out (v : Z) (self : Signer) : Signer :=
  {| coin := coin self; tx := tx self; keychain := keychain self; multisig_fingerprint := multisig_fingerprint self; wallet_path := wallet_path self; segwit := segwit self; total_in := total_in self; bip143_in := bip143_in self; total_out := v; change_out := change_out self; weight := weight self; serialized_tx := serialized_tx self; signature_index := signature_index self; signature := signature self; h_confirmed := h_confirmed self; hash143 := hash143 self; hash143_hash := hash143_hash self |}.

Definition set_change_out (v : Z) (self : Signer) : Signer :=
  {| coin := coin self; tx := tx self; keychain := keychain self; multisig_fingerprint := multisig_fingerprint self; wallet_path := wallet_path self; segwit := segwit self; total_in := total_in self; bip143_in := bip143_in self; total_out := total_out self; change_out := v; weight := weight self; serialized_tx := serialized_tx self; signature_index := signature_index self; signature := signature self; h_confirmed := h_confirmed self; hash143 := hash143 self; hash143_hash := hash143_hash self |}.

Definition set_weight (v : TxWeightCalculator) (self : Signer) : Signer :=
  {| coin := coin self; tx := tx self; keychain := keychain self; multisig_fingerprint := multisig_fingerprint self; wallet_path := wallet_path self; segwit := segwit self; total_in := total_in self; bip143_in := bip143_in self; total_out := total_out self; change_out := change_out self; weight := v; serialized_tx := serialized_tx self; signature_index := signature_index self; signature := signature self; h_confirmed := h_confirmed self; hash143 := hash143 self; hash143_hash := hash143_hash self |}.

Definition set_serialized_tx (v : bytes) (self : Signer) : Signer :=
  {| coin := coin self; tx := tx self; keychain := keychain self; multisig_fingerprint := multisig_fingerprint self; wallet_path := wallet_path self; segwit := segwit self; total_in := total_in self; bip143_in := bip143_in self; total_out := total_out self; change_out := change_out self; weight := weight self; serialized_tx := v; signature_index := signature_index self; signature := signature self; h_confirmed := h_confirmed self; hash143 := hash143 self; hash143_hash := hash143_hash self |}.

Definition set_signature_index (v : option Z) (self : Signer) : Signer :=
  {| coin := coin self; tx := tx self; keychain := keychain self; multisig_fingerprint := multisig_fingerprint self; wallet_path := wallet_path self; segwit := segwit self; total_in := total_in self; bip143_in := bip143_in self; total_out := total_out self; change_out := change_out self; weight := weight self; serialized_tx := serialized_tx self; signature_index := v; signature := signature self; h_confirmed := h_confirmed self; hash143 := hash143 self; hash143_hash := hash143_hash self |}.

Definition set_signature (v : option bytes) (self : Signer) : Signer :=
  {| coin := coin self; tx := tx self; keychain := keychain self; multisig_fingerprint := multisig_fingerprint self; wallet_path := wallet_path self; segwit := segwit self; total_in := total_in self; bip143_in := bip143_in self; total_out := total_out self; change_out := change_out self; weight := weight self; serialized_tx := serialized_tx self; signature_index := signature_index self; signature := v; h_confirmed := h_confirmed self; hash143 := hash143 self; hash143_hash := hash143_hash self |}.

Definition set_h_confirmed (v : HashWriter) (self : Signer) : Signer :=
  {| coin := coin self; tx := tx self; keychain := keychain self; multisig_fingerprint := multisig_fingerprint self; wallet_path := wallet_path self; segwit := segwit self; total_in := total_in self; bip143_in := bip143_in self; total_out := total_out self; change_out := change_out self; weight := weight self; serialized_tx := serialized_tx self; signature_index := signature_index self; signature := signature self; h_confirmed := v; hash143 := hash143 self; hash143_hash := hash143_hash self |}.

Definition set_hash143 (v : Bip143) (self : Signer) : Signer :=
  {| coin := coin self; tx := tx self; keychain := keychain self; multisig_fingerprint := multisig_fingerprint self; wallet_path := wallet_path self; segwit := segwit self; total_in := total_in self; bip143_in := bip143_in self; total_out := total_out self; change_out := change_out self; weight := weight self; serialized_tx := serialized_tx self; signature_index := signature_index self; signature := signature self; h_confirmed := h_confirmed self; hash143 := v; hash143_hash := hash143_hash self |}.

Definition set_hash143_hash (v : option bytes) (self : Signer) : Signer :=
  {| coin := coin self; tx := tx self; keychain := keychain self; multisig_fingerprint := multisig_fingerprint self; wallet_path := wallet_path self; segwit := segwit self; total_in := total_in self; bip143_in := bip143_in self; total_out := total_out self; change_out := change_out self; weight := weight self; serialized_tx := serialized_tx self; signature_index := signature_index self; signature := signature self; h_confirmed := h_confirmed self; hash143 := hash143 self; hash143_hash := v |}.

(** *** Coroutines over the signer

    A method is a function of [self] that yields requests and ends in
    a return value or an exception, together with [self] as the method
    left it (an exception does not undo assignments). *)
Definition M (A : Type) : Type := Signer -> Prog (result A * Signer).

Definition ret {A} (a : A) : M A := fun self => Ret (Ok a, self).

Definition raise {A} (e : exn) : M A := fun self => Ret (Err e, self).

Definition bind {A B} (m : M A) (f : A -> M B) : M B :=
  fun self =>
    prog_bind (m self) (fun rs =>
      match fst rs with
      | Ok a => f a (snd rs)
      | Err e => Ret (Err e, snd rs)
      end).

Definition await {X} (e : Event X) : M X :=
  fun self => Vis e (fun x => Ret (Ok x, self)).

Definition out_of_fuel {A} : M A := fun _ => OutOfFuel.

Definition gets {A} (f : Signer -> A) : M A := fun self => Ret (Ok (f self), self).

Definition modify (f : Signer -> Signer) : M unit := fun self => Ret (Ok tt, f self).

Definition lift {A} (r : result A) : M A := fun self => Ret (r, self).
End Signer.

Declare Scope signer_scope.
Delimit Scope signer_scope with signer.
Notation "x <- m ;; k" := (bind m (fun x => k))
  (at level 100, m at next level, right associativity) : signer_scope.
Notation "m ;; k" := (bind m (fun _ => k))
  (at level 100, right associativity) : signer_scope.

(** ** Python strings *)

(** [s.startswith(p)] *)
Definition startswith (s p : string) : bool := String.prefix p s.

(** [s.split(":")]: the pieces between the colons, at least one. *)
Fixpoint split_colon_aux (cur : list ascii) (s : string) : list string :=
  match s with
  | EmptyString => [string_of_list_ascii (rev cur)]
  | String c s' =>
    if bool_decide (c = ":"%char)
    then string_of_list_ascii (rev cur) :: split_colon_aux [] s'
    else split_colon_aux (c :: cur) s'
  end.

Definition split_colon (s : string) : list string := split_colon_aux [] s.

(** The truth value of an optional string ([None] and the empty string are false). *)
Definition truthy_str (x : option string) : bool :=
  match x with
  | Some (String _ _) => true
  | _ => false
  end.

(** [range(n)] *)
Definition range (n : Z) : list Z := Z.of_nat <$> seq 0 (Z.to_nat n).

Section Methods.
Context `{Primitives}.
Local Open Scope signer_scope.

(** The class of [self], and the number of extra-data requests a
    previous transaction's footer may take before the model gives up. *)
Variable cls : SignerClass.
Variable fuel : nat.

(** [for x in l: body(x)] *)
Fixpoint for_each {A} (l : list A) (body : A -> M unit) : M unit :=
  match l with
  | [] => ret tt
  | x :: l' => body x ;; for_each l' body
  end.

(** The same with local variables [L] that the body assigns to. *)
Fixpoint for_each_with {A L} (l : list A) (body : A -> L -> M L) (locals : L) : M L :=
  match l with
  | [] => ret locals
  | x :: l' => locals' <- body x locals ;; for_each_with l' body locals'
  end.

(** *** Module-level functions *)

Definition input_is_segwit (txi : TxInputType) : bool :=
  bool_decide (txi_script_type txi ∈ SEGWIT_INPUT_SCRIPT_TYPES).

Definition input_is_nonsegwit (txi : TxInputType) : bool :=
  bool_decide (txi_script_type txi ∈ NONSEGWIT_INPUT_SCRIPT_TYPES).

Definition ecdsa_sign (node : HDNode) (digest : bytes) : bytes :=
  let sig := secp256k1_sign (node_private_key node) digest in
  let sigder := der_encode_seq (take 32 (drop 1 sig)) (take 32 (drop 33 sig)) in
  sigder.

(** *** TX helpers *)

Definition create_hash_writer : HashWriter := [].

Definition SIGHASH_ALL : Z := 0x01.
Definition SIGHASH_FORKID : Z := 0x40.

Definition Bitcoin_get_hash_type (self : Signer) : Z := SIGHASH_ALL.

Definition Bitcoinlike_get_hash_type (self : Signer) : Z :=
  let hashtype := Bitcoin_get_hash_type self in
  match coin_fork_id (coin self) with
  | Some fork_id => Z.lor hashtype (Z.lor (Z.shiftl fork_id 8) SIGHASH_FORKID)
  | None => hashtype
  end.

Definition get_hash_type (self : Signer) : Z :=
  match cls with
  | Bitcoin => Bitcoin_get_hash_type self
  | Bitcoinlike => Bitcoinlike_get_hash_type self
  end.

Definition write_tx_input (w : bytes) (txi : TxInputType) : bytes :=
  w ++ writers_tx_input txi.

(** [tx] is a [SignTx] or a [TransactionType]; the header reads its
    [version] and [timestamp]. *)
Definition Bitcoin_write_tx_header (self : Signer) (w : bytes)
    (version timestamp : Z) (has_segwit : bool) : bytes :=
  let w := w ++ writers_uint32 version in
  if has_segwit then (w ++ writers_varint 0x00) ++ writers_varint 0x01 else w.

Definition Bitcoinlike_write_tx_header (self : Signer) (w : bytes)
    (version timestamp : Z) (has_segwit : bool) : bytes :=
  let w := w ++ writers_uint32 version in
  let w := if coin_timestamp (coin self) then w ++ writers_uint32 timestamp else w in
  if has_segwit then (w ++ writers_varint 0x00) ++ writers_varint 0x01 else w.

Definition write_tx_header (self : Signer) (w : bytes)
    (version timestamp : Z) (has_segwit : bool) : bytes :=
  match cls with
  | Bitcoin => Bitcoin_write_tx_header self w version timestamp has_segwit
  | Bitcoinlike => Bitcoinlike_write_tx_header self w version timestamp has_segwit
  end.

Definition write_sign_tx_header (self : Signer) (w : bytes) (has_segwit : bool) : bytes :=
  let w := write_tx_header self w (tx_version (tx self)) (tx_timestamp (tx self)) has_segwit in
  w ++ writers_varint (tx_inputs_count (tx self)).

Definition write_sign_tx_footer (self : Signer) (w : bytes) : bytes :=
  w ++ writers_uint32 (tx_lock_time (tx self)).

Definition Bitcoin_write_prev_tx_footer (w : bytes) (ptx : TransactionType)
    (prev_hash : bytes) : M bytes :=
  ret (w ++ writers_uint32 (prev_lock_time ptx)).

(** [while ofs < tx.extra_data_len: ...] *)
Fixpoint extra_data_loop (n : nat) (w : bytes) (ptx : TransactionType)
    (prev_hash : bytes) (ofs : Z) : M bytes :=
  if bool_decide (ofs < prev_extra_data_len ptx) then
    match n with
    | O => out_of_fuel
    | S n' =>
      let size := Z.min 1024 (prev_extra_data_len ptx - ofs) in
      data <- await (request_tx_extra_data ofs size prev_hash) ;;
      extra_data_loop n' (w ++ data) ptx prev_hash (ofs + Z.of_nat (length data))
    end
  else ret w.

Definition Bitcoinlike_write_prev_tx_footer (w : bytes) (ptx : TransactionType)
    (prev_hash : bytes) : M bytes :=
  w <- Bitcoin_write_prev_tx_footer w ptx prev_hash ;;
  extra_data <- gets (fun self => coin_extra_data (coin self)) ;;
  if extra_data : bool then extra_data_loop fuel w ptx prev_hash 0 else ret w.

Definition write_prev_tx_footer (w : bytes) (ptx : TransactionType)
    (prev_hash : bytes) : M bytes :=
  match cls with
  | Bitcoin => Bitcoin_write_prev_tx_footer w ptx prev_hash
  | Bitcoinlike => Bitcoinlike_write_prev_tx_footer w ptx prev_hash
  end.

Definition check_prevtx_output (txo_bin : TxOutputBinType) : M unit := ret tt.

(** *** TX outputs *)

Definition invalid_address : exn :=
  SigningError [ArgFailure DataError; ArgStr "Invalid address"].

(** [except ValueError] also catches [SigningError], its subclass. *)
Definition Bitcoin_get_raw_address (self : Signer) (txo : TxOutputType) : result bytes :=
  match txo_address txo with
  | None => Err TypeError
  | Some address =>
    match base58_decode_check address (coin_b58_hash (coin self)) with
    | Ok raw => Ok raw
    | Err ValueError => Err invalid_address
    | Err (SigningError _) => Err invalid_address
    | Err e => Err e
    end
  end.

Definition Bitcoinlike_get_raw_address (self : Signer) (txo : TxOutputType) : result bytes :=
  match coin_cashaddr_prefix (coin self) with
  | Some cashaddr_prefix =>
    match txo_address txo with
    | None => Err AttributeError
    | Some address =>
      if startswith address (cashaddr_prefix +:+ ":") then
        match split_colon address with
        | [prefix; addr] =>
          match cashaddr_decode prefix addr with
          | Err e => Err e
          | Ok (version, data) =>
            let version' :=
              if bool_decide (version = cashaddr_ADDRESS_TYPE_P2KH)
              then Ok (coin_address_type (coin self))
              else if bool_decide (version = cashaddr_ADDRESS_TYPE_P2SH)
              then Ok (coin_address_type_p2sh (coin self))
              else Err (SigningError [ArgStr "Unknown cashaddr address type"]) in
            match version' with
            | Err e => Err e
            | Ok v =>
              match byte_of_int v with
              | Some b => Ok ([b] ++ data)
              | None => Err ValueError
              end
            end
          end
        | _ => Err ValueError
        end
      else Bitcoin_get_raw_address self txo
    end
  | None => Bitcoin_get_raw_address self txo
  end.

Definition get_raw_address (self : Signer) (txo : TxOutputType) : result bytes :=
  match cls with
  | Bitcoin => Bitcoin_get_raw_address self txo
  | Bitcoinlike => Bitcoinlike_get_raw_address self txo
  end.

Definition get_address_for_change (self : Signer) (txo : TxOutputType) : result string :=
  match CHANGE_OUTPUT_TO_INPUT_SCRIPT_TYPES (txo_script_type txo) with
  | None => Err (SigningError [ArgFailure DataError; ArgStr "Invalid script type"])
  | Some input_script_type =>
    match keychain_derive (keychain self) (txo_address_n txo) (coin_curve_name (coin self)) with
    | Err e => Err e
    | Ok node => addresses_get_address input_script_type (coin self) node (txo_multisig txo)
    end
  end.

Definition set_txo_address (txo : TxOutputType) (address : option string) : TxOutputType :=
  {| txo_address := address; txo_address_n := txo_address_n txo;
     txo_amount := txo_amount txo; txo_script_type := txo_script_type txo;
     txo_multisig := txo_multisig txo; txo_op_return_data := txo_op_return_data txo |}.

(** The script, and [txo] as the method leaves it: a change output has
    its [address] filled in. *)
Definition output_derive_script (self : Signer) (txo : TxOutputType)
  : result (bytes * TxOutputType) :=
  if bool_decide (txo_script_type txo = PAYTOOPRETURN) then
    Ok (scripts_output_script_paytoopreturn (txo_op_return_data txo), txo)
  else
    let txo' :=
      if negb (is_empty (txo_address_n txo)) then
        match get_address_for_change self txo with
        | Ok a => Ok (set_txo_address txo (Some a))
        | Err e => Err e
        end
      else Ok txo in
    match txo' with
    | Err e => Err e
    | Ok txo =>
      let is_bech32 :=
        if truthy_str (coin_bech32_prefix (coin self)) then
          match txo_address txo, coin_bech32_prefix (coin self) with
          | Some address, Some prefix => Ok (startswith address prefix)
          | _, _ => Err AttributeError
          end
        else Ok false in
      match is_bech32 with
      | Err e => Err e
      | Ok true =>
        match txo_address txo, coin_bech32_prefix (coin self) with
        | Some address, Some prefix =>
          match addresses_decode_bech32_address prefix address with
          | Ok witprog => Ok (scripts_output_script_native_p2wpkh_or_p2wsh witprog, txo)
          | Err e => Err e
          end
        | _, _ => Err AttributeError
        end
      | Ok false =>
        match get_raw_address self txo with
        | Err e => Err e
        | Ok raw_address =>
          if address_type_check (coin_address_type (coin self)) raw_address then
            let pubkeyhash := address_type_strip (coin_address_type (coin self)) raw_address in
            Ok (scripts_output_script_p2pkh pubkeyhash, txo)
          else if address_type_check (coin_address_type_p2sh (coin self)) raw_address then
            let scripthash := address_type_strip (coin_address_type_p2sh (coin self)) raw_address in
            Ok (scripts_output_script_p2sh scripthash, txo)
          else Err (SigningError [ArgFailure DataError; ArgStr "Invalid address type"])
        end
      end
    end.

(** [self.wallet_path.output_matches(txo)] and its sibling, with the
    checker stored back into [self]. *)
Definition wallet_path_output_matches (self : Signer) (txo : TxOutputType) : bool * Signer :=
  let '(b, c) := output_matches (wallet_path self) txo in (b, set_wallet_path c self).

Definition multisig_fingerprint_output_matches (self : Signer) (txo : TxOutputType)
  : bool * Signer :=
  let '(b, c) := output_matches (multisig_fingerprint self) txo in
  (b, set_multisig_fingerprint c self).

Definition output_is_change (self : Signer) (txo : TxOutputType) : result bool * Signer :=
  if negb (bool_decide (txo_script_type txo ∈ CHANGE_OUTPUT_SCRIPT_TYPES)) then (Ok false, self)
  else
    let '(rejected, self) :=
      match txo_multisig txo with
      | Some _ =>
        let '(b, self) := multisig_fingerprint_output_matches self txo in (negb b, self)
      | None => (false, self)
      end in
    if rejected : bool then (Ok false, self)
    else
      let '(b, self) := wallet_path_output_matches self txo in
      if negb b then (Ok false, self)
      else
        match index_neg (txo_address_n txo) 2 with
        | Err e => (Err e, self)
        | Ok chain =>
          if negb (bool_decide (chain <= _BIP32_CHANGE_CHAIN)) then (Ok false, self)
          else
            match index_neg (txo_address_n txo) 1 with
            | Err e => (Err e, self)
            | Ok last => (Ok (bool_decide (last <= _BIP32_MAX_LAST_ELEMENT)), self)
            end
        end.

Definition output_cancelled : exn :=
  SigningError [ArgFailure ActionCancelled; ArgStr "Output cancelled"].

Definition confirm_output (i : Z) (txo : TxOutputType) (txo_bin : TxOutputBinType) : M unit :=
  (change_out0 <- gets change_out ;;
   is_change <-
     (if bool_decide (change_out0 = 0) then (fun self => Ret (output_is_change self txo))
      else ret false) ;;
   if is_change : bool then
     (* output is change and does not need confirmation *)
     modify (set_change_out (txo_amount txo))
   else
     confirmed <- await (confirm_output_ui txo) ;;
     if negb confirmed then raise output_cancelled else ret tt) ;;
  modify (fun self => set_h_confirmed (h_confirmed self ++ writers_tx_output txo_bin) self) ;;
  modify (fun self => set_hash143 (bip143_add_output (hash143 self) txo_bin) self) ;;
  modify (fun self => set_total_out (total_out self + bin_amount txo_bin) self).

Definition step2_confirm_outputs : M unit :=
  outputs_count <- gets (fun self => tx_outputs_count (tx self)) ;;
  for_each (range outputs_count) (fun i =>
    txo <- await (request_tx_output i) ;;
    r <- (fun self => Ret (output_derive_script self txo, self)) ;;
    let script_pubkey := fst r in
    let txo := snd r in
    let txo_bin := {| bin_amount := txo_amount txo; bin_script_pubkey := script_pubkey |} in
    modify (fun self => set_weight (weight_add_output (weight self) script_pubkey) self) ;;
    confirm_output i txo txo_bin).

(** *** TX inputs *)

Definition input_derive_script (self : Signer) (txi : TxInputType) (pubkey : bytes)
    (signature : option bytes) : result bytes :=
  match txi_script_type txi with
  | SPENDADDRESS =>
    (* p2pkh or p2sh *)
    Ok (scripts_input_script_p2pkh_or_p2sh pubkey signature (get_hash_type self))
  | SPENDP2SHWITNESS =>
    match txi_multisig txi with
    | Some ms =>
      (* p2wsh in p2sh *)
      let pubkeys := multisig_multisig_get_pubkeys ms in
      let witness_script_hasher := create_hash_writer in
      let witness_script_hasher :=
        witness_script_hasher ++ scripts_output_script_multisig pubkeys (ms_m ms) in
      let witness_script_hash := get_digest witness_script_hasher in
      Ok (scripts_input_script_p2wsh_in_p2sh witness_script_hash)
    | None =>
      (* p2wpkh in p2sh *)
      Ok (scripts_input_script_p2wpkh_in_p2sh (addresses_ecdsa_hash_pubkey pubkey (coin self)))
    end
  | SPENDWITNESS =>
    (* native p2wpkh or p2wsh *)
    Ok scripts_input_script_native_p2wpkh_or_p2wsh
  | SPENDMULTISIG =>
    (* p2sh multisig *)
    match txi_multisig txi with
    | None => Err AttributeError
    | Some ms =>
      match multisig_multisig_pubkey_index ms pubkey with
      | Err e => Err e
      | Ok signature_index =>
        Ok (scripts_input_script_multisig ms signature signature_index
              (get_hash_type self) (coin self))
      end
    end
  | EXTERNAL => Err (SigningError [ArgFailure ProcessError; ArgStr "Invalid script type"])
  end.

Definition set_txi_script_sig (txi : TxInputType) (script_sig : bytes) : TxInputType :=
  {| txi_address_n := txi_address_n txi; txi_prev_hash := txi_prev_hash txi;
     txi_prev_index := txi_prev_index txi; txi_script_sig := script_sig;
     txi_sequence := txi_sequence txi; txi_script_type := txi_script_type txi;
     txi_multisig := txi_multisig txi; txi_amount := txi_amount txi |}.

(** *** Previous transactions *)

Definition not_enough_outputs : exn :=
  SigningError [ArgFailure ProcessError; ArgStr "Not enough outputs in previous transaction."].

Definition invalid_prev_hash : exn :=
  SigningError [ArgFailure ProcessError; ArgStr "Encountered invalid prev_hash"].

(** The header, inputs, outputs and footer of the previous transaction,
    hashed as they arrive: the writer [txh] and [amount_out]. *)
Definition get_prevtx_stream (ptx : TransactionType) (prev_hash : bytes) (prev_index : Z)
  : M (HashWriter * Z) :=
  let amount_out := 0 in
  let txh := create_hash_writer in
  (* TODO set has_segwit correctly *)
  txh <- gets (fun self =>
           write_tx_header self txh (prev_version ptx) (prev_timestamp ptx) false) ;;
  let txh := txh ++ writers_varint (prev_inputs_cnt ptx) in
  txh <- for_each_with (range (prev_inputs_cnt ptx)) (fun i txh =>
           (* STAGE_REQUEST_2_PREV_INPUT *)
           txi <- await (request_tx_input i (Some prev_hash)) ;;
           ret (write_tx_input txh txi)) txh ;;
  let txh := txh ++ writers_varint (prev_outputs_cnt ptx) in
  locals <- for_each_with (range (prev_outputs_cnt ptx)) (fun i locals =>
           (* STAGE_REQUEST_2_PREV_OUTPUT *)
           txo_bin <- await (request_prev_tx_output i prev_hash) ;;
           let txh := fst locals ++ writers_tx_output txo_bin in
           if bool_decide (i = prev_index) then
             check_prevtx_output txo_bin ;;
             ret (txh, bin_amount txo_bin)
           else ret (txh, snd locals)) (txh, amount_out) ;;
  txh <- write_prev_tx_footer (fst locals) ptx prev_hash ;;
  ret (txh, snd locals).

Definition get_prevtx_output_value (prev_hash : bytes) (prev_index : Z) : M Z :=
  (* STAGE_REQUEST_2_PREV_META *)
  ptx <- await (request_tx_meta prev_hash) ;;
  if bool_decide (prev_outputs_cnt ptx <= prev_index) then raise not_enough_outputs
  else
    locals <- get_prevtx_stream ptx prev_hash prev_index ;;
    let txh := fst locals in
    let amount_out := snd locals in
    sign_hash_double <- gets (fun self => coin_sign_hash_double (coin self)) ;;
    if negb (bool_decide (get_tx_hash txh sign_hash_double true = prev_hash))
    then raise invalid_prev_hash
    else ret amount_out.

(** *** Phase 1 *)

(** [not txi.amount] *)
Definition amount_missing (amount : option Z) : bool :=
  match amount with
  | None => true
  | Some a => bool_decide (a = 0)
  end.

Definition amount_or_zero (amount : option Z) : Z := default 0 amount.

Definition Bitcoin_process_segwit_input (i : Z) (txi : TxInputType) : M unit :=
  if amount_missing (txi_amount txi)
  then raise (SigningError [ArgFailure DataError; ArgStr "Segwit input without amount"])
  else
    modify (fun self => set_segwit (<[i := true]> (segwit self)) self) ;;
    modify (fun self => set_bip143_in (bip143_in self + amount_or_zero (txi_amount txi)) self) ;;
    modify (fun self => set_total_in (total_in self + amount_or_zero (txi_amount txi)) self).

Definition Bitcoinlike_process_segwit_input (i : Z) (txi : TxInputType) : M unit :=
  coin_has_segwit <- gets (fun self => coin_segwit (coin self)) ;;
  if negb coin_has_segwit
  then raise (SigningError [ArgFailure DataError; ArgStr "Segwit not enabled on this coin"])
  else Bitcoin_process_segwit_input i txi.

Definition process_segwit_input (i : Z) (txi : TxInputType) : M unit :=
  match cls with
  | Bitcoin => Bitcoin_process_segwit_input i txi
  | Bitcoinlike => Bitcoinlike_process_segwit_input i txi
  end.

(** [self.total_in += await ...] reads [self.total_in] first. *)
Definition Bitcoin_process_nonsegwit_input (i : Z) (txi : TxInputType) : M unit :=
  modify (fun self => set_segwit (<[i := false]> (segwit self)) self) ;;
  total_in0 <- gets total_in ;;
  value <- get_prevtx_output_value (txi_prev_hash txi) (txi_prev_index txi) ;;
  modify (set_total_in (total_in0 + value)).

Definition process_bip143_input (i : Z) (txi : TxInputType) : M unit :=
  if amount_missing (txi_amount txi)
  then raise (SigningError [ArgFailure DataError; ArgStr "Expected input with amount"])
  else
    modify (fun self => set_segwit (<[i := false]> (segwit self)) self) ;;
    modify (fun self => set_bip143_in (bip143_in self + amount_or_zero (txi_amount txi)) self) ;;
    modify (fun self => set_total_in (total_in self + amount_or_zero (txi_amount txi)) self).

Definition Bitcoinlike_process_nonsegwit_input (i : Z) (txi : TxInputType) : M unit :=
  force_bip143 <- gets (fun self => coin_force_bip143 (coin self)) ;;
  if force_bip143 : bool then process_bip143_input i txi
  else Bitcoin_process_nonsegwit_input i txi.

Definition process_nonsegwit_input (i : Z) (txi : TxInputType) : M unit :=
  match cls with
  | Bitcoin => Bitcoin_process_nonsegwit_input i txi
  | Bitcoinlike => Bitcoinlike_process_nonsegwit_input i txi
  end.

Definition wallet_path_add_input (txi : TxInputType) : M unit :=
  fun self => let '(r, c) := add_input (wallet_path self) txi in Ret (r, set_wallet_path c self).

Definition multisig_fingerprint_add_input (txi : TxInputType) : M unit :=
  fun self =>
    let '(r, c) := add_input (multisig_fingerprint self) txi in
    Ret (r, set_multisig_fingerprint c self).

Definition wallet_path_check_input (txi : TxInputType) : M unit :=
  fun self => Ret (check_input (wallet_path self) txi, self).

Definition multisig_fingerprint_check_input (txi : TxInputType) : M unit :=
  fun self => Ret (check_input (multisig_fingerprint self) txi, self).

Definition process_input (i : Z) (txi : TxInputType) : M unit :=
  wallet_path_add_input txi ;;
  multisig_fingerprint_add_input txi ;;
  modify (fun self => set_h_confirmed (h_confirmed self ++ writers_tx_input_check txi) self) ;;
  (* all inputs are included (non-segwit as well) *)
  modify (fun self => set_hash143 (bip143_add_prevouts (hash143 self) txi) self) ;;
  modify (fun self => set_hash143 (bip143_add_sequence (hash143 self) txi) self) ;;
  valid <- gets (fun self =>
    addresses_validate_full_path (txi_address_n txi) (coin self) (txi_script_type txi)) ;;
  (if negb valid then _ <- await (confirm_foreign_address (txi_address_n txi)) ;; ret tt
   else ret tt) ;;
  if input_is_segwit txi then process_segwit_input i txi
  else if input_is_nonsegwit txi then process_nonsegwit_input i txi
  else raise (SigningError [ArgFailure DataError; ArgStr "Wrong input script type"]).

Definition step1_process_inputs : M unit :=
  inputs_count <- gets (fun self => tx_inputs_count (tx self)) ;;
  for_each (range inputs_count) (fun i =>
    (* STAGE_REQUEST_1_INPUT *)
    await progress_advance ;;
    txi <- await (request_tx_input i None) ;;
    modify (fun self => set_weight (weight_add_input (weight self) txi) self) ;;
    process_input i txi).

(** *** Phase 3 *)

Definition not_enough_funds : exn :=
  SigningError [ArgFailure NotEnoughFunds; ArgStr "Not enough funds"].

Definition Bitcoin_on_negative_fee : M unit := raise not_enough_funds.

Definition Bitcoinlike_on_negative_fee : M unit :=
  (* some coins require negative fees for reward TX *)
  negative_fee <- gets (fun self => coin_negative_fee (coin self)) ;;
  if negb negative_fee then Bitcoin_on_negative_fee else ret tt.

Definition on_negative_fee : M unit :=
  match cls with
  | Bitcoin => Bitcoin_on_negative_fee
  | Bitcoinlike => Bitcoinlike_on_negative_fee
  end.

Definition step3_confirm_tran : M unit :=
  fee <- gets (fun self => total_in self - total_out self) ;;
  (if bool_decide (fee < 0) then on_negative_fee else ret tt) ;;
  (* fee > (coin.maxfee per byte * tx size) *)
  over <- gets (fun self =>
    fee_over_threshold fee (coin_maxfee_kb (coin self)) (weight_get_total (weight self))) ;;
  (if over : bool then
     confirmed <- await (confirm_feeoverthreshold fee) ;;
     if negb confirmed
     then raise (SigningError [ArgFailure ActionCancelled; ArgStr "Signing cancelled"])
     else ret tt
   else ret tt) ;;
  lock_time <- gets (fun self => tx_lock_time (tx self)) ;;
  (if bool_decide (lock_time > 0) then
     confirmed <- await (confirm_nondefault_locktime lock_time) ;;
     if negb confirmed
     then raise (SigningError [ArgFailure ActionCancelled; ArgStr "Locktime cancelled"])
     else ret tt
   else ret tt) ;;
  spending <- gets (fun self => total_in self - change_out self) ;;
  confirmed <- await (confirm_total spending fee) ;;
  if negb confirmed
  then raise (SigningError [ArgFailure ActionCancelled; ArgStr "Total cancelled"])
  else ret tt.

(** *** Phases 4 to 7 *)

(** [True in self.segwit.values()] *)
Definition any_segwit_value (m : gmap Z bool) : bool :=
  existsb (fun kv => snd kv) (map_to_list m).

(** [self.segwit[i]] *)
Definition segwit_lookup (i : Z) : M bool :=
  fun self =>
    match segwit self !! i with
    | Some b => Ret (Ok b, self)
    | None => Ret (Err KeyError, self)
    end.

Definition keychain_derive_for (txi : TxInputType) : M HDNode :=
  fun self =>
    Ret (keychain_derive (keychain self) (txi_address_n txi) (coin_curve_name (coin self)), self).

Definition serialize_segwit_input (i : Z) : M unit :=
  (* STAGE_REQUEST_SEGWIT_INPUT *)
  txi <- await (request_tx_input i None) ;;
  if negb (input_is_segwit txi) then raise changed_during_signing
  else
    wallet_path_check_input txi ;;
    (* No need to check the multisig fingerprint, because the script is
       not signed here. *)
    node <- keychain_derive_for txi ;;
    let key_sign_pub := node_public_key node in
    script_sig <- (fun self => Ret (input_derive_script self txi key_sign_pub None, self)) ;;
    let txi := set_txi_script_sig txi script_sig in
    modify (fun self => set_serialized_tx (write_tx_input (serialized_tx self) txi) self).

(** [not input_is_segwit(txi) or txi.amount > self.bip143_in]; comparing
    [None] with an int is a [TypeError]. *)
Definition segwit_input_changed (txi : TxInputType) : M bool :=
  if negb (input_is_segwit txi) then ret true
  else
    match txi_amount txi with
    | None => raise TypeError
    | Some amount =>
      bip143_in0 <- gets bip143_in ;;
      ret (bool_decide (amount > bip143_in0))
    end.

Definition sign_segwit_input (i : Z) : M unit :=
  (* STAGE_REQUEST_SEGWIT_WITNESS *)
  txi <- await (request_tx_input i None) ;;
  wallet_path_check_input txi ;;
  multisig_fingerprint_check_input txi ;;
  changed <- segwit_input_changed txi ;;
  if changed : bool then raise changed_during_signing
  else
    modify (fun self => set_bip143_in (bip143_in self - amount_or_zero (txi_amount txi)) self) ;;
    node <- keychain_derive_for txi ;;
    let key_sign_pub := node_public_key node in
    hash143_hash <- gets (fun self =>
      bip143_preimage_hash (hash143 self) (coin self) (tx self) txi
        (addresses_ecdsa_hash_pubkey key_sign_pub (coin self)) (get_hash_type self)) ;;
    let signature := ecdsa_sign node hash143_hash in
    match txi_multisig txi with
    | Some ms =>
      (* find out place of our signature based on the pubkey *)
      signature_index <- lift (multisig_multisig_pubkey_index ms key_sign_pub) ;;
      modify (fun self =>
        set_serialized_tx
          (serialized_tx self
             ++ scripts_witness_p2wsh ms signature signature_index (get_hash_type self)) self)
    | None =>
      modify (fun self =>
        set_serialized_tx
          (serialized_tx self
             ++ scripts_witness_p2wpkh signature key_sign_pub (get_hash_type self)) self)
    end ;;
    modify (set_signature_index (Some i)) ;;
    modify (set_signature (Some signature)).

(** The local variables of [sign_nonsegwit_input]; the last three are
    bound only once the loop has met input [i_sign]. *)
Record sign_locals := {
  h_sign : HashWriter;
  h_check : HashWriter;
  txi_sign : option TxInputType;
  node : option HDNode;
  key_sign_pub : option bytes;
}.

Definition unknown_transaction_type : exn :=
  SigningError [ArgFailure ProcessError; ArgStr "Unknown transaction type"].

(** The script that stands in for [script_sig] while input [i_sign] is
    hashed: the previous output's scriptPubKey (P2PKH) or the redeem
    script (P2SH). *)
Definition signing_script (txi_sign : TxInputType) (key_sign_pub : bytes) : M bytes :=
  match txi_script_type txi_sign with
  | SPENDMULTISIG =>
    match txi_multisig txi_sign with
    | None => raise AttributeError
    | Some ms => ret (scripts_output_script_multisig (multisig_multisig_get_pubkeys ms) (ms_m ms))
    end
  | SPENDADDRESS =>
    gets (fun self =>
      scripts_output_script_p2pkh (addresses_ecdsa_hash_pubkey key_sign_pub (coin self)))
  | _ => raise unknown_transaction_type
  end.

(** [for i in range(self.tx.inputs_count)] of [sign_nonsegwit_input] *)
Definition sign_nonsegwit_inputs (i_sign : Z) (locals : sign_locals) : M sign_locals :=
  inputs_count <- gets (fun self => tx_inputs_count (tx self)) ;;
  for_each_with (range inputs_count) (fun i locals =>
    (* STAGE_REQUEST_4_INPUT *)
    txi <- await (request_tx_input i None) ;;
    let h_check' := h_check locals ++ writers_tx_input_check txi in
    if bool_decide (i = i_sign) then
      wallet_path_check_input txi ;;
      multisig_fingerprint_check_input txi ;;
      nd <- keychain_derive_for txi ;;
      let pub := node_public_key nd in
      script_sig <- signing_script txi pub ;;
      let txi := set_txi_script_sig txi script_sig in
      ret {| h_sign := write_tx_input (h_sign locals) txi; h_check := h_check';
             txi_sign := Some txi; node := Some nd; key_sign_pub := Some pub |}
    else
      let txi := set_txi_script_sig txi [] in
      ret {| h_sign := write_tx_input (h_sign locals) txi; h_check := h_check';
             txi_sign := txi_sign locals; node := node locals;
             key_sign_pub := key_sign_pub locals |}) locals.

(** [for i in range(self.tx.outputs_count)] of [sign_nonsegwit_input] *)
Definition sign_nonsegwit_outputs (locals : sign_locals) : M sign_locals :=
  outputs_count <- gets (fun self => tx_outputs_count (tx self)) ;;
  for_each_with (range outputs_count) (fun i locals =>
    (* STAGE_REQUEST_4_OUTPUT *)
    txo <- await (request_tx_output i) ;;
    r <- (fun self => Ret (output_derive_script self txo, self)) ;;
    let txo_bin := {| bin_amount := txo_amount txo; bin_script_pubkey := fst r |} in
    ret {| h_sign := h_sign locals ++ writers_tx_output txo_bin;
           h_check := h_check locals ++ writers_tx_output txo_bin;
           txi_sign := txi_sign locals; node := node locals;
           key_sign_pub := key_sign_pub locals |}) locals.

(** Everything of [sign_nonsegwit_input] up to the control digests. *)
Definition sign_nonsegwit_stream (i_sign : Z) : M sign_locals :=
  (* hash of what we are signing with this input *)
  let h_sign0 := create_hash_writer in
  (* should come out the same as h_confirmed, checked before signing the digest *)
  let h_check0 := create_hash_writer in
  h_sign0 <- gets (fun self => write_sign_tx_header self h_sign0 false) ;;
  locals <- sign_nonsegwit_inputs i_sign
    {| h_sign := h_sign0; h_check := h_check0;
       txi_sign := None; node := None; key_sign_pub := None |} ;;
  outputs_count <- gets (fun self => tx_outputs_count (tx self)) ;;
  locals <- sign_nonsegwit_outputs
    {| h_sign := h_sign locals ++ writers_varint outputs_count; h_check := h_check locals;
       txi_sign := txi_sign locals; node := node locals;
       key_sign_pub := key_sign_pub locals |} ;;
  lock_time <- gets (fun self => tx_lock_time (tx self)) ;;
  hash_type <- gets get_hash_type ;;
  ret {| h_sign := (h_sign locals ++ writers_uint32 lock_time) ++ writers_uint32 hash_type;
         h_check := h_check locals;
         txi_sign := txi_sign locals; node := node locals;
         key_sign_pub := key_sign_pub locals |}.

(** The rest: check the control digests, sign, serialize. *)
Definition sign_nonsegwit_finish (i_sign : Z) (locals : sign_locals) : M unit :=
  (* check the control digests *)
  confirmed_digest <- gets (fun self => get_digest (h_confirmed self)) ;;
  if negb (bool_decide (confirmed_digest = get_digest (h_check locals)))
  then raise changed_during_signing
  else
    match txi_sign locals, node locals, key_sign_pub locals with
    | Some txi_sign, Some node, Some key_sign_pub =>
      (* if multisig, check if signing with a key that is included in multisig *)
      match txi_multisig txi_sign with
      | Some ms => _ <- lift (multisig_multisig_pubkey_index ms key_sign_pub) ;; ret tt
      | None => ret tt
      end ;;
      (* compute the signature from the tx digest *)
      sign_hash_double <- gets (fun self => coin_sign_hash_double (coin self)) ;;
      let signature := ecdsa_sign node (get_tx_hash (h_sign locals) sign_hash_double false) in
      (* serialize input with correct signature *)
      script_sig <- (fun self =>
        Ret (input_derive_script self txi_sign key_sign_pub (Some signature), self)) ;;
      let txi_sign := set_txi_script_sig txi_sign script_sig in
      modify (fun self => set_serialized_tx (write_tx_input (serialized_tx self) txi_sign) self) ;;
      modify (set_signature_index (Some i_sign)) ;;
      modify (set_signature (Some signature))
    | _, _, _ => raise UnboundLocalError
    end.

Definition Bitcoin_sign_nonsegwit_input (i_sign : Z) : M unit :=
  locals <- sign_nonsegwit_stream i_sign ;;
  sign_nonsegwit_finish i_sign locals.

(** [txi_sign.amount > self.bip143_in] after the script-type test. *)
Definition bip143_input_changed (txi_sign : TxInputType) : M bool :=
  let is_bip143 :=
    bool_decide (txi_script_type txi_sign = SPENDADDRESS)
    || bool_decide (txi_script_type txi_sign = SPENDMULTISIG) in
  if negb is_bip143 then ret true
  else
    match txi_amount txi_sign with
    | None => raise TypeError
    | Some amount =>
      bip143_in0 <- gets bip143_in ;;
      ret (bool_decide (amount > bip143_in0))
    end.

Definition sign_bip143_input (i_sign : Z) : M unit :=
  (* STAGE_REQUEST_SEGWIT_INPUT *)
  txi_sign <- await (request_tx_input i_sign None) ;;
  wallet_path_check_input txi_sign ;;
  multisig_fingerprint_check_input txi_sign ;;
  changed <- bip143_input_changed txi_sign ;;
  if changed : bool then raise changed_during_signing
  else
    modify (fun self =>
      set_bip143_in (bip143_in self - amount_or_zero (txi_amount txi_sign)) self) ;;
    key_sign <- keychain_derive_for txi_sign ;;
    let key_sign_pub := node_public_key key_sign in
    modify (fun self =>
      set_hash143_hash
        (Some (bip143_preimage_hash (hash143 self) (coin self) (tx self) txi_sign
                 (addresses_ecdsa_hash_pubkey key_sign_pub (coin self)) (get_hash_type self)))
        self) ;;
    (* if multisig, check if signing with a key that is included in multisig *)
    match txi_multisig txi_sign with
    | Some ms => _ <- lift (multisig_multisig_pubkey_index ms key_sign_pub) ;; ret tt
    | None => ret tt
    end ;;
    digest <- gets (fun self => default [] (hash143_hash self)) ;;
    let signature := ecdsa_sign key_sign digest in
    (* serialize input with correct signature *)
    script_sig <- (fun self =>
      Ret (input_derive_script self txi_sign key_sign_pub (Some signature), self)) ;;
    let txi_sign := set_txi_script_sig txi_sign script_sig in
    modify (fun self =>
      set_serialized_tx (serialized_tx self ++ writers_tx_input txi_sign) self) ;;
    modify (set_signature_index (Some i_sign)) ;;
    modify (set_signature (Some signature)).

Definition Bitcoinlike_sign_nonsegwit_input (i_sign : Z) : M unit :=
  force_bip143 <- gets (fun self => coin_force_bip143 (coin self)) ;;
  if force_bip143 : bool then sign_bip143_input i_sign
  else Bitcoin_sign_nonsegwit_input i_sign.

Definition sign_nonsegwit_input (i_sign : Z) : M unit :=
  match cls with
  | Bitcoin => Bitcoin_sign_nonsegwit_input i_sign
  | Bitcoinlike => Bitcoinlike_sign_nonsegwit_input i_sign
  end.

Definition serialize_output (i : Z) : M unit :=
  (* STAGE_REQUEST_5_OUTPUT *)
  txo <- await (request_tx_output i) ;;
  r <- (fun self => Ret (output_derive_script self txo, self)) ;;
  let txo_bin := {| bin_amount := txo_amount txo; bin_script_pubkey := fst r |} in
  modify (fun self => set_serialized_tx (serialized_tx self ++ writers_tx_output txo_bin) self).

Definition step4_serialize_inputs : M unit :=
  modify (fun self =>
    set_serialized_tx
      (write_sign_tx_header self (serialized_tx self) (any_segwit_value (segwit self))) self) ;;
  inputs_count <- gets (fun self => tx_inputs_count (tx self)) ;;
  for_each (range inputs_count) (fun i =>
    await progress_advance ;;
    is_segwit <- segwit_lookup i ;;
    if is_segwit : bool then serialize_segwit_input i else sign_nonsegwit_input i).

Definition step5_serialize_outputs : M unit :=
  modify (fun self =>
    set_serialized_tx (serialized_tx self ++ writers_varint (tx_outputs_count (tx self))) self) ;;
  outputs_count <- gets (fun self => tx_outputs_count (tx self)) ;;
  for_each (range outputs_count) (fun i =>
    await progress_advance ;;
    serialize_output i).

Definition step6_sign_segwit_inputs : M unit :=
  any_segwit <- gets (fun self => any_segwit_value (segwit self)) ;;
  inputs_count <- gets (fun self => tx_inputs_count (tx self)) ;;
  for_each (range inputs_count) (fun i =>
    await progress_advance ;;
    is_segwit <- segwit_lookup i ;;
    if is_segwit : bool then sign_segwit_input i
    else if any_segwit : bool then
      (* add empty witness for non-segwit inputs *)
      modify (fun self => set_serialized_tx (serialized_tx self ++ [Byte.x00]) self)
    else ret tt).

Definition step7_finish : M unit :=
  modify (fun self => set_serialized_tx (write_sign_tx_footer self (serialized_tx self)) self) ;;
  await request_tx_finish.

(** [initialize]: the attributes of a fresh signer; [tx] is what
    [helpers.sanitize_sign_tx] returned. *)
Definition initialize (tx0 : SignTx) (keychain0 : Keychain) (coin0 : CoinInfo) : Signer :=
  {| coin := coin0; tx := tx0; keychain := keychain0;
     multisig_fingerprint := MatchChecker_init;
     wallet_path := MatchChecker_init;
     segwit := ∅;
     total_in := 0; bip143_in := 0; total_out := 0; change_out := 0;
     weight := TxWeightCalculator_init (tx_inputs_count tx0) (tx_outputs_count tx0);
     serialized_tx := [];
     signature_index := None; signature := None;
     h_confirmed := create_hash_writer;
     hash143 := Bip143_init;
     hash143_hash := None |}.

Definition signer_body : M unit :=
  inputs_count <- gets (fun self => tx_inputs_count (tx self)) ;;
  outputs_count <- gets (fun self => tx_outputs_count (tx self)) ;;
  await (progress_init inputs_count outputs_count) ;;
  step1_process_inputs ;;
  step2_confirm_outputs ;;
  step3_confirm_tran ;;
  step4_serialize_inputs ;;
  step5_serialize_outputs ;;
  step6_sign_segwit_inputs ;;
  step7_finish.

Definition signer (tx0 : SignTx) (keychain0 : Keychain) (coin0 : CoinInfo)
  : Prog (result unit * Signer) :=
  signer_body (initialize tx0 keychain0 coin0).
End Methods.

(** ** SHA-256 (FIPS 180-4), for evaluating the signer on examples *)
Module Sha256.
Definition w32 (x : Z) : Z := x mod 2 ^ 32.

Definition rotr (n x : Z) : Z := Z.lor (Z.shiftr x n) (w32 (Z.shiftl x (32 - n))).

Definition Ch (x y z : Z) : Z :=
  Z.lxor (Z.land x y) (Z.land (Z.lxor x 0xffffffff) z).

Definition Maj (x y z : Z) : Z :=
  Z.lxor (Z.lxor (Z.land x y) (Z.land x z)) (Z.land y z).

Definition Sigma0 (x : Z) : Z := Z.lxor (Z.lxor (rotr 2 x) (rotr 13 x)) (rotr 22 x).
Definition Sigma1 (x : Z) : Z := Z.lxor (Z.lxor (rotr 6 x) (rotr 11 x)) (rotr 25 x).
Definition sigma0 (x : Z) : Z := Z.lxor (Z.lxor (rotr 7 x) (rotr 18 x)) (Z.shiftr x 3).
Definition sigma1 (x : Z) : Z := Z.lxor (Z.lxor (rotr 17 x) (rotr 19 x)) (Z.shiftr x 10).

(** The largest [r] below [2 ^ n] whose cube is at most [x], bit by bit. *)
Fixpoint cube_root_bits (n : nat) (x r : Z) : Z :=
  match n with
  | O => r
  | S n' =>
    let r' := r + 2 ^ Z.of_nat n' in
    cube_root_bits n' x (if bool_decide (r' * r' * r' <= x) then r' else r)
  end.

Definition is_prime (p : nat) : bool :=
  forallb (fun d => negb (Nat.eqb (p mod d) 0)) (seq 2 (p - 2)).

Definition primes (n : nat) : list Z :=
  Z.of_nat <$> take n (filter is_prime (seq 2 400)).

(** The first 32 bits of the fractional parts of the cube roots of the
    first 64 primes. *)
Definition K : list Z :=
  Eval vm_compute in (fun p => w32 (cube_root_bits 40 (p * 2 ^ 96) 0)) <$> primes 64.

(** The same of the square roots of the first 8 primes. *)
Definition H0 : list Z :=
  Eval vm_compute in (fun p => w32 (Z.sqrt (p * 2 ^ 64))) <$> primes 8.

Definition int_of_byte (b : byte) : Z := Z.of_N (Byte.to_N b).

Definition byte_of (x : Z) : byte := default Byte.x00 (Byte.of_N (Z.to_N (x mod 256))).

(** Big-endian bytes of the low [8 * n] bits of [x]. *)
Fixpoint be_bytes (n : nat) (x : Z) : bytes :=
  match n with
  | O => []
  | S n' => be_bytes n' (Z.shiftr x 8) ++ [byte_of x]
  end.

Definition be_int (bs : bytes) : Z :=
  fold_left (fun acc b => acc * 256 + int_of_byte b) bs 0.

Definition pad (msg : bytes) : bytes :=
  let len := Z.of_nat (length msg) in
  let zeros := Z.to_nat ((55 - len) mod 64) in
  msg ++ [Byte.x80] ++ replicate zeros Byte.x00 ++ be_bytes 8 (8 * len).

(** The words of a message, four bytes each. *)
Fixpoint words (n : nat) (bs : bytes) : list Z :=
  match n with
  | O => []
  | S n' => be_int (take 4 bs) :: words n' (drop 4 bs)
  end.

(** The message schedule, most recent word first. *)
Fixpoint schedule (n : nat) (ws : list Z) : list Z :=
  match n with
  | O => ws
  | S n' =>
    let w :=
      w32 (sigma1 (ws !!! 1%nat) + ws !!! 6%nat + sigma0 (ws !!! 14%nat) + ws !!! 15%nat) in
    schedule n' (w :: ws)
  end.

Definition round (st : list Z) (kw : Z * Z) : list Z :=
  match st with
  | [a; b; c; d; e; f; g; h] =>
    let t1 := h + Sigma1 e + Ch e f g + fst kw + snd kw in
    let t2 := Sigma0 a + Maj a b c in
    [w32 (t1 + t2); a; b; c; w32 (d + t1); e; f; g]
  | _ => st
  end.

Definition compress (hs : list Z) (block : bytes) : list Z :=
  let ws := rev (schedule 48 (rev (words 16 block))) in
  let st := fold_left round (zip K ws) hs in
  zip_with (fun x y => w32 (x + y)) hs st.

Fixpoint blocks (n : nat) (hs : list Z) (bs : bytes) : list Z :=
  match n with
  | O => hs
  | S n' => blocks n' (compress hs (take 64 bs)) (drop 64 bs)
  end.

Definition digest (msg : bytes) : bytes :=
  let p := pad msg in
  mjoin (be_bytes 4 <$> blocks (length p / 64) H0 p).
End Sha256.

(** ** A concrete set of collaborators

    The signer evaluated on examples needs something in place of the
    firmware's other modules.  Hashing is SHA-256 itself and the
    serialisers follow the wire format (little-endian integers, Bitcoin
    varints, length-prefixed scripts); key derivation, signing and the
    address codecs are deterministic stand-ins of the right shape. *)
Module Demo.
Import Sha256.

Definition uint32 (n : Z) : bytes := rev (be_bytes 4 n).
Definition uint64 (n : Z) : bytes := rev (be_bytes 8 n).

Definition varint (n : Z) : bytes :=
  if bool_decide (n < 253) then [byte_of n]
  else if bool_decide (n < 65536) then Byte.xfd :: rev (be_bytes 2 n)
  else Byte.xfe :: rev (be_bytes 4 n).

Definition prefixed (b : bytes) : bytes := varint (Z.of_nat (length b)) ++ b.

Definition input_script_type_number (t : InputScriptType) : Z :=
  match t with
  | SPENDADDRESS => 0 | SPENDMULTISIG => 1 | EXTERNAL => 2
  | SPENDWITNESS => 3 | SPENDP2SHWITNESS => 4
  end.

Definition tx_input (txi : TxInputType) : bytes :=
  rev (txi_prev_hash txi) ++ uint32 (txi_prev_index txi)
  ++ prefixed (txi_script_sig txi) ++ uint32 (txi_sequence txi).

Definition tx_input_check (txi : TxInputType) : bytes :=
  txi_prev_hash txi ++ uint32 (txi_prev_index txi)
  ++ uint32 (input_script_type_number (txi_script_type txi))
  ++ uint32 (Z.of_nat (length (txi_address_n txi)))
  ++ mjoin (uint32 <$> txi_address_n txi)
  ++ uint32 (txi_sequence txi) ++ uint64 (default 0 (txi_amount txi)).

Definition tx_output (txo_bin : TxOutputBinType) : bytes :=
  uint64 (bin_amount txo_bin) ++ prefixed (bin_script_pubkey txo_bin).

Definition change_output_to_input (t : OutputScriptType) : option InputScriptType :=
  match t with
  | PAYTOADDRESS => Some SPENDADDRESS
  | PAYTOMULTISIG => Some SPENDMULTISIG
  | PAYTOP2SHWITNESS => Some SPENDP2SHWITNESS
  | PAYTOWITNESS => Some SPENDWITNESS
  | _ => None
  end.

Definition fingerprint (ms : MultisigRedeemScriptType) : bytes :=
  digest (uint32 (ms_m ms) ++ uint32 (Z.of_nat (length (ms_pubkeys ms))) ++ mjoin (ms_pubkeys ms)).

Fixpoint index_of (pubkey : bytes) (l : list bytes) (i : Z) : result Z :=
  match l with
  | [] => Err (SigningError [ArgFailure DataError; ArgStr "Pubkey not found in multisig script"])
  | x :: l' => if bool_decide (x = pubkey) then Ok i else index_of pubkey l' (i + 1)
  end.

Definition public_key (node : list Z) : bytes :=
  Byte.x02 :: digest (mjoin (uint32 <$> node)).

Definition private_key (node : list Z) : bytes :=
  digest (Byte.x80 :: mjoin (uint32 <$> node)).

(** 65 bytes: a header byte, then two 32-byte halves. *)
Definition sign (private digest0 : bytes) : bytes :=
  Byte.x1f :: digest (private ++ digest0) ++ digest (digest0 ++ private).

Definition encode_seq (r s : bytes) : bytes :=
  let body := (Byte.x02 :: prefixed r) ++ (Byte.x02 :: prefixed s) in
  Byte.x30 :: prefixed body.

Definition hash_pubkey (pubkey : bytes) : bytes := take 20 (digest pubkey).

(** Address text: a [1] or a [3] for the version, then the payload
    byte for byte. *)
Definition decode_check (address : string) (version_p2pkh version_p2sh : Z) : result bytes :=
  match address with
  | String "1" payload => Ok (byte_of version_p2pkh :: String.list_byte_of_string payload)
  | String "3" payload => Ok (byte_of version_p2sh :: String.list_byte_of_string payload)
  | _ => Err ValueError
  end.

Definition get_address (t : InputScriptType) (node : list Z) : result string :=
  match t with
  | SPENDADDRESS => Ok (String "1" (String.string_of_list_byte (hash_pubkey (public_key node))))
  | SPENDWITNESS => Ok ("bc1" +:+ String.string_of_list_byte (hash_pubkey (public_key node)))
  | _ => Ok (String "3" (String.string_of_list_byte (hash_pubkey (public_key node))))
  end.

Definition decode_bech32 (prefix address : string) : result bytes :=
  Ok (String.list_byte_of_string
        (String.substring (String.length prefix) (String.length address) address)).

(** The first letter of a CashAddr payload gives the version: [q] is
    P2KH (0), [p] is P2SH (8); anything else is some other type. *)
Definition decode_cashaddr (prefix addr : string) : result (Z * bytes) :=
  match addr with
  | String "q" payload => Ok (0, String.list_byte_of_string payload)
  | String "p" payload => Ok (8, String.list_byte_of_string payload)
  | String _ payload => Ok (16, String.list_byte_of_string payload)
  | EmptyString => Err ValueError
  end.

Definition check (address_type : Z) (raw : bytes) : bool :=
  match raw with
  | b :: _ => bool_decide (int_of_byte b = address_type)
  | [] => false
  end.

Definition script_p2pkh (pubkeyhash : bytes) : bytes :=
  [Byte.x76; Byte.xa9] ++ prefixed pubkeyhash ++ [Byte.x88; Byte.xac].

Definition script_p2sh (scripthash : bytes) : bytes :=
  [Byte.xa9] ++ prefixed scripthash ++ [Byte.x87].

Definition script_multisig (pubkeys : list bytes) (m : Z) : bytes :=
  [byte_of (80 + m)] ++ mjoin (prefixed <$> pubkeys)
  ++ [byte_of (80 + Z.of_nat (length pubkeys)); Byte.xae].

Definition preimage (b : bytes * bytes * bytes) (c : CoinInfo) (t : SignTx)
    (txi : TxInputType) (pubkeyhash : bytes) (sighash : Z) : bytes :=
  let dsha x := digest (digest x) in
  dsha (uint32 (tx_version t) ++ dsha (fst (fst b)) ++ dsha (snd (fst b))
        ++ rev (txi_prev_hash txi) ++ uint32 (txi_prev_index txi)
        ++ prefixed (script_p2pkh pubkeyhash) ++ uint64 (default 0 (txi_amount txi))
        ++ uint32 (txi_sequence txi) ++ dsha (snd b)
        ++ uint32 (tx_lock_time t) ++ uint32 sighash).

(** [fee > (maxfee_kb / 1000) * (weight / 4)]: both quotients and their
    product are floats (IEEE 754 binary64, rounded to nearest), and the
    int [fee] is compared with the product; ints of the size of amounts
    convert exactly. *)
Definition float_of_int (z : Z) : float :=
  if bool_decide (z < 0) then PrimFloat.opp (PrimFloat.of_uint63 (Uint63.of_Z (- z)))
  else PrimFloat.of_uint63 (Uint63.of_Z z).

Definition over_threshold (fee maxfee_kb weight : Z) : bool :=
  PrimFloat.ltb
    (PrimFloat.mul (PrimFloat.div (float_of_int maxfee_kb) (float_of_int 1000))
                   (PrimFloat.div (float_of_int weight) (float_of_int 4)))
    (float_of_int fee).

#[global] Instance primitives : Primitives := {|
  sha256 := digest;
  writers_tx_input_check := tx_input_check;
  writers_tx_input := tx_input;
  writers_tx_output := tx_output;
  writers_uint32 := uint32;
  writers_varint := varint;
  CHANGE_OUTPUT_TO_INPUT_SCRIPT_TYPES := change_output_to_input;
  CHANGE_OUTPUT_SCRIPT_TYPES := [PAYTOADDRESS; PAYTOMULTISIG; PAYTOP2SHWITNESS; PAYTOWITNESS];
  SEGWIT_INPUT_SCRIPT_TYPES := [SPENDP2SHWITNESS; SPENDWITNESS];
  NONSEGWIT_INPUT_SCRIPT_TYPES := [SPENDADDRESS; SPENDMULTISIG];
  multisig_multisig_fingerprint := fingerprint;
  multisig_multisig_pubkey_index ms pubkey := index_of pubkey (ms_pubkeys ms) 0;
  multisig_multisig_get_pubkeys := ms_pubkeys;
  TxWeightCalculator := Z;
  TxWeightCalculator_init _ _ := 40;
  weight_add_input w _ := w + 592;
  weight_add_output w script := w + 4 * (9 + Z.of_nat (length script));
  weight_get_total w := w;
  fee_over_threshold := over_threshold;
  Bip143 := bytes * bytes * bytes;
  Bip143_init := ([], [], []);
  bip143_add_prevouts b txi :=
    (fst (fst b) ++ rev (txi_prev_hash txi) ++ uint32 (txi_prev_index txi), snd (fst b), snd b);
  bip143_add_sequence b txi := (fst (fst b), snd (fst b) ++ uint32 (txi_sequence txi), snd b);
  bip143_add_output b txo_bin := (fst b, snd b ++ tx_output txo_bin);
  bip143_preimage_hash := preimage;
  Keychain := unit;
  HDNode := list Z;
  keychain_derive _ address_n _ := Ok address_n;
  node_public_key := public_key;
  node_private_key := private_key;
  secp256k1_sign := sign;
  der_encode_seq := encode_seq;
  addresses_validate_full_path _ _ _ := true;
  addresses_ecdsa_hash_pubkey pubkey _ := hash_pubkey pubkey;
  addresses_get_address t _ node _ := get_address t node;
  addresses_decode_bech32_address := decode_bech32;
  address_type_check := check;
  address_type_strip _ raw := drop 1 raw;
  base58_decode_check address _ := decode_check address 0 5;
  cashaddr_decode := decode_cashaddr;
  cashaddr_ADDRESS_TYPE_P2KH := 0;
  cashaddr_ADDRESS_TYPE_P2SH := 8;
  scripts_output_script_multisig := script_multisig;
  scripts_output_script_p2pkh := script_p2pkh;
  scripts_output_script_p2sh := script_p2sh;
  scripts_output_script_paytoopreturn data := Byte.x6a :: prefixed data;
  scripts_output_script_native_p2wpkh_or_p2wsh witprog := Byte.x00 :: prefixed witprog;
  scripts_input_script_p2pkh_or_p2sh pubkey signature hash_type :=
    prefixed (default [] signature ++ [byte_of hash_type]) ++ prefixed pubkey;
  scripts_input_script_p2wsh_in_p2sh h := prefixed (Byte.x00 :: prefixed h);
  scripts_input_script_p2wpkh_in_p2sh h := prefixed (Byte.x00 :: prefixed h);
  scripts_input_script_native_p2wpkh_or_p2wsh := [];
  scripts_input_script_multisig ms signature _ hash_type _ :=
    Byte.x00 :: prefixed (default [] signature ++ [byte_of hash_type])
    ++ prefixed (script_multisig (ms_pubkeys ms) (ms_m ms));
  scripts_witness_p2wsh ms signature _ hash_type :=
    Byte.x03 :: Byte.x00 :: prefixed (signature ++ [byte_of hash_type])
    ++ prefixed (script_multisig (ms_pubkeys ms) (ms_m ms));
  scripts_witness_p2wpkh signature pubkey hash_type :=
    Byte.x02 :: prefixed (signature ++ [byte_of hash_type]) ++ prefixed pubkey;
|}.
End Demo.

(** ** Example data *)
Module Example.
Definition coin_bitcoin : CoinInfo :=
  {| coin_address_type := 0; coin_address_type_p2sh := 5;
     coin_bech32_prefix := Some "bc"; coin_cashaddr_prefix := None;
     coin_curve_name := "secp256k1"; coin_maxfee_kb := 2000000;
     coin_sign_hash_double := true; coin_segwit := true;
     coin_force_bip143 := false; coin_negative_fee := false;
     coin_fork_id := None; coin_extra_data := false;
     coin_timestamp := false; coin_b58_hash := 0 |}.

(** A coin of the Bitcoin Cash kind: CashAddr, fork id, BIP-143 for
    every input. *)
Definition coin_bcash : CoinInfo :=
  {| coin_address_type := 0; coin_address_type_p2sh := 5;
     coin_bech32_prefix := None; coin_cashaddr_prefix := Some "bitcoincash";
     coin_curve_name := "secp256k1"; coin_maxfee_kb := 500000;
     coin_sign_hash_double := true; coin_segwit := false;
     coin_force_bip143 := true; coin_negative_fee := false;
     coin_fork_id := Some 0; coin_extra_data := false;
     coin_timestamp := false; coin_b58_hash := 0 |}.

(** A coin whose reward transactions pay out more than they take in. *)
Definition coin_reward : CoinInfo :=
  {| coin_address_type := 76; coin_address_type_p2sh := 16;
     coin_bech32_prefix := None; coin_cashaddr_prefix := None;
     coin_curve_name := "secp256k1"; coin_maxfee_kb := 100000;
     coin_sign_hash_double := true; coin_segwit := false;
     coin_force_bip143 := false; coin_negative_fee := true;
     coin_fork_id := None; coin_extra_data := false;
     coin_timestamp := false; coin_b58_hash := 0 |}.


Definition hardened (n : Z) : Z := n + 2147483648.

(** m/44'/0'/0'/chain/index *)
Definition path (chain index : Z) : list Z :=
  [hardened 44; hardened 0; hardened 0; chain; index].

Definition tx_1in_2out : SignTx :=
  {| tx_version := 1; tx_inputs_count := 1; tx_outputs_count := 2;
     tx_lock_time := 0; tx_timestamp := 0 |}.

Definition txi_p2pkh : TxInputType :=
  {| txi_address_n := path 0 0; txi_prev_hash := replicate 32 Byte.xab;
     txi_prev_index := 0; txi_script_sig := []; txi_sequence := 4294967295;
     txi_script_type := SPENDADDRESS; txi_multisig := None; txi_amount := None |}.

(** An input that names no BIP-32 path. *)
Definition txi_no_path : TxInputType :=
  {| txi_address_n := []; txi_prev_hash := replicate 32 Byte.xab;
     txi_prev_index := 0; txi_script_sig := []; txi_sequence := 4294967295;
     txi_script_type := SPENDADDRESS; txi_multisig := None; txi_amount := None |}.

(** A P2PKH output to m/44'/0'/0'/1/3, the change chain of the wallet
    that [txi_p2pkh] spends from. *)
Definition txo_change (amount : Z) : TxOutputType :=
  {| txo_address := None; txo_address_n := path 1 3; txo_amount := amount;
     txo_script_type := PAYTOADDRESS; txo_multisig := None; txo_op_return_data := [] |}.

(** The wallet that [txi_p2pkh] spends from: its path without the last
    two elements. *)
Definition wallet_44 : MatchChecker (option (list Z)) :=
  {| attribute := Value (Some [hardened 44; hardened 0; hardened 0]); read_only := false |}.

(** A checker that has given up matching. *)
Definition mismatched {A} : MatchChecker A :=
  {| attribute := MISMATCH; read_only := false |}.

(** A signer whose wallet-path checker holds the wallet of [txi_p2pkh]
    and whose multisig-fingerprint checker holds MISMATCH. *)
Definition signer_after_p2pkh_input : Signer :=
  let self := initialize tx_1in_2out tt coin_bitcoin in
  let self := set_wallet_path wallet_44 self in
  set_multisig_fingerprint mismatched self.

(** m/84'/0'/0'/chain/index *)
Definition path84 (chain index : Z) : list Z :=
  [hardened 84; hardened 0; hardened 0; chain; index].

(** A native segwit input of the given amount. *)
Definition txi_segwit (amount : Z) : TxInputType :=
  {| txi_address_n := path84 0 7; txi_prev_hash := replicate 32 Byte.xcd;
     txi_prev_index := 1; txi_script_sig := []; txi_sequence := 4294967295;
     txi_script_type := SPENDWITNESS; txi_multisig := None; txi_amount := Some amount |}.


(** A signer that holds [txi_segwit 200000] as input 0: the wallet of
    that input in the wallet-path checker, MISMATCH in the other, and the
    input in the hashes and the sums. *)
Definition signer_after_segwit_input : Signer :=
  let self := initialize tx_1in_2out tt coin_bitcoin in
  let txi := txi_segwit 200000 in
  let self :=
    set_wallet_path
      {| attribute := Value (Some [hardened 84; hardened 0; hardened 0]); read_only := false |}
      self in
  let self := set_multisig_fingerprint mismatched self in
  let self := set_h_confirmed (h_confirmed self ++ writers_tx_input_check txi) self in
  let self := set_hash143 (bip143_add_prevouts (hash143 self) txi) self in
  let self := set_hash143 (bip143_add_sequence (hash143 self) txi) self in
  let self := set_segwit (<[0 := true]> (segwit self)) self in
  set_total_in 200000 (set_bip143_in 200000 self).

(** The previous transaction that the legacy examples spend from: one
    input, two outputs. *)
Definition prev_meta : TransactionType :=
  {| prev_version := 1; prev_lock_time := 0; prev_inputs_cnt := 1; prev_outputs_cnt := 2;
     prev_extra_data_len := 0; prev_timestamp := 0 |}.

Definition prev_input : TxInputType :=
  {| txi_address_n := []; txi_prev_hash := replicate 32 Byte.x11;
     txi_prev_index := 0; txi_script_sig := [Byte.x51]; txi_sequence := 4294967295;
     txi_script_type := SPENDADDRESS; txi_multisig := None; txi_amount := None |}.

Definition prev_outputs : list TxOutputBinType :=
  [ {| bin_amount := 100000;
       bin_script_pubkey := Demo.script_p2pkh (Demo.hash_pubkey (Demo.public_key (path 0 0))) |};
    {| bin_amount := 23000;
       bin_script_pubkey := Demo.script_p2pkh (replicate 20 Byte.x22) |} ].

(** The previous transaction as it is serialised on chain. *)
Definition prev_body : bytes :=
  Demo.uint32 1 ++ Demo.varint 1 ++ Demo.tx_input prev_input
  ++ Demo.varint 2 ++ mjoin (Demo.tx_output <$> prev_outputs) ++ Demo.uint32 0.

(** Its id: the hash (doubled or not) of the body, reversed. *)
Definition prev_txid (double : bool) : bytes :=
  rev (if double then Sha256.digest (Sha256.digest prev_body) else Sha256.digest prev_body).

(** A legacy input spending output [prev_index] of transaction [prev_hash]. *)
Definition txi_legacy (prev_hash : bytes) (prev_index : Z) : TxInputType :=
  {| txi_address_n := path 0 0; txi_prev_hash := prev_hash;
     txi_prev_index := prev_index; txi_script_sig := []; txi_sequence := 4294967295;
     txi_script_type := SPENDADDRESS; txi_multisig := None; txi_amount := None |}.

(** A host that answers from a script: the transaction to sign, one
    previous transaction, and a user who answers every prompt alike. *)
Record Script := {
  script_inputs : list TxInputType;
  script_outputs : list TxOutputType;
  script_prev_meta : TransactionType;
  script_prev_inputs : list TxInputType;
  script_prev_outputs : list TxOutputBinType;
  script_extra_data : bytes;
  script_user : bool;
}.

Definition empty_output : TxOutputType :=
  {| txo_address := None; txo_address_n := []; txo_amount := 0;
     txo_script_type := PAYTOADDRESS; txo_multisig := None; txo_op_return_data := [] |}.

Definition answer (sc : Script) {X} (e : Event X) : X :=
  match e in Event X return X with
  | request_tx_input i None => nth (Z.to_nat i) (script_inputs sc) txi_no_path
  | request_tx_input i (Some _) => nth (Z.to_nat i) (script_prev_inputs sc) txi_no_path
  | request_tx_output i => nth (Z.to_nat i) (script_outputs sc) empty_output
  | request_prev_tx_output i _ =>
    nth (Z.to_nat i) (script_prev_outputs sc) {| bin_amount := 0; bin_script_pubkey := [] |}
  | request_tx_meta _ => script_prev_meta sc
  | request_tx_extra_data ofs size _ =>
    take (Z.to_nat size) (drop (Z.to_nat ofs) (script_extra_data sc))
  | request_tx_finish => tt
  | confirm_output_ui _ => script_user sc
  | confirm_feeoverthreshold _ => script_user sc
  | confirm_nondefault_locktime _ => script_user sc
  | confirm_total _ _ => script_user sc
  | confirm_foreign_address _ => script_user sc
  | progress_init _ _ => tt
  | progress_advance => tt
  end.

Definition scripted_host (sc : Script) : Host :=
  {| host_state := unit; respond X e hs := (answer sc e, hs) |}.

(** The host of a one-input transaction whose previous transaction is
    the one above. *)
Definition script_one_input (txi : TxInputType) : Script :=
  {| script_inputs := [txi]; script_outputs := [];
     script_prev_meta := prev_meta; script_prev_inputs := [prev_input];
     script_prev_outputs := prev_outputs; script_extra_data := [];
     script_user := true |}.

Definition signer_fresh : Signer := initialize tx_1in_2out tt coin_bitcoin.

(** A P2PKH output to somebody else's address. *)
Definition txo_foreign (address : string) (amount : Z) : TxOutputType :=
  {| txo_address := Some address; txo_address_n := []; txo_amount := amount;
     txo_script_type := PAYTOADDRESS; txo_multisig := None; txo_op_return_data := [] |}.

(** One legacy input of 100 000 (output 0 of the previous transaction),
    60 000 to a foreign address, 30 000 of change. *)
Definition script_spend : Script :=
  {| script_inputs := [txi_legacy (prev_txid true) 0];
     script_outputs := [txo_foreign "1BobBobBobBobBobBobBob" 60000; txo_change 30000];
     script_prev_meta := prev_meta; script_prev_inputs := [prev_input];
     script_prev_outputs := prev_outputs; script_extra_data := [];
     script_user := true |}.

(** The same, but with the first output redirected. *)
Definition script_spend_redirected : Script :=
  {| script_inputs := [txi_legacy (prev_txid true) 0];
     script_outputs := [txo_foreign "1EveEveEveEveEveEveEve" 60000; txo_change 30000];
     script_prev_meta := prev_meta; script_prev_inputs := [prev_input];
     script_prev_outputs := prev_outputs; script_extra_data := [];
     script_user := true |}.

(** [self] after the method [m] has run against the script ([self] itself
    if it does not finish). *)
Definition after {A} (m : M A) (sc : Script) (self : Signer) : Signer :=
  match run (scripted_host sc) (m self) tt with
  | (Some (_, self'), _, _) => self'
  | _ => self
  end.

(** A signer that holds input 0 of [script_spend]: the wallet of that
    input in the wallet-path checker, MISMATCH in the other, the input in
    the hashes and its 100 000 in [total_in]. *)
Definition signer_with_legacy_input : Signer :=
  let txi := txi_legacy (prev_txid true) 0 in
  let self := signer_fresh in
  let self := set_weight (weight_add_input (weight self) txi) self in
  let self := set_wallet_path wallet_44 self in
  let self := set_multisig_fingerprint mismatched self in
  let self := set_h_confirmed (h_confirmed self ++ writers_tx_input_check txi) self in
  let self := set_hash143 (bip143_add_prevouts (hash143 self) txi) self in
  let self := set_hash143 (bip143_add_sequence (hash143 self) txi) self in
  let self := set_segwit (<[0 := false]> (segwit self)) self in
  set_total_in 100000 self.

(** That signer at the end of phase 3 of [script_spend]. *)
Definition signer_after_phase3 : Signer :=
  after (step3_confirm_tran Bitcoin) script_spend
    (after (step2_confirm_outputs Bitcoin) script_spend signer_with_legacy_input).

(** An input that points at a third output of the two-output previous
    transaction. *)
Definition txi_beyond_outputs : TxInputType := txi_legacy (prev_txid true) 2.

(** A signer at the end of phase 2 with inputs of 90 000 and outputs of
    100 000. *)
Definition signer_overspent (c : CoinInfo) : Signer :=
  set_total_out 100000 (set_total_in 90000 (initialize tx_1in_2out tt c)).
End Example.

(** ** Sequences of calls on a checker *)

Inductive checker_call :=
| call_add_input (txi : TxInputType)
| call_output_matches (txo : TxOutputType).

Definition do_call {A} `{CheckerClass A} (self : MatchChecker A) (c : checker_call)
  : MatchChecker A :=
  match c with
  | call_add_input txi => snd (add_input self txi)
  | call_output_matches txo => snd (output_matches self txo)
  end.

Definition do_calls {A} `{CheckerClass A} (self : MatchChecker A) (calls : list checker_call)
  : MatchChecker A :=
  fold_left do_call calls self.

(** The chain UNDEFINED, value, (same value or MISMATCH) read as a list
    of the only steps allowed. *)
Definition attribute_chain_step {A} (a a' : Attribute A) : Prop :=
  a' = a
  \/ (a = UNDEFINED /\ exists v, a' = Value v)
  \/ ((exists v, a = Value v) /\ a' = MISMATCH).

(** ** What a trace shows *)

(** The totals put before the user: [(spending, fee)] of a
    [confirm_total] prompt. *)
Definition shown_total (io : IO) : option (Z * Z) :=
  match io with
  | Exchange e _ =>
    match e with
    | confirm_total spending fee => Some (spending, fee)
    | _ => None
    end
  end.


(** A signer of the Bitcoin Cash kind about to sign a transaction. *)
Definition signer_with_fork_id (fork_id : Z) : Signer :=
  let c := Example.coin_bcash in
  initialize Example.tx_1in_2out tt
    {| coin_address_type := coin_address_type c;
       coin_address_type_p2sh := coin_address_type_p2sh c;
       coin_bech32_prefix := coin_bech32_prefix c;
       coin_cashaddr_prefix := coin_cashaddr_prefix c;
       coin_curve_name := coin_curve_name c; coin_maxfee_kb := coin_maxfee_kb c;
       coin_sign_hash_double := coin_sign_hash_double c; coin_segwit := coin_segwit c;
       coin_force_bip143 := coin_force_bip143 c; coin_negative_fee := coin_negative_fee c;
       coin_fork_id := Some fork_id; coin_extra_data := coin_extra_data c;
       coin_timestamp := coin_timestamp c; coin_b58_hash := coin_b58_hash c |}.

(** The bytes an exchange of phases 1, 2 and 4 contributes to the
    confirmation hash: the check serialisation of an input of the
    transaction being signed, the binary form of one of its outputs. *)
Definition check_item `{Primitives} (cls : SignerClass) (self : Signer) (io : IO) : bytes :=
  match io with
  | Exchange e x =>
    match e in Event X return X -> bytes with
    | request_tx_input _ None => fun txi => writers_tx_input_check txi
    | request_tx_output _ => fun txo =>
      match output_derive_script cls self txo with
      | Ok r =>
        writers_tx_output {| bin_amount := txo_amount txo; bin_script_pubkey := fst r |}
      | Err _ => []
      end
    | _ => fun _ => []
    end x
  end.

Definition check_bytes `{Primitives} (cls : SignerClass) (self : Signer) (tr : list IO) : bytes :=
  mjoin (check_item cls self <$> tr).

(** What a run leaves for the host: the result, the index and the length
    of the signature reported, the number of bytes serialised. *)
Definition summary {A} `{Primitives} {hs : Type}
    (out : option (result A * Signer) * list IO * hs)
  : option (result A * option Z * nat * nat) :=
  match fst (fst out) with
  | Some (r, self) =>
    Some (r, signature_index self, length (default [] (signature self)),
          length (serialized_tx self))
  | None => None
  end.

(** ** Previous transactions on the wire *)

(** What the host sends of a previous transaction. *)
Inductive PrevItem :=
| PrevMeta (ptx : TransactionType)
| PrevInput (txi : TxInputType)
| PrevOutput (txo_bin : TxOutputBinType)
| PrevExtra (data : bytes).

Definition prev_item (io : IO) : option PrevItem :=
  match io with
  | Exchange e x =>
    match e in Event X return X -> option PrevItem with
    | request_tx_meta _ => fun ptx => Some (PrevMeta ptx)
    | request_tx_input _ (Some _) => fun txi => Some (PrevInput txi)
    | request_prev_tx_output _ _ => fun txo_bin => Some (PrevOutput txo_bin)
    | request_tx_extra_data _ _ _ => fun data => Some (PrevExtra data)
    | _ => fun _ => None
    end x
  end.

(** The serialisation of a previous transaction that goes into its id:
    header without the segwit marker, inputs, outputs, lock time, and
    the extra data of the coins that have any. *)
Definition prevtx_bytes `{Primitives} (cls : SignerClass) (self : Signer)
    (ptx : TransactionType) (ins : list TxInputType) (outs : list TxOutputBinType)
    (extra : list bytes) : bytes :=
  write_tx_header cls self [] (prev_version ptx) (prev_timestamp ptx) false
  ++ writers_varint (prev_inputs_cnt ptx) ++ mjoin (writers_tx_input <$> ins)
  ++ writers_varint (prev_outputs_cnt ptx) ++ mjoin (writers_tx_output <$> outs)
  ++ writers_uint32 (prev_lock_time ptx) ++ mjoin extra.

(** The amount of output [prev_index] among the outputs streamed. *)
Definition referenced_amount (prev_index : Z) (outs : list TxOutputBinType) : Z :=
  if bool_decide (0 <= prev_index)
  then default 0 (bin_amount <$> outs !! Z.to_nat prev_index)
  else 0.

(** [amount_out] as the output loop leaves it after the indices [idxs]. *)
Fixpoint amount_scan (prev_index : Z) (idxs : list Z) (outs : list TxOutputBinType)
    (amount_out : Z) : Z :=
  match idxs, outs with
  | i :: idxs', o :: outs' =>
    amount_scan prev_index idxs' outs'
      (if bool_decide (i = prev_index) then bin_amount o else amount_out)
  | _, _ => amount_out
  end.

(** A signer of the Bitcoin Cash kind before phase 1, and an input of
    that coin with its amount. *)
Definition cash_signer : Signer := initialize Example.tx_1in_2out tt Example.coin_bcash.

Definition cash_input (amount : Z) : TxInputType :=
  {| txi_address_n := Example.path 0 0; txi_prev_hash := replicate 32 Byte.xab;
     txi_prev_index := 0; txi_script_sig := []; txi_sequence := 4294967295;
     txi_script_type := SPENDADDRESS; txi_multisig := None; txi_amount := Some amount |}.

(** ** Extra data on the wire *)

(** The offset and size of a request for extra data. *)
Definition extra_request (io : IO) : option (Z * Z) :=
  match io with
  | Exchange e _ =>
    match e with
    | request_tx_extra_data ofs size _ => Some (ofs, size)
    | _ => None
    end
  end.

(** A previous transaction of a coin with extra data: ten bytes of it. *)
Definition prev_meta_extra : TransactionType :=
  {| prev_version := 1; prev_lock_time := 0; prev_inputs_cnt := 1; prev_outputs_cnt := 2;
     prev_extra_data_len := 10; prev_timestamp := 0 |}.

(** A host that has nothing to send of the extra data, and one that
    always sends as many bytes as it is asked for. *)
Definition silent_host : Host :=
  Example.scripted_host (Example.script_one_input Example.txi_p2pkh).

Definition generous_answer {X} (e : Event X) : X :=
  match e in Event X return X with
  | request_tx_extra_data ofs size _ => replicate (Z.to_nat size) Byte.x00
  | e' => Example.answer (Example.script_one_input Example.txi_p2pkh) e'
  end.

Definition generous_host : Host :=
  {| host_state := unit; respond X e hs := (generous_answer e, hs) |}.

(** ** CashAddr addresses *)

(** The string has no colon in it. *)
Definition colon_free (s : string) : bool :=
  forallb (fun c => negb (bool_decide (c = ":"%char))) (list_ascii_of_string s).

(** A payment to a CashAddr address. *)
Definition txo_cashaddr (address : string) : TxOutputType :=
  Example.txo_foreign address 60000.

(** A transaction without inputs that pays one output, and a host that
    names a CashAddr address of an unknown type for it. *)
Definition tx_0in_1out : SignTx :=
  {| tx_version := 1; tx_inputs_count := 0; tx_outputs_count := 1;
     tx_lock_time := 0; tx_timestamp := 0 |}.

Definition script_unknown_cashaddr : Example.Script :=
  {| Example.script_inputs := [];
     Example.script_outputs := [txo_cashaddr "bitcoincash:zrest"];
     Example.script_prev_meta := Example.prev_meta;
     Example.script_prev_inputs := [];
     Example.script_prev_outputs := [];
     Example.script_extra_data := [];
     Example.script_user := true |}.

(** ** Failures *)

(** The failure is a [SigningError] made of a failure code and a
    message. *)
Definition carries_failure_type (e : exn) : bool :=
  match e with
  | SigningError [ArgFailure _; ArgStr _] => true
  | _ => false
  end.

(** ** Change outputs on the wire *)


(** ** What the host has been given *)

(** The serialized transaction and the signature fields of [s] are
    those of [self]. *)
Definition same_output `{Primitives} (self s : Signer) : Prop :=
  serialized_tx s = serialized_tx self /\ signature s = signature self
  /\ signature_index s = signature_index self.

(** The user has said yes to the total. *)
Definition total_confirmed (tr : list IO) : Prop :=
  exists spending fee, Exchange (confirm_total spending fee) true ∈ tr.

(** ** Outputs on the wire *)

(** An output of the transaction being signed, as the host sent it. *)
Definition received_output (io : IO) : option TxOutputType :=
  match io with
  | Exchange e x =>
    match e in Event X return X -> option TxOutputType with
    | request_tx_output _ => fun txo => Some txo
    | _ => fun _ => None
    end x
  end.

Definition sum_amounts (txos : list TxOutputType) : Z :=
  foldr (fun txo acc => txo_amount txo + acc) 0 txos.

(** The script of a derivation, without the output it was derived for. *)
Definition script_only (r : result (bytes * TxOutputType)) : result bytes :=
  match r with
  | Ok (script, _) => Ok script
  | Err e => Err e
  end.

(** An input has been credited with the amount it declares (and marked
    in [segwit] with [b]), or has been refused and has left no trace. *)
Definition credited `{Primitives} (self : Signer) (i : Z) (txi : TxInputType) (b : bool)
    (rs : result unit * Signer) : Prop :=
  match fst rs with
  | Ok _ =>
    exists amount,
      txi_amount txi = Some amount /\ amount <> 0
      /\ total_in (snd rs) = total_in self + amount
      /\ bip143_in (snd rs) = bip143_in self + amount
      /\ segwit (snd rs) = <[i := b]> (segwit self)
  | Err _ => snd rs = self
  end.

(** ** Inputs on the wire *)

(** An input of the transaction being signed, as the host sent it. *)
Definition received_input (io : IO) : option TxInputType :=
  match io with
  | Exchange e x =>
    match e in Event X return X -> option TxInputType with
    | request_tx_input _ None => fun txi => Some txi
    | _ => fun _ => None
    end x
  end.

Definition sum_input_amounts (txis : list TxInputType) : Z :=
  foldr (fun txi acc => amount_or_zero (txi_amount txi) + acc) 0 txis.

(** ** What a legacy signature covers *)

(** The script that stands in for [script_sig] of the input being
    signed, as a value. *)
Definition signing_script_of `{Primitives} (self : Signer) (txi : TxInputType) (pub : bytes)
  : result bytes :=
  match signing_script txi pub self with
  | Ret (r, _) => r
  | _ => Err UnboundLocalError
  end.

(** The bytes an exchange of [sign_nonsegwit_input] contributes to the
    hash that is signed: an input with its [script_sig] emptied, or, for
    the input being signed, replaced by the signing script; an output in
    binary form. *)
Definition signing_item `{Primitives} (cls : SignerClass) (self : Signer) (i_sign : Z) (io : IO)
  : bytes :=
  match io with
  | Exchange e x =>
    match e in Event X return X -> bytes with
    | request_tx_input i None => fun txi =>
      if bool_decide (i = i_sign) then
        match keychain_derive (keychain self) (txi_address_n txi)
                (coin_curve_name (coin self)) with
        | Ok nd =>
          match signing_script_of self txi (node_public_key nd) with
          | Ok script => writers_tx_input (set_txi_script_sig txi script)
          | Err _ => []
          end
        | Err _ => []
        end
      else writers_tx_input (set_txi_script_sig txi [])
    | request_tx_output _ => fun txo =>
      match output_derive_script cls self txo with
      | Ok r =>
        writers_tx_output {| bin_amount := txo_amount txo; bin_script_pubkey := fst r |}
      | Err _ => []
      end
    | _ => fun _ => []
    end x
  end.

Definition signing_bytes `{Primitives} (cls : SignerClass) (self : Signer) (i_sign : Z)
    (tr : list IO) : bytes :=
  mjoin (signing_item cls self i_sign <$> tr).

(** What is hashed for the signature of input [i_sign]: header and input
    count, the inputs streamed, the output count, the outputs streamed,
    the lock time and the hash type. *)
Definition signing_preimage `{Primitives} (cls : SignerClass) (self : Signer) (i_sign : Z)
    (tr_in tr_out : list IO) : bytes :=
  write_sign_tx_header cls self [] false ++ signing_bytes cls self i_sign tr_in
  ++ writers_varint (tx_outputs_count (tx self)) ++ signing_bytes cls self i_sign tr_out
  ++ writers_uint32 (tx_lock_time (tx self)) ++ writers_uint32 (get_hash_type cls self).

(** * Properties *)

(** ** Coroutines *)

Lemma Forall_runs_impl {R} (P Q : list IO -> R -> Prop) (p : Prog R) :
  (forall tr r, P tr r -> Q tr r) -> Forall_runs P p -> Forall_runs Q p.
Proof.
  revert P Q. induction p as [r | X e k IH |]; simpl; intros P Q HPQ HP.
  - by apply HPQ.
  - intros x. apply (IH x _ _ (fun tr r => HPQ _ r) (HP x)).
  - done.
Qed.

Lemma Forall_runs_bind {R T} (p : Prog R) (f : R -> Prog T) (Q : list IO -> T -> Prop) :
  Forall_runs (fun tr1 r => Forall_runs (fun tr2 t => Q (tr1 ++ tr2) t) (f r)) p ->
  Forall_runs Q (prog_bind p f).
Proof.
  revert Q. induction p as [r | X e k IH |]; simpl; intros Q HP.
  - done.
  - intros x. apply IH, (HP x).
  - done.
Qed.

Lemma run_sound {R} (h : Host) (p : Prog R) (P : list IO -> R -> Prop) :
  Forall_runs P p ->
  forall hs r tr hs', run h p hs = (Some r, tr, hs') -> P tr r.
Proof.
  revert P. induction p as [r | X e k IH |]; simpl; intros P HP hs r' tr hs' Hrun.
  - by inversion Hrun; subst.
  - destruct (respond h X e hs) as [x hs1].
    destruct (run h (k x) hs1) as [[r1 tr1] hs2] eqn:E.
    inversion Hrun; subst. eapply (IH x _ (HP x)); eauto.
  - inversion Hrun.
Qed.

Lemma fuel_free_bind {R T} (p : Prog R) (f : R -> Prog T) :
  fuel_free p -> (forall r, fuel_free (f r)) -> fuel_free (prog_bind p f).
Proof.
  induction p as [r | X e k IH |]; simpl; intros Hp Hf.
  - apply Hf.
  - intros x. by apply IH.
  - done.
Qed.

Lemma run_fuel_free {R} (h : Host) (p : Prog R) (hs : host_state h) :
  fuel_free p -> exists r tr hs', run h p hs = (Some r, tr, hs').
Proof.
  revert hs. induction p as [r | X e k IH |]; simpl; intros hs Hp.
  - eauto.
  - destruct (respond h X e hs) as [x hs1].
    destruct (IH x hs1 (Hp x)) as (r & tr & hs' & ->). eauto.
  - done.
Qed.

(** ** Match checkers *)

Section MatchCheckerFacts.
Context {A : Type} `{CheckerClass A}.

(** [add_input] ends at its first statement, the call of the unbound
    name [ensure], before [attribute] is read or written. *)
Lemma add_input_NameError (self : MatchChecker A) (txi : TxInputType) :
  add_input self txi = (Err NameError, self).
Proof. reflexivity. Qed.

Lemma do_call_attribute (self : MatchChecker A) (c : checker_call) :
  attribute (do_call self c) = attribute self.
Proof.
  destruct c as [txi | txo]; simpl; [done |].
  unfold output_matches. simpl. by destruct (is_MISMATCH _).
Qed.

Lemma do_calls_attribute (calls : list checker_call) (self : MatchChecker A) :
  attribute (do_calls self calls) = attribute self.
Proof.
  revert self. induction calls as [| c calls IH]; intros self; [done |].
  change (do_calls self (c :: calls)) with (do_calls (do_call self c) calls).
  by rewrite IH, do_call_attribute.
Qed.

Lemma do_call_read_only (self : MatchChecker A) (c : checker_call) :
  read_only self = true -> read_only (do_call self c) = true.
Proof.
  destruct c as [txi | txo]; simpl; [done |]. intros _.
  unfold output_matches. simpl. by destruct (is_MISMATCH _).
Qed.

Lemma do_calls_read_only (calls : list checker_call) (self : MatchChecker A) :
  read_only self = true -> read_only (do_calls self calls) = true.
Proof.
  revert self. induction calls as [| c calls IH]; intros self Hm; [done |].
  apply IH, do_call_read_only, Hm.
Qed.

Lemma output_matches_read_only (self : MatchChecker A) (txo : TxOutputType) :
  read_only (snd (output_matches self txo)) = true.
Proof. unfold output_matches; simpl. by destruct (is_MISMATCH _). Qed.

(** C8. Along every sequence of [add_input] and [output_matches] calls
    on any checker, one call takes [attribute] along the chain
    UNDEFINED, value, (same value or MISMATCH) or leaves it where it is;
    MISMATCH is never left; and once [output_matches] has been called the
    read-only latch is set and every later [add_input] fails and changes
    nothing.  The code meets this in the strongest way: [add_input]
    raises [NameError] on every call (it calls [ensure], a name the
    module never binds), so no call ever moves [attribute] at all. *)
Theorem match_checker_transitions (self : MatchChecker A)
    (calls later : list checker_call) (c : checker_call)
    (txo : TxOutputType) (txi : TxInputType) (ro : bool) :
  attribute_chain_step (attribute (do_calls self calls))
                       (attribute (do_call (do_calls self calls) c))
  /\ attribute (do_calls {| attribute := MISMATCH; read_only := ro |} calls) = MISMATCH
  /\ read_only (do_calls self (calls ++ call_output_matches txo :: later)) = true
  /\ add_input (do_calls self (calls ++ call_output_matches txo :: later)) txi
     = (Err NameError, do_calls self (calls ++ call_output_matches txo :: later))
  /\ attribute (do_calls self calls) = attribute self.
Proof.
  split; [left; apply do_call_attribute |].
  split; [apply do_calls_attribute |].
  split; [| split; [apply add_input_NameError | apply do_calls_attribute]].
  unfold do_calls. rewrite fold_left_app. simpl.
  apply do_calls_read_only, output_matches_read_only.
Qed.
End MatchCheckerFacts.

(** ** Change outputs *)

Lemma index_neg_Ok {X} (l : list X) (k : Z) (x : X) :
  index_neg l k = Ok x -> l !! (length l - Z.to_nat k)%nat = Some x.
Proof.
  unfold index_neg. case_bool_decide; [done |].
  destruct (l !! _) eqn:E; [| done]. by intros [= ->].
Qed.




(** The hash of the examples is SHA-256: the test vector of FIPS 180-2
    for the three bytes [abc]. *)
Example sha256_abc :
  Sha256.int_of_byte <$> Sha256.digest (String.list_byte_of_string "abc")
  = [0xba; 0x78; 0x16; 0xbf; 0x8f; 0x01; 0xcf; 0xea; 0x41; 0x41; 0x40; 0xde; 0x5d; 0xae; 0x22; 0x23;
     0xb0; 0x03; 0x61; 0xa3; 0x96; 0x17; 0x7a; 0x9c; 0xb4; 0x10; 0xff; 0x61; 0xf2; 0x00; 0x15; 0xad].
Proof. vm_compute. reflexivity. Qed.

(** ** Sighash type *)

(** C5 (amended). [get_hash_type] is SIGHASH_ALL (0x01) for a coin
    without [fork_id], in either class; for a coin with [fork_id] the
    override of [Bitcoinlike] returns [0x01 | (fork_id << 8) | 0x40],
    which for [fork_id = 0x79] is [0x00007941]; the method of the base
    class [Bitcoin] returns 0x01 whatever the coin. *)
Theorem get_hash_type_fork_id `{Primitives} (cls : SignerClass) (self : Signer) (fork_id : Z) :
  (coin_fork_id (coin self) = None -> get_hash_type cls self = 0x01)
  /\ (coin_fork_id (coin self) = Some fork_id ->
      get_hash_type Bitcoinlike self = Z.lor 0x01 (Z.lor (Z.shiftl fork_id 8) 0x40))
  /\ (coin_fork_id (coin self) = Some 0x79 -> get_hash_type Bitcoinlike self = 0x00007941)
  /\ get_hash_type Bitcoin self = 0x01.
Proof.
  unfold get_hash_type, Bitcoinlike_get_hash_type, Bitcoin_get_hash_type, SIGHASH_ALL,
    SIGHASH_FORKID.
  repeat split.
  - intros ->. by destruct cls.
  - by intros ->.
  - by intros ->.
Qed.

Lemma get_hash_type_fork_id_witness :
  get_hash_type Bitcoin Example.signer_after_p2pkh_input = 0x01
  /\ get_hash_type Bitcoinlike (signer_with_fork_id 0x79) = 0x00007941
  /\ get_hash_type Bitcoinlike (signer_with_fork_id 0)
     = Z.lor 0x01 (Z.lor (Z.shiftl 0 8) 0x40).
Proof.
  split; [| split].
  - apply (proj1 (get_hash_type_fork_id Bitcoin Example.signer_after_p2pkh_input 0)).
    reflexivity.
  - apply (proj1 (proj2 (proj2 (get_hash_type_fork_id Bitcoin (signer_with_fork_id 0x79) 0x79)))).
    reflexivity.
  - apply (proj1 (proj2 (get_hash_type_fork_id Bitcoin (signer_with_fork_id 0) 0))).
    reflexivity.
Defined.

(** C5, as stated, fails: a signer of class [Bitcoin] for a coin with
    [fork_id = 0x79] uses SIGHASH_ALL, not [0x00007941]. *)
Lemma get_hash_type_base_ignores_fork_id :
  coin_fork_id (coin (signer_with_fork_id 0x79)) = Some 0x79
  /\ get_hash_type Bitcoin (signer_with_fork_id 0x79) = 0x01
  /\ get_hash_type Bitcoin (signer_with_fork_id 0x79)
     <> Z.lor 0x01 (Z.lor (Z.shiftl 0x79 8) 0x40).
Proof. split; [reflexivity | split; [reflexivity | discriminate]]. Qed.

(** ** Phase 3 *)

Ltac unfold_m :=
  unfold bind, gets, modify, ret, raise, await, lift; simpl.

Ltac case_program :=
  repeat match goal with
  | |- forall x : bool, _ => intros []; simpl
  | |- context [bool_decide ?P] => destruct (bool_decide P) eqn:?; simpl
  | |- context [match ?c with Bitcoin => _ | Bitcoinlike => _ end] => destruct c; simpl
  | |- context [if negb ?b then _ else _] => destruct b eqn:?; simpl
  | |- context [if ?b then _ else _] => destruct b eqn:?; simpl
  end.

(** C6 (amended). In phase 3 the fee is [total_in - total_out]: that is
    the fee of every [confirm_total] prompt (next to the spending
    [total_in - change_out]), and the phase changes nothing in [self] and
    always finishes.  When the fee is negative: on a coin whose
    [negative_fee] flag is false the phase ends at once, before any
    prompt, with SigningError(NotEnoughFunds), in either class; on a coin
    whose flag is true [on_negative_fee] of class [Bitcoinlike] returns
    without error and the phase never ends in NotEnoughFunds, while
    [on_negative_fee] of the base class [Bitcoin] raises
    SigningError(NotEnoughFunds) whatever the flag, and so ends phase 3
    of that class whenever the fee is negative. *)
Theorem step3_negative_fee `{Primitives} (cls : SignerClass) (self : Signer) :
  Forall_runs (fun tr r =>
      Forall (fun st => st = (total_in self - change_out self, total_in self - total_out self))
             (omap shown_total tr)
      /\ snd r = self)
    (step3_confirm_tran cls self)
  /\ fuel_free (step3_confirm_tran cls self)
  /\ (total_in self - total_out self < 0 -> coin_negative_fee (coin self) = false ->
      step3_confirm_tran cls self = Ret (Err not_enough_funds, self))
  /\ (total_in self - total_out self < 0 -> coin_negative_fee (coin self) = true ->
      on_negative_fee Bitcoinlike self = Ret (Ok tt, self)
      /\ Forall_runs (fun _ r => fst r <> Err not_enough_funds)
           (step3_confirm_tran Bitcoinlike self))
  /\ on_negative_fee Bitcoin self = Ret (Err not_enough_funds, self)
  /\ (total_in self - total_out self < 0 ->
      step3_confirm_tran Bitcoin self = Ret (Err not_enough_funds, self)).
Proof.
  unfold step3_confirm_tran, on_negative_fee, Bitcoinlike_on_negative_fee,
    Bitcoin_on_negative_fee.
  unfold_m.
  split; [| split; [| split; [| split; [| split]]]].
  - case_program; (split; [repeat constructor | done]).
  - case_program; done.
  - intros Hfee Hneg. rewrite bool_decide_eq_true_2 by done.
    destruct cls; simpl; rewrite ?Hneg; done.
  - intros Hfee Hneg. rewrite bool_decide_eq_true_2 by done. simpl.
    rewrite Hneg. simpl. split; [done |]. case_program; done.
  - done.
  - intros Hfee. by rewrite bool_decide_eq_true_2.
Qed.

Lemma step3_negative_fee_witness :
  step3_confirm_tran Bitcoin (Example.signer_overspent Example.coin_bitcoin)
  = Ret (Err not_enough_funds, Example.signer_overspent Example.coin_bitcoin)
  /\ on_negative_fee Bitcoinlike (Example.signer_overspent Example.coin_reward)
     = Ret (Ok tt, Example.signer_overspent Example.coin_reward).
Proof.
  split.
  - apply (proj1 (proj2 (proj2
      (step3_negative_fee Bitcoin (Example.signer_overspent Example.coin_bitcoin)))));
      reflexivity.
  - apply (proj1 (proj2 (proj2 (proj2
      (step3_negative_fee Bitcoin (Example.signer_overspent Example.coin_reward)))))
      eq_refl eq_refl).
Defined.

(** C6, as stated, fails: on a coin whose [negative_fee] flag is true, a
    signer of class [Bitcoin] with a negative fee still ends phase 3 in
    SigningError(NotEnoughFunds). *)
Lemma negative_fee_flag_ignored_by_base :
  coin_negative_fee (coin (Example.signer_overspent Example.coin_reward)) = true
  /\ total_in (Example.signer_overspent Example.coin_reward)
     - total_out (Example.signer_overspent Example.coin_reward) < 0
  /\ on_negative_fee Bitcoin (Example.signer_overspent Example.coin_reward)
     = Ret (Err not_enough_funds, Example.signer_overspent Example.coin_reward)
  /\ step3_confirm_tran Bitcoin (Example.signer_overspent Example.coin_reward)
     = Ret (Err not_enough_funds, Example.signer_overspent Example.coin_reward).
Proof.
  split; [reflexivity |]. split; [reflexivity |]. split; [reflexivity |].
  reflexivity.
Qed.

(** ** Phase 6 *)

Lemma check_input_Err {A} `{CheckerClass A} (c : MatchChecker A) (txi : TxInputType) (e : exn) :
  check_input c txi = Err e -> e = changed_during_signing.
Proof.
  unfold check_input. destruct (is_MISMATCH _); [done |].
  destruct (negb _); [by intros [= <-] | done].
Qed.

Lemma get_hash_type_coin `{Primitives} (cls : SignerClass) (self self' : Signer) :
  coin self' = coin self -> get_hash_type cls self' = get_hash_type cls self.
Proof.
  intros Hc. unfold get_hash_type, Bitcoinlike_get_hash_type, Bitcoin_get_hash_type.
  by rewrite Hc.
Qed.






(** ** Previous transactions *)

(** C10. When the meta data of the previous transaction declares no
    more outputs than the input's [prev_index], the request for the meta
    data is the only exchange: [get_prevtx_output_value] ends there with
    SigningError(ProcessError, "Not enough outputs in previous
    transaction."), before the hash writer exists and before any input,
    output or extra data of the previous transaction is asked for; the
    legacy input that called it fails with the same error and adds
    nothing to [total_in]. *)
Theorem prevtx_not_enough_outputs `{Primitives} (cls : SignerClass) (fuel : nat)
    (h : Host) (hs : host_state h) (self : Signer) (i : Z) (txi : TxInputType) :
  let reply := respond h _ (request_tx_meta (txi_prev_hash txi)) hs in
  prev_outputs_cnt (fst reply) <= txi_prev_index txi ->
  run h (get_prevtx_output_value cls fuel (txi_prev_hash txi) (txi_prev_index txi) self) hs
  = (Some (Err not_enough_outputs, self),
     [Exchange (request_tx_meta (txi_prev_hash txi)) (fst reply)], snd reply)
  /\ exists self',
      run h (Bitcoin_process_nonsegwit_input cls fuel i txi self) hs
      = (Some (Err not_enough_outputs, self'),
         [Exchange (request_tx_meta (txi_prev_hash txi)) (fst reply)], snd reply)
      /\ total_in self' = total_in self.
Proof.
  intros reply Hcnt.
  unfold Bitcoin_process_nonsegwit_input, get_prevtx_output_value.
  unfold_m. fold reply. destruct reply as [ptx hs1]. simpl in *.
  rewrite bool_decide_eq_true_2 by done. simpl.
  split; [done |]. eexists. split; [reflexivity | done].
Qed.

Lemma prevtx_not_enough_outputs_witness :
  run (Example.scripted_host (Example.script_one_input Example.txi_beyond_outputs))
      (get_prevtx_output_value Bitcoin 0
         (txi_prev_hash Example.txi_beyond_outputs)
         (txi_prev_index Example.txi_beyond_outputs) Example.signer_fresh) tt
  = (Some (Err not_enough_outputs, Example.signer_fresh),
     [Exchange (request_tx_meta (txi_prev_hash Example.txi_beyond_outputs)) Example.prev_meta],
     tt).
Proof.
  apply (prevtx_not_enough_outputs Bitcoin 0
           (Example.scripted_host (Example.script_one_input Example.txi_beyond_outputs))
           tt Example.signer_fresh 0 Example.txi_beyond_outputs).
  simpl. lia.
Defined.

(** ** Loops *)

Section Loops.
Context `{Primitives}.

Lemma Forall_runs_mbind {A B} (m : M A) (f : A -> M B) (self : Signer)
    (Q : list IO -> result B * Signer -> Prop) :
  Forall_runs (fun tr1 rs =>
      match fst rs with
      | Ok a => Forall_runs (fun tr2 r => Q (tr1 ++ tr2) r) (f a (snd rs))
      | Err e => Q tr1 (Err e, snd rs)
      end) (m self) ->
  Forall_runs Q (bind m f self).
Proof.
  intros Hm. unfold bind. apply Forall_runs_bind.
  eapply Forall_runs_impl; [| exact Hm]. simpl.
  intros tr [[a | e] s]; simpl; [done |]. by rewrite app_nil_r.
Qed.

Lemma fuel_free_mbind {A B} (m : M A) (f : A -> M B) (self : Signer) :
  fuel_free (m self) -> (forall a s, fuel_free (f a s)) -> fuel_free (bind m f self).
Proof.
  intros Hm Hf. unfold bind. apply fuel_free_bind; [done |].
  intros [[a | e] s]; simpl; [apply Hf | done].
Qed.

Lemma fuel_free_for_each_with {A L} (l : list A) (body : A -> L -> M L) :
  (forall x locals s, fuel_free (body x locals s)) ->
  forall locals s, fuel_free (for_each_with l body locals s).
Proof.
  intros Hbody. induction l as [| x l IH]; intros locals s; simpl; [done |].
  apply fuel_free_mbind; [apply Hbody | apply IH].
Qed.

(** A loop whose body leaves [self] alone keeps an invariant of the
    exchanges so far and the local variables. *)
Lemma Forall_runs_for_each_with {A L} (l : list A) (body : A -> L -> M L)
    (Inv : list IO -> L -> Prop) (self : Signer) :
  (forall x locals tr0, Inv tr0 locals ->
     Forall_runs (fun tr rs =>
         snd rs = self /\ forall locals', fst rs = Ok locals' -> Inv (tr0 ++ tr) locals')
       (body x locals self)) ->
  forall locals tr0, Inv tr0 locals ->
    Forall_runs (fun tr rs =>
        snd rs = self /\ forall locals', fst rs = Ok locals' -> Inv (tr0 ++ tr) locals')
      (for_each_with l body locals self).
Proof.
  intros Hbody. induction l as [| x l IH]; intros locals tr0 Hinv; simpl.
  - split; [done |]. intros locals' [= <-]. by rewrite app_nil_r.
  - apply Forall_runs_mbind. eapply Forall_runs_impl; [| apply (Hbody x locals tr0 Hinv)].
    simpl. intros tr1 [[locals1 | e] s1]; simpl; intros [-> Hinv1].
    + eapply Forall_runs_impl; [| apply (IH locals1 (tr0 ++ tr1))]; [| by apply Hinv1].
      simpl. intros tr2 rs2 [-> Hinv2]. split; [done |].
      intros locals' Hok. rewrite app_assoc. by apply Hinv2.
    + done.
Qed.
End Loops.

(** ** Phase 4: legacy inputs *)

Section Phase4.
Context `{Primitives}.
Variable cls : SignerClass.

Lemma check_bytes_app (self : Signer) (tr1 tr2 : list IO) :
  check_bytes cls self (tr1 ++ tr2) = check_bytes cls self tr1 ++ check_bytes cls self tr2.
Proof. unfold check_bytes. rewrite fmap_app. apply (join_app (A:=Byte.byte)). Qed.

Lemma sign_nonsegwit_inputs_check (i_sign : Z) (self : Signer) (h0 : bytes)
    (locals : sign_locals) (tr0 : list IO) :
  h_check locals = h0 ++ check_bytes cls self tr0 ->
  Forall_runs (fun tr rs =>
      snd rs = self
      /\ forall locals', fst rs = Ok locals' ->
           h_check locals' = h0 ++ check_bytes cls self (tr0 ++ tr))
    (sign_nonsegwit_inputs i_sign locals self).
Proof.
  intros Hinv. unfold sign_nonsegwit_inputs. unfold bind at 1. unfold gets. simpl.
  apply (Forall_runs_for_each_with _ _
           (fun tr locals => h_check locals = h0 ++ check_bytes cls self tr)); [| done].
  clear locals tr0 Hinv. intros i locals tr0 Hinv.
  unfold wallet_path_check_input, multisig_fingerprint_check_input, keychain_derive_for,
    signing_script.
  unfold_m. intros txi.
  assert (Hnext : h_check locals ++ writers_tx_input_check txi
                  = h0 ++ check_bytes cls self (tr0 ++ [Exchange (request_tx_input i None) txi])).
  { rewrite check_bytes_app, Hinv. unfold check_bytes. simpl.
    by rewrite app_nil_r, app_assoc. }
  case_bool_decide; simpl; [| split; [done | by intros locals' [= <-]]].
  destruct (check_input (wallet_path self) txi); simpl; [| done].
  destruct (check_input (multisig_fingerprint self) txi); simpl; [| done].
  destruct (keychain_derive _ _ _); simpl; [| done].
  destruct (txi_script_type txi); simpl; try done.
  - split; [done | by intros locals' [= <-]].
  - destruct (txi_multisig txi); simpl; [| done].
    split; [done | by intros locals' [= <-]].
Qed.

Lemma sign_nonsegwit_outputs_check (self : Signer) (h0 : bytes)
    (locals : sign_locals) (tr0 : list IO) :
  h_check locals = h0 ++ check_bytes cls self tr0 ->
  Forall_runs (fun tr rs =>
      snd rs = self
      /\ forall locals', fst rs = Ok locals' ->
           h_check locals' = h0 ++ check_bytes cls self (tr0 ++ tr))
    (sign_nonsegwit_outputs cls locals self).
Proof.
  intros Hinv. unfold sign_nonsegwit_outputs. unfold bind at 1. unfold gets. simpl.
  apply (Forall_runs_for_each_with _ _
           (fun tr locals => h_check locals = h0 ++ check_bytes cls self tr)); [| done].
  clear locals tr0 Hinv. intros i locals tr0 Hinv.
  unfold_m. intros txo.
  destruct (output_derive_script cls self txo) as [r | e] eqn:Ed; simpl; [| done].
  split; [done |]. intros locals' [= <-]. simpl.
  rewrite check_bytes_app, Hinv. unfold check_bytes. simpl.
  by rewrite Ed, app_nil_r, app_assoc.
Qed.

Lemma sign_nonsegwit_stream_check (i_sign : Z) (self : Signer) :
  Forall_runs (fun tr rs =>
      snd rs = self
      /\ forall locals, fst rs = Ok locals -> h_check locals = check_bytes cls self tr)
    (sign_nonsegwit_stream cls i_sign self).
Proof.
  unfold sign_nonsegwit_stream. unfold bind at 1. unfold gets at 1. simpl.
  apply Forall_runs_mbind.
  eapply Forall_runs_impl;
    [| apply (sign_nonsegwit_inputs_check i_sign self [] _ [])]; [| done].
  simpl. intros tr1 [[locals1 | e] s1]; simpl; intros [-> Hc1]; [| done].
  unfold bind at 1. unfold gets at 1. simpl.
  apply Forall_runs_mbind.
  eapply Forall_runs_impl;
    [| apply (sign_nonsegwit_outputs_check self [] _ tr1)]; [| simpl; by apply Hc1].
  simpl. intros tr2 [[locals2 | e] s2]; simpl; intros [-> Hc2]; [| done].
  unfold_m. split; [done |]. intros locals [= <-]. simpl.
  rewrite app_nil_r. by apply Hc2.
Qed.

Lemma sign_nonsegwit_finish_unequal (i_sign : Z) (locals : sign_locals) (self : Signer) :
  get_digest (h_confirmed self) <> get_digest (h_check locals) ->
  sign_nonsegwit_finish cls i_sign locals self = Ret (Err changed_during_signing, self).
Proof.
  intros Hne. unfold sign_nonsegwit_finish. unfold_m.
  by rewrite bool_decide_eq_false_2.
Qed.

(** What [sign_nonsegwit_finish] leaves behind. *)
Lemma sign_nonsegwit_finish_result (i_sign : Z) (locals : sign_locals) (self : Signer) :
  exists r self',
    sign_nonsegwit_finish cls i_sign locals self = Ret (r, self')
    /\ match r with
       | Ok _ =>
         get_digest (h_confirmed self) = get_digest (h_check locals)
         /\ exists txi nd, txi_sign locals = Some txi /\ node locals = Some nd
            /\ signature self'
               = Some (ecdsa_sign nd
                         (get_tx_hash (h_sign locals) (coin_sign_hash_double (coin self)) false))
            /\ signature_index self' = Some i_sign
       | Err _ => self' = self
       end.
Proof.
  unfold sign_nonsegwit_finish. unfold_m.
  case_bool_decide as Hd; simpl; [| by eexists _, _].
  destruct (txi_sign locals) as [txi |]; simpl; [| by eexists _, _].
  destruct (node locals) as [nd |]; simpl; [| by eexists _, _].
  destruct (key_sign_pub locals) as [pub |]; simpl; [| by eexists _, _].
  destruct (txi_multisig txi) as [ms |]; simpl.
  - destruct (multisig_multisig_pubkey_index ms pub); simpl; [| by eexists _, _].
    destruct (input_derive_script cls self txi pub _); simpl; [| by eexists _, _].
    eexists _, _. split; [reflexivity |]. simpl. eauto 10.
  - destruct (input_derive_script cls self txi pub _); simpl; [| by eexists _, _].
    eexists _, _. split; [reflexivity |]. simpl. eauto 10.
Qed.

Lemma run_mbind {A B} (h : Host) (m : M A) (f : A -> M B) (self : Signer)
    (hs : host_state h) (a : A) (s1 : Signer) (tr1 : list IO) (hs1 : host_state h) :
  run h (m self) hs = (Some (Ok a, s1), tr1, hs1) ->
  run h (bind m f self) hs
  = (fst (fst (run h (f a s1) hs1)), tr1 ++ snd (fst (run h (f a s1) hs1)),
     snd (run h (f a s1) hs1)).
Proof.
  unfold bind. generalize (m self). intros p. revert hs tr1.
  induction p as [r | X e k IH |]; simpl; intros hs tr1 Hrun.
  - inversion Hrun; subst. simpl. by destruct (run h (f a s1) hs1) as [[? ?] ?].
  - destruct (respond h X e hs) as [x hs'].
    destruct (run h (k x) hs') as [[r tr] hs''] eqn:E.
    inversion Hrun; subst.
    rewrite (IH x hs' tr E). done.
  - done.
Qed.

Lemma sign_nonsegwit_input_legacy (i_sign : Z) (self : Signer) :
  cls = Bitcoin \/ coin_force_bip143 (coin self) = false ->
  sign_nonsegwit_input cls i_sign self = Bitcoin_sign_nonsegwit_input cls i_sign self.
Proof.
  unfold sign_nonsegwit_input, Bitcoinlike_sign_nonsegwit_input. unfold_m.
  intros [-> | Hf]; [done |]. destruct cls; [done |]. by rewrite Hf.
Qed.

Lemma sign_nonsegwit_stream_fuel_free (i_sign : Z) (self : Signer) :
  fuel_free (sign_nonsegwit_stream cls i_sign self).
Proof.
  unfold sign_nonsegwit_stream.
  apply fuel_free_mbind; [done |]. intros h_sign0 s0.
  apply fuel_free_mbind.
  { unfold sign_nonsegwit_inputs. apply fuel_free_mbind; [done |]. intros n s.
    apply fuel_free_for_each_with. clear. intros i locals s.
    unfold wallet_path_check_input, multisig_fingerprint_check_input, keychain_derive_for,
      signing_script.
    unfold_m. intros txi.
    repeat (case_match; simpl; try done). }
  intros locals1 s1. apply fuel_free_mbind; [done |]. intros n s2.
  apply fuel_free_mbind; [| done].
  unfold sign_nonsegwit_outputs. apply fuel_free_mbind; [done |]. intros n' s.
  apply fuel_free_for_each_with. clear. intros i locals s.
  unfold_m. intros txo. repeat (case_match; simpl; try done).
Qed.

(** C3. For a legacy input (class [Bitcoin], or a coin that does not
    force BIP-143) signed in phase 4, [sign_nonsegwit_input] always
    finishes, and:
    - if it succeeds, the digest of [h_confirmed] from phases 1 and 2
      equals the digest of [h_check], the hash recomputed from the inputs
      and outputs streamed during this call, and only then is there a
      signature;
    - if it fails, [self] is as before: nothing was serialised and no
      signature recorded;
    - once the streaming part has come through with its [h_check]
      (the bytes of exactly what was streamed), unequal digests end the
      call with SigningError(ProcessError, "Transaction has changed
      during signing"), whatever host is on the other side. *)
Theorem sign_nonsegwit_input_digest_check (i_sign : Z) (self : Signer) :
  cls = Bitcoin \/ coin_force_bip143 (coin self) = false ->
  fuel_free (sign_nonsegwit_input cls i_sign self)
  /\ Forall_runs (fun tr rs =>
       match fst rs with
       | Ok _ =>
         get_digest (h_confirmed self) = get_digest (check_bytes cls self tr)
         /\ is_Some (signature (snd rs)) /\ signature_index (snd rs) = Some i_sign
       | Err _ => snd rs = self
       end) (sign_nonsegwit_input cls i_sign self)
  /\ (forall (h : Host) (hs : host_state h) (locals : sign_locals) (s1 : Signer)
        (tr : list IO) (hs1 : host_state h),
        run h (sign_nonsegwit_stream cls i_sign self) hs = (Some (Ok locals, s1), tr, hs1) ->
        h_check locals = check_bytes cls self tr
        /\ (get_digest (h_confirmed self) <> get_digest (h_check locals) ->
            run h (sign_nonsegwit_input cls i_sign self) hs
            = (Some (Err changed_during_signing, self), tr, hs1))).
Proof.
  intros Hlegacy. rewrite (sign_nonsegwit_input_legacy i_sign self Hlegacy).
  unfold Bitcoin_sign_nonsegwit_input.
  split; [| split].
  - apply fuel_free_mbind; [apply sign_nonsegwit_stream_fuel_free |].
    intros locals s.
    destruct (sign_nonsegwit_finish_result i_sign locals s) as (r & s' & -> & _). done.
  - apply Forall_runs_mbind.
    eapply Forall_runs_impl; [| apply sign_nonsegwit_stream_check]. simpl.
    intros tr [[locals | e] s1]; simpl; intros [-> Hc]; [| done].
    destruct (sign_nonsegwit_finish_result i_sign locals self) as (r & s' & -> & Hr). simpl.
    rewrite app_nil_r. destruct r as [[] | e]; [| done].
    destruct Hr as (Hd & txi & nd & _ & _ & Hsig & Hidx).
    rewrite <- (Hc locals eq_refl). rewrite Hsig. eauto.
  - intros h hs locals s1 tr hs1 Hrun.
    destruct (run_sound h _ _ (sign_nonsegwit_stream_check i_sign self) _ _ _ _ Hrun)
      as [Hs Hc]. simpl in Hs. subst s1.
    split; [by apply Hc |]. intros Hne.
    rewrite (run_mbind h _ _ self hs locals self tr hs1 Hrun).
    rewrite (sign_nonsegwit_finish_unequal i_sign locals self Hne). simpl.
    by rewrite app_nil_r.
Qed.
End Phase4.

Lemma sign_nonsegwit_input_digest_check_witness :
  fuel_free (sign_nonsegwit_input Bitcoin 0 Example.signer_after_phase3)
  /\ Forall_runs (fun tr rs =>
       match fst rs with
       | Ok _ =>
         get_digest (h_confirmed Example.signer_after_phase3)
         = get_digest (check_bytes Bitcoin Example.signer_after_phase3 tr)
         /\ is_Some (signature (snd rs)) /\ signature_index (snd rs) = Some 0
       | Err _ => snd rs = Example.signer_after_phase3
       end) (sign_nonsegwit_input Bitcoin 0 Example.signer_after_phase3).
Proof.
  destruct (sign_nonsegwit_input_digest_check Bitcoin 0 Example.signer_after_phase3
              (or_introl eq_refl)) as (Hfree & Hruns & _).
  split; [exact Hfree | exact Hruns].
Defined.

(** The two cases on the example: the host streams in phase 4 what it
    streamed before and gets its signature (70 bytes, in an input of 147
    bytes); the host redirects the first output and is turned away with
    nothing signed and nothing serialised. *)
Example sign_nonsegwit_input_same_stream :
  summary (run (Example.scripted_host Example.script_spend)
             (sign_nonsegwit_input Bitcoin 0 Example.signer_after_phase3) tt)
  = Some (Ok tt, Some 0, 70%nat, 147%nat).
Proof. vm_compute. reflexivity. Qed.

Example sign_nonsegwit_input_redirected :
  summary (run (Example.scripted_host Example.script_spend_redirected)
             (sign_nonsegwit_input Bitcoin 0 Example.signer_after_phase3) tt)
  = Some (Err changed_during_signing, None, 0%nat, 0%nat).
Proof. vm_compute. reflexivity. Qed.

(** ** A checker that started fresh *)

Section FreshChecker.
Context {A : Type} `{CheckerClass A}.

(** X1. A checker never gets to hold anything: [add_input] raises
    [NameError] before it reads or writes [attribute], so after any
    sequence of [add_input] and [output_matches] calls a checker that
    started fresh is still UNDEFINED, [check_input] raises
    SigningError(ProcessError, "Transaction has changed during signing")
    for every input, and [output_matches] returns False for every
    output. *)
Theorem fresh_checker_refuses (calls : list checker_call) (txi : TxInputType)
    (txo : TxOutputType) :
  attribute (do_calls MatchChecker_init calls) = UNDEFINED
  /\ check_input (do_calls MatchChecker_init calls) txi = Err changed_during_signing
  /\ fst (output_matches (do_calls MatchChecker_init calls) txo) = false.
Proof.
  assert (Ha : attribute (do_calls (@MatchChecker_init A) calls) = UNDEFINED)
    by apply do_calls_attribute.
  split; [exact Ha |]. unfold check_input, output_matches. simpl. by rewrite Ha.
Qed.
End FreshChecker.

(** ** Change outputs, continued *)

Section ChangeOutputs.
Context `{Primitives}.

Lemma output_matches_attribute {A} `{CheckerClass A} (c c' : MatchChecker A)
    (txo : TxOutputType) :
  attribute c = attribute c' -> fst (output_matches c txo) = fst (output_matches c' txo).
Proof. unfold output_matches. simpl. intros Heq. rewrite Heq. by destruct (is_MISMATCH _). Qed.

Lemma output_matches_keeps_attribute {A} `{CheckerClass A} (c : MatchChecker A)
    (txo : TxOutputType) :
  attribute (snd (output_matches c txo)) = attribute c.
Proof. unfold output_matches. simpl. by destruct (is_MISMATCH _). Qed.

(** The verdict depends on the two checkers through their attributes only. *)
Lemma output_is_change_verdict (self self' : Signer) (txo : TxOutputType) :
  attribute (wallet_path self) = attribute (wallet_path self') ->
  attribute (multisig_fingerprint self) = attribute (multisig_fingerprint self') ->
  fst (output_is_change self txo) = fst (output_is_change self' txo).
Proof.
  intros Hw Hm. unfold output_is_change.
  destruct (negb _); [done |].
  unfold multisig_fingerprint_output_matches, wallet_path_output_matches.
  pose proof (output_matches_attribute _ _ txo Hm) as Em.
  destruct (txo_multisig txo) as [ms |].
  - destruct (output_matches (multisig_fingerprint self) txo) as [bm cm].
    destruct (output_matches (multisig_fingerprint self') txo) as [bm' cm'].
    simpl in Em. subst bm'. destruct bm; simpl; [| done].
    pose proof (output_matches_attribute _ _ txo Hw) as Ew.
    destruct (output_matches (wallet_path self) txo) as [bw cw].
    destruct (output_matches (wallet_path self') txo) as [bw' cw'].
    simpl in Ew. subst bw'. destruct bw; simpl; [| done].
    destruct (index_neg (txo_address_n txo) 2); simpl; [| done].
    destruct (negb _); [done |].
    by destruct (index_neg (txo_address_n txo) 1).
  - simpl.
    pose proof (output_matches_attribute _ _ txo Hw) as Ew.
    destruct (output_matches (wallet_path self) txo) as [bw cw].
    destruct (output_matches (wallet_path self') txo) as [bw' cw'].
    simpl in Ew. subst bw'. destruct bw; simpl; [| done].
    destruct (index_neg (txo_address_n txo) 2); simpl; [| done].
    destruct (negb _); [done |].
    by destruct (index_neg (txo_address_n txo) 1).
Qed.

(** [output_is_change] touches nothing of [self] but the read-only
    latches of the two checkers. *)
Lemma output_is_change_state (self : Signer) (txo : TxOutputType) :
  exists cw cm,
    snd (output_is_change self txo) = set_multisig_fingerprint cm (set_wallet_path cw self)
    /\ attribute cw = attribute (wallet_path self)
    /\ attribute cm = attribute (multisig_fingerprint self).
Proof.
  assert (Hself : self = set_multisig_fingerprint (multisig_fingerprint self)
                           (set_wallet_path (wallet_path self) self)) by by destruct self.
  unfold output_is_change.
  destruct (negb _); [by exists (wallet_path self), (multisig_fingerprint self) |].
  unfold multisig_fingerprint_output_matches, wallet_path_output_matches.
  destruct (txo_multisig txo) as [ms |].
  - pose proof (output_matches_keeps_attribute (multisig_fingerprint self) txo) as Em.
    destruct (output_matches (multisig_fingerprint self) txo) as [bm cm]. simpl in Em.
    destruct bm; simpl.
    + pose proof (output_matches_keeps_attribute (wallet_path self) txo) as Ew.
      destruct (output_matches (wallet_path self) txo) as [bw cw]. simpl in Ew.
      exists cw, cm.
      destruct bw; simpl; [| done].
      destruct (index_neg (txo_address_n txo) 2); simpl; [| done].
      destruct (negb _); [done |].
      by destruct (index_neg (txo_address_n txo) 1).
    + exists (wallet_path self), cm. by destruct self.
  - simpl.
    pose proof (output_matches_keeps_attribute (wallet_path self) txo) as Ew.
    destruct (output_matches (wallet_path self) txo) as [bw cw]. simpl in Ew.
    exists cw, (multisig_fingerprint self).
    destruct bw; simpl; [| by destruct self].
    destruct (index_neg (txo_address_n txo) 2); simpl; [| by destruct self].
    destruct (negb _); [by destruct self |].
    destruct (index_neg (txo_address_n txo) 1); by destruct self.
Qed.

Lemma index_neg_total {X} (l : list X) (k : Z) :
  0 < k -> k <= Z.of_nat (length l) -> exists x, index_neg l k = Ok x.
Proof.
  intros Hk Hl. unfold index_neg. rewrite bool_decide_eq_false_2 by lia.
  destruct (l !! _) as [x |] eqn:E; [by exists x |].
  apply lookup_ge_None in E. lia.
Qed.

(** X4. Whenever the value that the wallet-path checker holds, if it
    holds one, is a non-empty path prefix, [output_is_change] returns a
    verdict for every output: the path elements [address_n[-2]] and
    [address_n[-1]] are read only after the checker has admitted the
    output, and then the path has at least three elements, so no
    IndexError can arise. *)
Theorem output_is_change_no_exception (self : Signer) (txo : TxOutputType) :
  (forall v, attribute (wallet_path self) = Value v -> truthy v = true) ->
  exists b, fst (output_is_change self txo) = Ok b.
Proof.
  intros Hw. unfold output_is_change.
  destruct (negb _); [by eexists |].
  assert (Hlen : fst (output_matches (wallet_path self) txo) = true ->
                 3 <= Z.of_nat (length (txo_address_n txo))).
  { unfold output_matches. simpl.
    destruct (attribute (wallet_path self)) as [| | v] eqn:Ea; simpl; [done | done |].
    intros Hv%bool_decide_eq_true. specialize (Hw v eq_refl). rewrite Hv in Hw.
    simpl in Hw. rename Hw into Ht.
    destruct (txo_address_n txo) as [| a l]; [done |]. simpl in Ht.
    unfold slice_to_neg, _BIP32_WALLET_DEPTH in Ht. simpl in Ht.
    destruct l as [| b [| c l']]; simpl in *; try done. lia. }
  unfold multisig_fingerprint_output_matches, wallet_path_output_matches.
  assert (Hrest : forall self0 : Signer,
    wallet_path self0 = wallet_path self ->
    exists b, fst (let '(b, self1) := let '(b, c) := output_matches (wallet_path self0) txo in
                                 (b, set_wallet_path c self0) in
      if negb b then (Ok false, self1)
      else
        match index_neg (txo_address_n txo) 2 with
        | Err e => (Err e, self1)
        | Ok chain =>
          if negb (bool_decide (chain <= _BIP32_CHANGE_CHAIN)) then (Ok false, self1)
          else
            match index_neg (txo_address_n txo) 1 with
            | Err e => (Err e, self1)
            | Ok last => (Ok (bool_decide (last <= _BIP32_MAX_LAST_ELEMENT)), self1)
            end
        end) = Ok b).
  { intros self0 ->.
    destruct (output_matches (wallet_path self) txo) as [bw cw]. simpl in Hlen.
    destruct bw; simpl; [| by eexists].
    destruct (index_neg_total (txo_address_n txo) 2) as [chain ->]; [lia | lia |].
    destruct (negb _); [by eexists |].
    destruct (index_neg_total (txo_address_n txo) 1) as [last ->]; [lia | lia |].
    by eexists. }
  destruct (txo_multisig txo) as [ms |].
  - destruct (output_matches (multisig_fingerprint self) txo) as [bm cm].
    destruct bm; simpl; [| by eexists]. apply (Hrest (set_multisig_fingerprint cm self)). done.
  - simpl. by apply (Hrest self).
Qed.
End ChangeOutputs.

Lemma output_is_change_no_exception_witness :
  exists b, fst (output_is_change Example.signer_after_p2pkh_input (Example.txo_change 48000))
            = Ok b.
Proof.
  apply (output_is_change_no_exception Example.signer_after_p2pkh_input).
  intros v [= <-]. reflexivity.
Defined.

(** ** Confirming outputs *)

Section ConfirmOutput.
Context `{Primitives}.

Lemma output_is_change_fields (self : Signer) (txo : TxOutputType) :
  let s := snd (output_is_change self txo) in
  change_out s = change_out self /\ total_out s = total_out self
  /\ h_confirmed s = h_confirmed self
  /\ attribute (wallet_path s) = attribute (wallet_path self)
  /\ attribute (multisig_fingerprint s) = attribute (multisig_fingerprint self).
Proof.
  destruct (output_is_change_state self txo) as (cw & cm & -> & Hw & Hm). by simpl.
Qed.

(** X5. [confirm_output] adds an output to [total_out] and to the
    confirmation hash only in two cases: without any prompt, when
    [change_out] is still zero and the output is change (its amount
    becomes [change_out]); or after the user has answered the prompt for
    this output with yes.  When it fails, the totals, the hash and
    [change_out] are as before, and a refusal of the user appears as
    SigningError(ActionCancelled, "Output cancelled"). *)
Theorem confirm_output_counts_confirmed (self : Signer) (i : Z) (txo : TxOutputType)
    (txo_bin : TxOutputBinType) :
  Forall_runs (fun tr rs =>
      match fst rs with
      | Ok _ =>
        total_out (snd rs) = total_out self + bin_amount txo_bin
        /\ h_confirmed (snd rs) = h_confirmed self ++ writers_tx_output txo_bin
        /\ ((tr = [] /\ change_out self = 0 /\ fst (output_is_change self txo) = Ok true
             /\ change_out (snd rs) = txo_amount txo)
            \/ (tr = [Exchange (confirm_output_ui txo) true]
                /\ change_out (snd rs) = change_out self))
      | Err e =>
        total_out (snd rs) = total_out self /\ h_confirmed (snd rs) = h_confirmed self
        /\ change_out (snd rs) = change_out self
        /\ (tr = [] \/ (tr = [Exchange (confirm_output_ui txo) false] /\ e = output_cancelled))
      end) (confirm_output i txo txo_bin self).
Proof.
  unfold confirm_output. unfold_m.
  case_bool_decide as Hc; simpl.
  - pose proof (output_is_change_fields self txo) as (Hco & Hto & Hh & _).
    destruct (output_is_change self txo) as [[b | e] s] eqn:E; simpl in *.
    + destruct b; simpl.
      * rewrite Hto, Hh. eauto 10.
      * intros []; simpl; rewrite ?Hto, ?Hh, ?Hco; eauto 10.
    + rewrite Hto, Hh, Hco. eauto.
  - intros []; simpl; eauto 10.
Qed.

Lemma confirm_output_change (self : Signer) (i : Z) (txo : TxOutputType)
    (txo_bin : TxOutputBinType) :
  change_out self = 0 -> fst (output_is_change self txo) = Ok true ->
  exists self',
    confirm_output i txo txo_bin self = Ret (Ok tt, self')
    /\ change_out self' = txo_amount txo
    /\ total_out self' = total_out self + bin_amount txo_bin
    /\ attribute (wallet_path self') = attribute (wallet_path self)
    /\ attribute (multisig_fingerprint self') = attribute (multisig_fingerprint self).
Proof.
  intros Hc Hch. unfold confirm_output. unfold_m.
  rewrite bool_decide_eq_true_2 by done. simpl.
  pose proof (output_is_change_fields self txo) as (Hco & Hto & Hh & Hw & Hm).
  destruct (output_is_change self txo) as [r s]. simpl in *. subst r. simpl.
  eexists. split; [reflexivity |]. simpl. by rewrite Hto.
Qed.

(** X6. A change output of amount zero leaves [change_out] at zero, the
    value that stands for "no change output yet": the next output that
    qualifies as change is accepted without a prompt as well, and its
    amount becomes [change_out]. *)
Theorem zero_amount_change_leaves_guard_open (self : Signer) (i1 i2 : Z)
    (txo1 txo2 : TxOutputType) (bin1 bin2 : TxOutputBinType) :
  change_out self = 0 ->
  fst (output_is_change self txo1) = Ok true -> txo_amount txo1 = 0 ->
  fst (output_is_change self txo2) = Ok true ->
  exists self2,
    bind (confirm_output i1 txo1 bin1) (fun _ => confirm_output i2 txo2 bin2) self
    = Ret (Ok tt, self2)
    /\ change_out self2 = txo_amount txo2
    /\ total_out self2 = total_out self + bin_amount bin1 + bin_amount bin2.
Proof.
  intros Hc H1 Hz H2.
  destruct (confirm_output_change self i1 txo1 bin1 Hc H1) as (s1 & E1 & Hc1 & Ht1 & Hw1 & Hm1).
  rewrite Hz in Hc1.
  assert (H2' : fst (output_is_change s1 txo2) = Ok true).
  { by rewrite (output_is_change_verdict s1 self txo2 Hw1 Hm1). }
  destruct (confirm_output_change s1 i2 txo2 bin2 Hc1 H2') as (s2 & E2 & Hc2 & Ht2 & _).
  exists s2. unfold bind at 1. rewrite E1. simpl. rewrite E2.
  split; [done |]. split; [done |]. by rewrite Ht2, Ht1.
Qed.

(** X7. Once a change output of non-zero amount has been accepted, the
    next output is put before the user whether or not it qualifies as
    change; [change_out] stays the amount of the first, and a refusal
    ends in SigningError(ActionCancelled, "Output cancelled"). *)
Theorem later_outputs_are_confirmed (self : Signer) (i1 i2 : Z)
    (txo1 txo2 : TxOutputType) (bin1 bin2 : TxOutputBinType) :
  change_out self = 0 ->
  fst (output_is_change self txo1) = Ok true -> txo_amount txo1 <> 0 ->
  exists k,
    bind (confirm_output i1 txo1 bin1) (fun _ => confirm_output i2 txo2 bin2) self
    = Vis (confirm_output_ui txo2) k
    /\ forall answer, exists r self2,
         k answer = Ret (r, self2)
         /\ change_out self2 = txo_amount txo1
         /\ r = (if answer then Ok tt else Err output_cancelled).
Proof.
  intros Hc H1 Hnz.
  destruct (confirm_output_change self i1 txo1 bin1 Hc H1) as (s1 & E1 & Hc1 & Ht1 & Hw1 & Hm1).
  unfold bind at 1. rewrite E1. simpl.
  unfold confirm_output. unfold_m.
  rewrite bool_decide_eq_false_2 by congruence. simpl.
  eexists. split; [reflexivity |]. intros []; simpl; eauto.
Qed.
End ConfirmOutput.

Lemma zero_amount_change_leaves_guard_open_witness :
  exists self2,
    bind (confirm_output 0 (Example.txo_change 0) {| bin_amount := 0; bin_script_pubkey := [] |})
         (fun _ => confirm_output 1 (Example.txo_change 48000)
                     {| bin_amount := 48000; bin_script_pubkey := [] |})
         Example.signer_after_p2pkh_input
    = Ret (Ok tt, self2)
    /\ change_out self2 = 48000.
Proof.
  destruct (zero_amount_change_leaves_guard_open Example.signer_after_p2pkh_input 0 1
              (Example.txo_change 0) (Example.txo_change 48000)
              {| bin_amount := 0; bin_script_pubkey := [] |}
              {| bin_amount := 48000; bin_script_pubkey := [] |})
    as (self2 & Hrun & Hc & _).
  - reflexivity.
  - vm_compute. reflexivity.
  - reflexivity.
  - vm_compute. reflexivity.
  - exists self2. split; [exact Hrun | exact Hc].
Defined.

Lemma later_outputs_are_confirmed_witness :
  exists k,
    bind (confirm_output 0 (Example.txo_change 30000)
            {| bin_amount := 30000; bin_script_pubkey := [] |})
         (fun _ => confirm_output 1 (Example.txo_change 48000)
                     {| bin_amount := 48000; bin_script_pubkey := [] |})
         Example.signer_after_p2pkh_input
    = Vis (confirm_output_ui (Example.txo_change 48000)) k.
Proof.
  destruct (later_outputs_are_confirmed Example.signer_after_p2pkh_input 0 1
              (Example.txo_change 30000) (Example.txo_change 48000)
              {| bin_amount := 30000; bin_script_pubkey := [] |}
              {| bin_amount := 48000; bin_script_pubkey := [] |})
    as (k & Hrun & _).
  - reflexivity.
  - vm_compute. reflexivity.
  - simpl. lia.
  - exists k. exact Hrun.
Defined.


(** ** Previous transactions, in full *)

Section PrevTx.
Context `{Primitives}.
Variable cls : SignerClass.
Variable fuel : nat.

(** A loop whose body neither fails nor touches [self] keeps an
    invariant of the elements done, the exchanges so far and the local
    variables. *)
Lemma Forall_runs_for_each_with_ok {A L} (l : list A) (body : A -> L -> M L)
    (Inv : list A -> list IO -> L -> Prop) (self : Signer) :
  (forall seen x locals tr0, Inv seen tr0 locals ->
     Forall_runs (fun tr rs =>
         exists locals', rs = (Ok locals', self) /\ Inv (seen ++ [x]) (tr0 ++ tr) locals')
       (body x locals self)) ->
  forall seen locals tr0, Inv seen tr0 locals ->
    Forall_runs (fun tr rs =>
        exists locals', rs = (Ok locals', self) /\ Inv (seen ++ l) (tr0 ++ tr) locals')
      (for_each_with l body locals self).
Proof.
  intros Hbody. induction l as [| x l IH]; intros seen locals tr0 Hinv; simpl.
  - exists locals. by rewrite !app_nil_r.
  - apply Forall_runs_mbind. eapply Forall_runs_impl; [| apply (Hbody seen x locals tr0 Hinv)].
    simpl. intros tr1 rs1 (locals1 & -> & Hinv1). simpl.
    eapply Forall_runs_impl; [| apply (IH (seen ++ [x]) locals1 (tr0 ++ tr1) Hinv1)].
    simpl. intros tr2 rs2 (locals2 & -> & Hinv2). exists locals2. split; [done |].
    by rewrite <- !app_assoc in Hinv2.
Qed.

Lemma prev_inputs_loop (prev_hash : bytes) (idxs : list Z) (txh : bytes) (self : Signer) :
  Forall_runs (fun tr rs =>
      exists ins,
        rs = (Ok (txh ++ mjoin (writers_tx_input <$> ins)), self)
        /\ omap prev_item tr = PrevInput <$> ins /\ length ins = length idxs)
    (for_each_with idxs (fun i txh =>
       bind (await (request_tx_input i (Some prev_hash)))
            (fun txi => ret (write_tx_input txh txi))) txh self).
Proof.
  eapply Forall_runs_impl;
    [| apply (Forall_runs_for_each_with_ok idxs _
               (fun seen tr txh' =>
                  exists ins, txh' = txh ++ mjoin (writers_tx_input <$> ins)
                              /\ omap prev_item tr = PrevInput <$> ins
                              /\ length ins = length seen) self) with (seen := []) (tr0 := [])].
  - simpl. intros tr rs (txh' & -> & ins & -> & Htr & Hlen). eauto.
  - intros seen i txh' tr0 (ins & -> & Htr & Hlen). unfold_m. intros txi.
    eexists. split; [reflexivity |]. exists (ins ++ [txi]).
    rewrite fmap_app, omap_app, Htr, fmap_app, !length_app, Hlen. simpl.
    split; [| done]. unfold write_tx_input.
    rewrite (join_app (A:=byte)). simpl. by rewrite app_nil_r, app_assoc.
  - exists []. simpl. by rewrite app_nil_r.
Qed.

Lemma amount_scan_snoc (prev_index : Z) (idxs : list Z) (outs : list TxOutputBinType)
    (i : Z) (o : TxOutputBinType) (a : Z) :
  length outs = length idxs ->
  amount_scan prev_index (idxs ++ [i]) (outs ++ [o]) a
  = if bool_decide (i = prev_index) then bin_amount o
    else amount_scan prev_index idxs outs a.
Proof.
  revert outs a. induction idxs as [| j idxs IH]; intros [| o' outs] a Hlen; simpl in *;
    try done.
  apply IH. lia.
Qed.

Lemma prev_outputs_loop (prev_hash : bytes) (prev_index : Z) (idxs : list Z) (txh : bytes)
    (self : Signer) :
  Forall_runs (fun tr rs =>
      exists outs,
        rs = (Ok (txh ++ mjoin (writers_tx_output <$> outs),
                  amount_scan prev_index idxs outs 0), self)
        /\ omap prev_item tr = PrevOutput <$> outs /\ length outs = length idxs)
    (for_each_with idxs (fun i locals =>
       bind (await (request_prev_tx_output i prev_hash)) (fun txo_bin =>
         let txh := fst locals ++ writers_tx_output txo_bin in
         if bool_decide (i = prev_index) then
           bind (check_prevtx_output txo_bin) (fun _ => ret (txh, bin_amount txo_bin))
         else ret (txh, snd locals))) (txh, 0) self).
Proof.
  eapply Forall_runs_impl;
    [| apply (Forall_runs_for_each_with_ok idxs _
               (fun seen tr locals =>
                  exists outs, locals = (txh ++ mjoin (writers_tx_output <$> outs),
                                         amount_scan prev_index seen outs 0)
                              /\ omap prev_item tr = PrevOutput <$> outs
                              /\ length outs = length seen) self) with (seen := []) (tr0 := [])].
  - simpl. intros tr rs (locals & -> & outs & -> & Htr & Hlen). eauto.
  - intros seen i locals tr0 (outs & -> & Htr & Hlen). unfold check_prevtx_output. unfold_m.
    intros txo_bin.
    assert (Hb : (txh ++ mjoin (writers_tx_output <$> outs)) ++ writers_tx_output txo_bin
                 = txh ++ mjoin (writers_tx_output <$> outs ++ [txo_bin])).
    { rewrite fmap_app, (join_app (A:=byte)). simpl. by rewrite app_nil_r, app_assoc. }
    case_bool_decide as Hi; simpl.
    + eexists. split; [reflexivity |]. exists (outs ++ [txo_bin]).
      rewrite amount_scan_snoc, bool_decide_eq_true_2 by done.
      rewrite Hb. split; [done |].
      split; [by rewrite omap_app, Htr, fmap_app | by rewrite !length_app, Hlen].
    + eexists. split; [reflexivity |]. exists (outs ++ [txo_bin]).
      rewrite amount_scan_snoc, bool_decide_eq_false_2 by done.
      rewrite Hb. split; [done |].
      split; [by rewrite omap_app, Htr, fmap_app | by rewrite !length_app, Hlen].
  - exists []. simpl. by rewrite app_nil_r.
Qed.

(** After a full scan [amount_out] is the amount of output [prev_index]. *)
Lemma amount_scan_range (prev_index : Z) (n : nat) (outs : list TxOutputBinType) :
  length outs = n ->
  amount_scan prev_index (Z.of_nat <$> seq 0 n) outs 0 = referenced_amount prev_index outs.
Proof.
  revert outs. induction n as [| n IH]; intros outs Hlen.
  - destruct outs; [| done]. unfold referenced_amount. simpl. by case_bool_decide.
  - destruct (decide (outs = [])) as [-> | Hne]; [done |].
    destruct (exists_last Hne) as (outs' & o & ->).
    rewrite length_app in Hlen. simpl in Hlen.
    rewrite seq_S, fmap_app. simpl.
    rewrite amount_scan_snoc by (rewrite length_fmap, length_seq; lia).
    rewrite IH by lia. unfold referenced_amount.
    case_bool_decide as Hi.
    + subst prev_index. rewrite bool_decide_eq_true_2 by lia.
      rewrite Nat2Z.id, lookup_app_r by lia.
      replace (n - length outs')%nat with 0%nat by lia. done.
    + case_bool_decide as Hpos; [| done].
      destruct (decide (Z.to_nat prev_index < length outs')%nat) as [Hlt | Hge].
      * by rewrite lookup_app_l.
      * rewrite !lookup_ge_None_2; [done | | lia].
        rewrite length_app. simpl. lia.
Qed.

Lemma extra_data_loop_stream (n : nat) (w : bytes) (ptx : TransactionType)
    (prev_hash : bytes) (ofs : Z) (self : Signer) :
  Forall_runs (fun tr rs =>
      exists extra, rs = (Ok (w ++ mjoin extra), self)
                    /\ omap prev_item tr = PrevExtra <$> extra)
    (extra_data_loop n w ptx prev_hash ofs self).
Proof.
  revert w ofs. induction n as [| n IH]; intros w ofs; simpl.
  - case_bool_decide; simpl; [done |]. exists []. by rewrite app_nil_r.
  - case_bool_decide; simpl; [| exists []; by rewrite app_nil_r].
    unfold_m. intros data.
    eapply Forall_runs_impl; [| apply IH]. simpl.
    intros tr rs (extra & -> & Htr). exists (data :: extra).
    split; [by rewrite <- app_assoc |]. simpl. f_equal. exact Htr.
Qed.

Lemma write_prev_tx_footer_stream (w : bytes) (ptx : TransactionType) (prev_hash : bytes)
    (self : Signer) :
  Forall_runs (fun tr rs =>
      exists extra, rs = (Ok (w ++ writers_uint32 (prev_lock_time ptx) ++ mjoin extra), self)
                    /\ omap prev_item tr = PrevExtra <$> extra
                    /\ (cls = Bitcoin \/ coin_extra_data (coin self) = false -> tr = []))
    (write_prev_tx_footer cls fuel w ptx prev_hash self).
Proof.
  unfold write_prev_tx_footer, Bitcoinlike_write_prev_tx_footer, Bitcoin_write_prev_tx_footer.
  destruct cls; unfold_m.
  - exists []. by rewrite !app_nil_r.
  - destruct (coin_extra_data (coin self)); simpl.
    + eapply Forall_runs_impl; [| apply extra_data_loop_stream]. simpl.
      intros tr rs (extra & -> & Htr). exists extra. rewrite app_assoc.
      split; [done |]. split; [done |]. by intros [? | ?].
    + exists []. by rewrite !app_nil_r.
Qed.

Lemma get_prevtx_stream_bytes (ptx : TransactionType) (prev_hash : bytes) (prev_index : Z)
    (self : Signer) :
  Forall_runs (fun tr rs =>
      exists ins outs extra,
        rs = (Ok (prevtx_bytes cls self ptx ins outs extra,
                  referenced_amount prev_index outs), self)
        /\ omap prev_item tr
           = (PrevInput <$> ins) ++ (PrevOutput <$> outs) ++ (PrevExtra <$> extra)
        /\ length ins = Z.to_nat (prev_inputs_cnt ptx)
        /\ length outs = Z.to_nat (prev_outputs_cnt ptx))
    (get_prevtx_stream cls fuel ptx prev_hash prev_index self).
Proof.
  unfold get_prevtx_stream. unfold bind at 1. unfold gets. simpl.
  apply Forall_runs_mbind.
  eapply Forall_runs_impl; [| apply prev_inputs_loop]. simpl.
  intros tr1 rs1 (ins & -> & Htr1 & Hlen1). simpl.
  apply Forall_runs_mbind.
  eapply Forall_runs_impl; [| apply prev_outputs_loop]. simpl.
  intros tr2 rs2 (outs & -> & Htr2 & Hlen2). simpl.
  apply Forall_runs_mbind.
  eapply Forall_runs_impl; [| apply write_prev_tx_footer_stream]. simpl.
  intros tr3 rs3 (extra & -> & Htr3 & _). simpl.
  unfold range in *. rewrite length_fmap, length_seq in Hlen1, Hlen2.
  exists ins, outs, extra.
  rewrite amount_scan_range by done.
  rewrite app_nil_r, !omap_app, Htr1, Htr2, Htr3.
  split; [| done]. unfold prevtx_bytes, create_hash_writer.
  unfold write_tx_header, Bitcoin_write_tx_header, Bitcoinlike_write_tx_header.
  destruct cls; simpl; [| destruct (coin_timestamp (coin self))];
    by rewrite <- ?app_assoc.
Qed.

Lemma get_prevtx_output_value_runs (prev_hash : bytes) (prev_index : Z) (self : Signer) :
  Forall_runs (fun tr rs =>
      snd rs = self
      /\ match fst rs with
         | Ok amount =>
           exists ptx ins outs extra,
             omap prev_item tr
             = PrevMeta ptx :: (PrevInput <$> ins) ++ (PrevOutput <$> outs)
                 ++ (PrevExtra <$> extra)
             /\ length ins = Z.to_nat (prev_inputs_cnt ptx)
             /\ length outs = Z.to_nat (prev_outputs_cnt ptx)
             /\ prev_index < prev_outputs_cnt ptx
             /\ get_tx_hash (prevtx_bytes cls self ptx ins outs extra)
                  (coin_sign_hash_double (coin self)) true = prev_hash
             /\ amount = referenced_amount prev_index outs
         | Err e => e = not_enough_outputs \/ e = invalid_prev_hash
         end)
    (get_prevtx_output_value cls fuel prev_hash prev_index self).
Proof.
  unfold get_prevtx_output_value. unfold bind at 1. unfold await. simpl. intros ptx.
  case_bool_decide as Hcnt; simpl; [unfold_m; eauto |].
  apply Forall_runs_mbind.
  eapply Forall_runs_impl; [| apply get_prevtx_stream_bytes]. simpl.
  intros tr rs (ins & outs & extra & -> & Htr & Hlen1 & Hlen2). simpl.
  unfold_m. case_bool_decide as Hh; simpl; [| eauto].
  split; [done |]. exists ptx, ins, outs, extra.
  rewrite app_nil_r. split; [f_equal; exact Htr |].
  split; [done |]. split; [done |]. split; [lia |]. split; [exact Hh | done].
Qed.

Lemma fuel_free_bind_runs {R T} (p : Prog R) (f : R -> Prog T) (P : list IO -> R -> Prop) :
  fuel_free p -> Forall_runs P p -> (forall tr r, P tr r -> fuel_free (f r)) ->
  fuel_free (prog_bind p f).
Proof.
  revert P. induction p as [r | X e k IH |]; simpl; intros P Hp HP Hf.
  - by apply (Hf [] r).
  - intros x. apply (IH x _ (Hp x) (HP x)). intros tr r. apply Hf.
  - done.
Qed.

Lemma fuel_free_mbind_runs {A B} (m : M A) (f : A -> M B) (self : Signer)
    (P : list IO -> result A * Signer -> Prop) :
  fuel_free (m self) -> Forall_runs P (m self) ->
  (forall tr a s, P tr (Ok a, s) -> fuel_free (f a s)) ->
  fuel_free (bind m f self).
Proof.
  intros Hm HP Hf. unfold bind. apply (fuel_free_bind_runs _ _ P); [done | done |].
  intros tr [[a | e] s] Hr; simpl; [by apply (Hf tr) | done].
Qed.

Lemma get_prevtx_output_value_fuel_free (prev_hash : bytes) (prev_index : Z) (self : Signer) :
  cls = Bitcoin \/ coin_extra_data (coin self) = false ->
  fuel_free (get_prevtx_output_value cls fuel prev_hash prev_index self).
Proof.
  intros Hlegacy. unfold get_prevtx_output_value.
  unfold bind at 1. unfold await. simpl. intros ptx.
  case_bool_decide; [done |].
  apply fuel_free_mbind; [| intros [txh a] s'; unfold_m; by case_bool_decide].
  unfold get_prevtx_stream. unfold bind at 1. unfold gets. simpl.
  eapply fuel_free_mbind_runs; [| apply prev_inputs_loop |].
  { apply fuel_free_for_each_with. intros i w s1. by unfold_m. }
  simpl. intros tr1 txh1 s1 (ins & [= -> ->] & _).
  eapply fuel_free_mbind_runs; [| apply prev_outputs_loop |].
  { apply fuel_free_for_each_with. intros i locals s2. unfold check_prevtx_output. unfold_m.
    intros txo_bin. by case_bool_decide. }
  simpl. intros tr2 locals s2 (outs & [= -> ->] & _). simpl.
  apply fuel_free_mbind; [| done].
  unfold write_prev_tx_footer, Bitcoinlike_write_prev_tx_footer, Bitcoin_write_prev_tx_footer.
  destruct Hlegacy as [-> | Hx]; [done |]. destruct cls; [done |]. unfold_m. by rewrite Hx.
Qed.

(** X8. Whatever the host sends, [get_prevtx_output_value] leaves [self]
    alone and fails only with "Not enough outputs in previous
    transaction." or "Encountered invalid prev_hash".  When it returns an
    amount, the host has sent the meta data, as many inputs and outputs
    as the meta data announce, and perhaps extra data; the serialisation
    of all that, hashed once or twice as [coin.sign_hash_double] says and
    reversed, is [prev_hash]; and the amount is that of output
    [prev_index] of what was hashed.  For class [Bitcoin] and for coins
    without extra data the call always finishes. *)
Theorem get_prevtx_output_value_checked (prev_hash : bytes) (prev_index : Z) (self : Signer) :
  Forall_runs (fun tr rs =>
      snd rs = self
      /\ match fst rs with
         | Ok amount =>
           exists ptx ins outs extra,
             omap prev_item tr
             = PrevMeta ptx :: (PrevInput <$> ins) ++ (PrevOutput <$> outs)
                 ++ (PrevExtra <$> extra)
             /\ length ins = Z.to_nat (prev_inputs_cnt ptx)
             /\ length outs = Z.to_nat (prev_outputs_cnt ptx)
             /\ prev_index < prev_outputs_cnt ptx
             /\ get_tx_hash (prevtx_bytes cls self ptx ins outs extra)
                  (coin_sign_hash_double (coin self)) true = prev_hash
             /\ amount = referenced_amount prev_index outs
         | Err e => e = not_enough_outputs \/ e = invalid_prev_hash
         end)
    (get_prevtx_output_value cls fuel prev_hash prev_index self)
  /\ (cls = Bitcoin \/ coin_extra_data (coin self) = false ->
      fuel_free (get_prevtx_output_value cls fuel prev_hash prev_index self)).
Proof.
  split.
  - apply get_prevtx_output_value_runs.
  - apply get_prevtx_output_value_fuel_free.
Qed.

(** X9. A legacy input adds to [total_in] exactly the amount of the
    output it refers to, taken from a previous transaction whose hash is
    the input's [prev_hash]; it is marked as not segwit and [bip143_in]
    stays as it is.  If the previous transaction cannot be verified,
    [total_in] is unchanged. *)
Theorem process_nonsegwit_input_total (i : Z) (txi : TxInputType) (self : Signer) :
  Forall_runs (fun tr rs =>
      bip143_in (snd rs) = bip143_in self
      /\ segwit (snd rs) = <[i := false]> (segwit self)
      /\ match fst rs with
         | Ok _ =>
           exists ptx ins outs extra,
             omap prev_item tr
             = PrevMeta ptx :: (PrevInput <$> ins) ++ (PrevOutput <$> outs)
                 ++ (PrevExtra <$> extra)
             /\ get_tx_hash (prevtx_bytes cls self ptx ins outs extra)
                  (coin_sign_hash_double (coin self)) true = txi_prev_hash txi
             /\ total_in (snd rs)
                = total_in self + referenced_amount (txi_prev_index txi) outs
         | Err e => total_in (snd rs) = total_in self
         end)
    (Bitcoin_process_nonsegwit_input cls fuel i txi self).
Proof.
  change (Bitcoin_process_nonsegwit_input cls fuel i txi self)
    with (bind (get_prevtx_output_value cls fuel (txi_prev_hash txi) (txi_prev_index txi))
            (fun value => modify (set_total_in (total_in self + value)))
            (set_segwit (<[i := false]> (segwit self)) self)).
  apply Forall_runs_mbind.
  eapply Forall_runs_impl; [| apply get_prevtx_output_value_runs]. simpl.
  intros tr [[amount | e] s]; simpl; intros [-> Hr]; [| done].
  split; [done |]. split; [done |].
  destruct Hr as (ptx & ins & outs & extra & Htr & _ & _ & _ & Hh & ->).
  exists ptx, ins, outs, extra. rewrite app_nil_r.
  split; [done |]. split; [| done].
  rewrite <- Hh. unfold prevtx_bytes, write_tx_header, Bitcoinlike_write_tx_header,
    Bitcoin_write_tx_header. done.
Qed.



End PrevTx.

Lemma get_prevtx_output_value_checked_witness :
  fuel_free (get_prevtx_output_value Bitcoin 0 (Example.prev_txid true) 0 Example.signer_fresh).
Proof.
  apply (get_prevtx_output_value_checked Bitcoin 0 (Example.prev_txid true) 0
           Example.signer_fresh).
  left. reflexivity.
Defined.



(** ** Phase 4: segwit and BIP-143 inputs *)

Section SegwitSerialisation.
Context `{Primitives}.
Variable cls : SignerClass.

(** X10. In phase 4 a segwit input is requested once more and
    serialised without being signed: [serialize_segwit_input] makes that
    one request and finishes, never touches the signature fields nor
    [bip143_in], and leaves [self] as it was unless it succeeds.  An input
    that is no longer segwit ends the call with
    SigningError(ProcessError, "Transaction has changed during signing").
    On success the input was segwit, its wallet path passed the check, and
    what was appended to the serialized transaction is this input with the
    script that [input_derive_script] gives without a signature. *)
Theorem serialize_segwit_input_unsigned (h : Host) (hs : host_state h) (self : Signer) (i : Z) :
  let reply := respond h _ (request_tx_input i None) hs in
  let txi := fst reply in
  exists r self',
    run h (serialize_segwit_input cls i self) hs
    = (Some (r, self'), [Exchange (request_tx_input i None) txi], snd reply)
    /\ signature self' = signature self /\ signature_index self' = signature_index self
    /\ bip143_in self' = bip143_in self
    /\ (input_is_segwit txi = false -> r = Err changed_during_signing)
    /\ match r with
       | Ok _ =>
         input_is_segwit txi = true /\ check_input (wallet_path self) txi = Ok tt
         /\ exists node script_sig,
              keychain_derive (keychain self) (txi_address_n txi) (coin_curve_name (coin self))
              = Ok node
              /\ input_derive_script cls self txi (node_public_key node) None = Ok script_sig
              /\ serialized_tx self'
                 = serialized_tx self ++ writers_tx_input (set_txi_script_sig txi script_sig)
       | Err _ => self' = self
       end.
Proof.
  intros reply txi.
  unfold serialize_segwit_input, wallet_path_check_input, keychain_derive_for.
  unfold_m. fold reply. subst txi. destruct reply as [txi hs1]. simpl.
  destruct (input_is_segwit txi) eqn:Es; simpl; [| by eexists _, _].
  destruct (check_input (wallet_path self) txi) as [[] | e1] eqn:Ew; simpl;
    [| by eexists _, _].
  destruct (keychain_derive _ _ _) as [nd | e2] eqn:Ed; simpl; [| by eexists _, _].
  destruct (input_derive_script cls self txi (node_public_key nd) None) as [sc | e3] eqn:Ei;
    simpl; [| by eexists _, _].
  eexists _, _. split; [reflexivity |]. simpl.
  split; [done |]. split; [done |]. split; [done |]. split; [done |].
  split; [done |]. split; [done |]. by exists nd, sc.
Qed.

(** X11. The BIP-143 route for inputs of coins that force it (Bitcoin
    Cash and its kin) checks the input that is requested again for
    signing as the segwit route does: one request, and the call finishes.
    An input whose script type is neither SPENDADDRESS nor SPENDMULTISIG,
    or whose amount exceeds what is left of [bip143_in], ends in
    SigningError(ProcessError, "Transaction has changed during signing")
    with [self] untouched.  On success both checkers have passed the
    input, its amount has been deducted from [bip143_in], and the
    signature reported is over the BIP-143 preimage hash of this input,
    which is kept in [hash143_hash]. *)
Theorem sign_bip143_input_checks (h : Host) (hs : host_state h) (self : Signer) (i_sign : Z) :
  let reply := respond h _ (request_tx_input i_sign None) hs in
  let txi := fst reply in
  exists r self',
    run h (sign_bip143_input cls i_sign self) hs
    = (Some (r, self'), [Exchange (request_tx_input i_sign None) txi], snd reply)
    /\ (((txi_script_type txi <> SPENDADDRESS /\ txi_script_type txi <> SPENDMULTISIG)
         \/ exists amount, txi_amount txi = Some amount /\ amount > bip143_in self) ->
        r = Err changed_during_signing /\ self' = self)
    /\ (r = Ok tt ->
        check_input (wallet_path self) txi = Ok tt
        /\ check_input (multisig_fingerprint self) txi = Ok tt
        /\ (txi_script_type txi = SPENDADDRESS \/ txi_script_type txi = SPENDMULTISIG)
        /\ exists amount node,
            txi_amount txi = Some amount /\ amount <= bip143_in self
            /\ bip143_in self' = bip143_in self - amount
            /\ keychain_derive (keychain self) (txi_address_n txi) (coin_curve_name (coin self))
               = Ok node
            /\ let digest :=
                 bip143_preimage_hash (hash143 self) (coin self) (tx self) txi
                   (addresses_ecdsa_hash_pubkey (node_public_key node) (coin self))
                   (get_hash_type cls self) in
               hash143_hash self' = Some digest
               /\ signature self' = Some (ecdsa_sign node digest)
               /\ signature_index self' = Some i_sign).
Proof.
  intros reply txi.
  unfold sign_bip143_input, wallet_path_check_input, multisig_fingerprint_check_input,
    bip143_input_changed, keychain_derive_for.
  unfold_m. fold reply. subst txi. destruct reply as [txi hs1]. simpl.
  destruct (check_input (wallet_path self) txi) as [[] | e1] eqn:Ew; simpl.
  2:{ apply check_input_Err in Ew as ->. eexists _, _. split; [reflexivity |]. simpl.
      split; [done | done]. }
  destruct (check_input (multisig_fingerprint self) txi) as [[] | e2] eqn:Em; simpl.
  2:{ apply check_input_Err in Em as ->. eexists _, _. split; [reflexivity |]. simpl.
      split; [done | done]. }
  assert (Hht : forall s : Signer, coin s = coin self ->
                                   get_hash_type cls s = get_hash_type cls self).
  { intros s Hs. by apply get_hash_type_coin. }
  case_bool_decide as Hsa; simpl; [| case_bool_decide as Hsm; simpl].
  3:{ eexists _, _. split; [reflexivity |]. simpl. split; [done | done]. }
  all: assert (Hty : txi_script_type txi = SPENDADDRESS \/ txi_script_type txi = SPENDMULTISIG)
         by eauto.
  all: destruct (txi_amount txi) as [amount |] eqn:Ea; simpl;
    [| eexists _, _; split; [reflexivity |]; simpl;
       split; [intros [[? ?] | (a & ? & ?)]; done | done]].
  all: case_bool_decide as Hgt; simpl;
    [eexists _, _; split; [reflexivity |]; simpl; split; [done | done] |].
  all: assert (Hviol : ~ ((txi_script_type txi <> SPENDADDRESS
                           /\ txi_script_type txi <> SPENDMULTISIG)
                          \/ exists a, Some amount = Some a /\ a > bip143_in self))
         by (intros [[? ?] | (a & [= <-] & ?)]; [done | lia]).
  all: destruct (keychain_derive _ _ _) as [nd | e3] eqn:Ed; simpl;
    [| eexists _, _; split; [reflexivity |]; simpl; split; [done | done]].
  all: destruct (txi_multisig txi) as [ms |] eqn:Ems; simpl.
  all: try (destruct (multisig_multisig_pubkey_index ms (node_public_key nd))
              as [idx | e4] eqn:Ei; simpl;
            [| eexists _, _; split; [reflexivity |]; simpl; split; [done | done]]).
  all: destruct (input_derive_script _ _ _ _ _) as [sc | e5] eqn:Esc; simpl;
    [| eexists _, _; split; [reflexivity |]; simpl; split; [done | done]].
  all: eexists _, _; (split; [reflexivity |]); simpl; (split; [done |]).
  all: intros _; (split; [done |]); (split; [done |]); (split; [done |]).
  all: exists amount, nd; (split; [done |]); (split; [lia |]); (split; [done |]);
    (split; [done |]).
  all: simpl; rewrite Hht by done; done.
Qed.
End SegwitSerialisation.

Lemma serialize_segwit_input_unsigned_witness :
  exists self',
    run (Example.scripted_host (Example.script_one_input Example.txi_p2pkh))
        (serialize_segwit_input Bitcoin 0 Example.signer_after_segwit_input) tt
    = (Some (Err changed_during_signing, self'),
       [Exchange (request_tx_input 0 None) Example.txi_p2pkh], tt).
Proof.
  destruct (serialize_segwit_input_unsigned Bitcoin
              (Example.scripted_host (Example.script_one_input Example.txi_p2pkh))
              tt Example.signer_after_segwit_input 0)
    as (r & self' & Hrun & _ & _ & _ & Hns & _).
  rewrite (Hns eq_refl) in Hrun. exists self'. exact Hrun.
Defined.

Lemma sign_bip143_input_checks_witness :
  exists tr,
    run (Example.scripted_host (Example.script_one_input (cash_input 5)))
        (sign_bip143_input Bitcoinlike 0 cash_signer) tt
    = (Some (Err changed_during_signing, cash_signer), tr, tt).
Proof.
  destruct (sign_bip143_input_checks Bitcoinlike
              (Example.scripted_host (Example.script_one_input (cash_input 5)))
              tt cash_signer 0) as (r & self' & Hrun & Hviol & _).
  destruct Hviol as [-> ->].
  { right. exists 5. split; reflexivity. }
  eexists. exact Hrun.
Defined.

(** ** Extra data of a previous transaction *)

Section ExtraData.
Context `{Primitives}.

(** X12. The loop that reads the extra data of a previous transaction
    never fails and leaves [self] alone; each request asks for between 1
    and 1024 bytes that lie within the announced length, at an offset not
    before the starting one; and when the loop ends, what the host sent
    has been appended to the writer in order and reaches at least to the
    announced length. *)
Theorem extra_data_requests_bounded (n : nat) (w : bytes) (ptx : TransactionType)
    (prev_hash : bytes) (ofs : Z) (self : Signer) :
  Forall_runs (fun tr rs =>
      Forall (fun r => ofs <= fst r /\ 1 <= snd r <= 1024
                       /\ fst r + snd r <= prev_extra_data_len ptx)
             (omap extra_request tr)
      /\ snd rs = self
      /\ exists extra,
           fst rs = Ok (w ++ mjoin extra)
           /\ omap prev_item tr = PrevExtra <$> extra
           /\ prev_extra_data_len ptx <= ofs + Z.of_nat (length (mjoin extra)))
    (extra_data_loop n w ptx prev_hash ofs self).
Proof.
  revert w ofs. induction n as [| n IH]; intros w ofs; simpl.
  - case_bool_decide; simpl; [done |].
    split; [constructor |]. split; [done |]. exists []. simpl.
    rewrite app_nil_r. split; [done |]. split; [done |]. lia.
  - case_bool_decide as Hofs; simpl.
    2:{ split; [constructor |]. split; [done |]. exists []. simpl.
        rewrite app_nil_r. split; [done |]. split; [done |]. lia. }
    unfold_m. intros data.
    eapply Forall_runs_impl; [| apply IH]. simpl.
    intros tr rs (Hreq & Hs & extra & Hr & Htr & Hlen).
    split; [| split; [done |]].
    + constructor; [simpl; lia |].
      eapply Forall_impl; [exact Hreq |]. simpl. intros [o sz]. simpl.
      intros (? & ? & ?). lia.
    + exists (data :: extra). rewrite Hr. simpl.
      split; [by rewrite <- app_assoc |]. split; [f_equal; exact Htr |].
      rewrite length_app. lia.
Qed.

(** X13. The loop advances by the number of bytes received, so a host
    that answers a request for extra data with no bytes holds it where
    it is: with data still outstanding no amount of fuel lets the loop
    finish. *)
Theorem extra_data_loop_stalls (h : Host) (n : nat) (w : bytes) (ptx : TransactionType)
    (prev_hash : bytes) (ofs : Z) (self : Signer) (hs : host_state h) :
  (forall o sz hs', fst (respond h _ (request_tx_extra_data o sz prev_hash) hs') = []) ->
  ofs < prev_extra_data_len ptx ->
  fst (fst (run h (extra_data_loop n w ptx prev_hash ofs self) hs)) = None
  /\ omap extra_request (snd (fst (run h (extra_data_loop n w ptx prev_hash ofs self) hs)))
     = replicate n (ofs, Z.min 1024 (prev_extra_data_len ptx - ofs)).
Proof.
  intros Hsilent Hofs. revert hs. induction n as [| n IH]; intros hs; simpl.
  - rewrite bool_decide_eq_true_2 by done. done.
  - rewrite bool_decide_eq_true_2 by done. unfold_m.
    pose proof (Hsilent ofs (Z.min 1024 (prev_extra_data_len ptx - ofs)) hs) as Hd.
    destruct (respond h _ _ hs) as [data hs1]. simpl in Hd. subst data. simpl.
    rewrite app_nil_r, Z.add_0_r.
    destruct (IH hs1) as [IH1 IH2].
    destruct (run h (extra_data_loop n w ptx prev_hash ofs self) hs1) as [[r tr] hs2].
    simpl in *. split; [exact IH1 | f_equal; exact IH2].
Qed.

(** X14. If the host answers every request for at least one byte of
    extra data with at least one byte, the loop finishes within as many
    requests as there are bytes outstanding. *)
Theorem extra_data_loop_finishes (h : Host) (n : nat) (w : bytes) (ptx : TransactionType)
    (prev_hash : bytes) (ofs : Z) (self : Signer) (hs : host_state h) :
  (forall o sz hs', 1 <= sz ->
     fst (respond h _ (request_tx_extra_data o sz prev_hash) hs') <> []) ->
  prev_extra_data_len ptx - ofs <= Z.of_nat n ->
  exists w' tr hs',
    run h (extra_data_loop n w ptx prev_hash ofs self) hs = (Some (Ok w', self), tr, hs')
    /\ (length tr <= n)%nat.
Proof.
  intros Hprog. revert w ofs hs. induction n as [| n IH]; intros w ofs hs Hn; simpl.
  - rewrite bool_decide_eq_false_2 by lia. simpl. eexists _, _, _. split; [reflexivity |].
    simpl. lia.
  - case_bool_decide as Hofs; simpl.
    2:{ eexists _, _, _. split; [reflexivity |]. simpl. lia. }
    unfold_m.
    pose proof (Hprog ofs (Z.min 1024 (prev_extra_data_len ptx - ofs)) hs) as Hd.
    destruct (respond h _ _ hs) as [data hs1]. simpl in Hd.
    assert (Hlen : (1 <= length data)%nat).
    { destruct data; [exfalso; apply Hd; [lia | done] | simpl; lia]. }
    destruct (IH (w ++ data) (ofs + Z.of_nat (length data)) hs1) as (w' & tr & hs' & Hrun & Htr);
      [lia |].
    simpl. rewrite Hrun. eexists _, _, _. split; [reflexivity |]. simpl. lia.
Qed.
End ExtraData.

Lemma extra_data_loop_stalls_witness :
  fst (fst (run silent_host
              (extra_data_loop 1000 [] prev_meta_extra [] 0 Example.signer_fresh) tt))
  = None.
Proof.
  apply (extra_data_loop_stalls silent_host 1000 [] prev_meta_extra [] 0
           Example.signer_fresh tt).
  - intros o sz hs'. simpl. destruct (Z.to_nat o), (Z.to_nat sz); reflexivity.
  - simpl. lia.
Defined.

Lemma extra_data_loop_finishes_witness :
  exists w' tr hs',
    run generous_host (extra_data_loop 10 [] prev_meta_extra [] 0 Example.signer_fresh) tt
    = (Some (Ok w', Example.signer_fresh), tr, hs')
    /\ (length tr <= 10)%nat.
Proof.
  apply (extra_data_loop_finishes generous_host 10 [] prev_meta_extra [] 0
           Example.signer_fresh tt).
  - intros o sz hs' Hsz. simpl. destruct (Z.to_nat sz) eqn:E; [lia | done].
  - simpl. lia.
Defined.

(** ** CashAddr addresses *)

Lemma startswith_app (p rest : string) : startswith (p +:+ rest) p = true.
Proof.
  unfold startswith. induction p as [| c p IH]; [by destruct rest |].
  change (String c p +:+ rest) with (String c (p +:+ rest)). simpl.
  by destruct (ascii_dec c c).
Qed.

Lemma append_assoc (a b c : string) : (a +:+ b) +:+ c = a +:+ b +:+ c.
Proof.
  induction a as [| x a IH]; [done |].
  change (String x a +:+ b) with (String x (a +:+ b)).
  change (String x (a +:+ b) +:+ c) with (String x ((a +:+ b) +:+ c)).
  change (String x a +:+ b +:+ c) with (String x (a +:+ b +:+ c)).
  by rewrite IH.
Qed.

Lemma split_colon_aux_colon_free (cur : list ascii) (s : string) :
  colon_free s = true ->
  split_colon_aux cur s = [string_of_list_ascii (rev cur ++ list_ascii_of_string s)].
Proof.
  revert cur. induction s as [| c s IH]; intros cur Hs; simpl.
  - by rewrite app_nil_r.
  - unfold colon_free in Hs. simpl in Hs. apply andb_true_iff in Hs as [Hc Hs].
    case_bool_decide; [done |]. rewrite IH by done. simpl. by rewrite <- app_assoc.
Qed.

Lemma split_colon_aux_app (cur : list ascii) (p rest : string) :
  colon_free p = true ->
  split_colon_aux cur (p +:+ ":" +:+ rest)
  = string_of_list_ascii (rev cur ++ list_ascii_of_string p) :: split_colon_aux [] rest.
Proof.
  revert cur. induction p as [| c p IH]; intros cur Hp.
  - change (EmptyString +:+ ":" +:+ rest) with (String ":" rest). simpl.
    by rewrite app_nil_r.
  - change (String c p +:+ ":" +:+ rest) with (String c (p +:+ ":" +:+ rest)). simpl.
    unfold colon_free in Hp. simpl in Hp. apply andb_true_iff in Hp as [Hc Hp].
    case_bool_decide; [done |]. rewrite IH by done. simpl. by rewrite <- app_assoc.
Qed.

Lemma split_colon_pair (p payload : string) :
  colon_free p = true -> colon_free payload = true ->
  split_colon (p +:+ ":" +:+ payload) = [p; payload].
Proof.
  intros Hp Hq. unfold split_colon.
  rewrite split_colon_aux_app, split_colon_aux_colon_free by done. simpl.
  by rewrite !string_of_list_ascii_of_string.
Qed.

Section CashAddr.
Context `{Primitives}.

(** What [get_raw_address] of [Bitcoinlike] makes of a CashAddr address. *)
Lemma cashaddr_get_raw_address (self : Signer) (txo : TxOutputType)
    (prefix payload : string) (version : Z) (data : bytes) :
  coin_cashaddr_prefix (coin self) = Some prefix ->
  txo_address txo = Some (prefix +:+ ":" +:+ payload) ->
  colon_free prefix = true -> colon_free payload = true ->
  cashaddr_decode prefix payload = Ok (version, data) ->
  Bitcoinlike_get_raw_address self txo
  = if bool_decide (version = cashaddr_ADDRESS_TYPE_P2KH) then
      match byte_of_int (coin_address_type (coin self)) with
      | Some b => Ok (b :: data)
      | None => Err ValueError
      end
    else if bool_decide (version = cashaddr_ADDRESS_TYPE_P2SH) then
      match byte_of_int (coin_address_type_p2sh (coin self)) with
      | Some b => Ok (b :: data)
      | None => Err ValueError
      end
    else Err (SigningError [ArgStr "Unknown cashaddr address type"]).
Proof.
  intros Hpre Haddr Hp Hq Hdec. unfold Bitcoinlike_get_raw_address.
  rewrite Hpre, Haddr.
  rewrite <- append_assoc, startswith_app, append_assoc.
  rewrite split_colon_pair by done. rewrite Hdec.
  by repeat case_bool_decide.
Qed.

(** X15. For a coin with a CashAddr prefix, an address of the form
    [prefix:payload] is decoded as CashAddr by [Bitcoinlike]: a P2KH
    payload gives the coin's [address_type] followed by the decoded data,
    a P2SH payload the coin's [address_type_p2sh] followed by the data
    (or ValueError if that version is not a byte), and any other type is
    refused with a SigningError that carries the message "Unknown
    cashaddr address type" and no failure code.  The base58 decoder is
    not consulted. *)
Theorem cashaddr_raw_address (self : Signer) (txo : TxOutputType)
    (prefix payload : string) (version : Z) (data : bytes) :
  coin_cashaddr_prefix (coin self) = Some prefix ->
  txo_address txo = Some (prefix +:+ ":" +:+ payload) ->
  colon_free prefix = true -> colon_free payload = true ->
  cashaddr_decode prefix payload = Ok (version, data) ->
  get_raw_address Bitcoinlike self txo
  = if bool_decide (version = cashaddr_ADDRESS_TYPE_P2KH) then
      match byte_of_int (coin_address_type (coin self)) with
      | Some b => Ok (b :: data)
      | None => Err ValueError
      end
    else if bool_decide (version = cashaddr_ADDRESS_TYPE_P2SH) then
      match byte_of_int (coin_address_type_p2sh (coin self)) with
      | Some b => Ok (b :: data)
      | None => Err ValueError
      end
    else Err (SigningError [ArgStr "Unknown cashaddr address type"]).
Proof.
  intros Hpre Haddr Hp Hq Hdec. unfold get_raw_address, Bitcoinlike_get_raw_address.
  rewrite Hpre, Haddr.
  rewrite <- append_assoc, startswith_app, append_assoc.
  rewrite split_colon_pair by done. rewrite Hdec.
  by repeat case_bool_decide.
Qed.

(** X16. That error leaves [output_derive_script] as it is: an output
    (other than OP_RETURN, with no path of its own, on a coin without a
    bech32 prefix) whose CashAddr address is of an unknown type makes the
    script derivation fail with a SigningError that has a message but no
    failure code. *)
Theorem unknown_cashaddr_type_escapes (self : Signer) (txo : TxOutputType)
    (prefix payload : string) (version : Z) (data : bytes) :
  txo_script_type txo <> PAYTOOPRETURN -> txo_address_n txo = [] ->
  coin_bech32_prefix (coin self) = None ->
  coin_cashaddr_prefix (coin self) = Some prefix ->
  txo_address txo = Some (prefix +:+ ":" +:+ payload) ->
  colon_free prefix = true -> colon_free payload = true ->
  cashaddr_decode prefix payload = Ok (version, data) ->
  version <> cashaddr_ADDRESS_TYPE_P2KH -> version <> cashaddr_ADDRESS_TYPE_P2SH ->
  output_derive_script Bitcoinlike self txo
  = Err (SigningError [ArgStr "Unknown cashaddr address type"]).
Proof.
  intros Hty Hn Hb Hpre Haddr Hp Hq Hdec Hv1 Hv2. unfold output_derive_script.
  rewrite bool_decide_eq_false_2 by done. rewrite Hn, Hb. simpl.
  unfold get_raw_address.
  rewrite (cashaddr_get_raw_address self txo prefix payload version data) by done.
  by rewrite !bool_decide_eq_false_2.
Qed.
End CashAddr.

Lemma cashaddr_raw_address_witness :
  get_raw_address Bitcoinlike cash_signer (txo_cashaddr "bitcoincash:qrest")
  = Ok (Byte.x00 :: String.list_byte_of_string "rest")
  /\ get_raw_address Bitcoinlike cash_signer (txo_cashaddr "bitcoincash:prest")
     = Ok (Byte.x05 :: String.list_byte_of_string "rest").
Proof.
  split.
  - rewrite (cashaddr_raw_address cash_signer (txo_cashaddr "bitcoincash:qrest")
               "bitcoincash" "qrest" 0 (String.list_byte_of_string "rest"));
      reflexivity.
  - rewrite (cashaddr_raw_address cash_signer (txo_cashaddr "bitcoincash:prest")
               "bitcoincash" "prest" 8 (String.list_byte_of_string "rest"));
      reflexivity.
Defined.

Lemma unknown_cashaddr_type_escapes_witness :
  output_derive_script Bitcoinlike cash_signer (txo_cashaddr "bitcoincash:zrest")
  = Err (SigningError [ArgStr "Unknown cashaddr address type"]).
Proof.
  apply (unknown_cashaddr_type_escapes cash_signer (txo_cashaddr "bitcoincash:zrest")
           "bitcoincash" "zrest" 16 (String.list_byte_of_string "rest"));
    try reflexivity; simpl; done.
Defined.

(** C9, as stated, fails.  A transaction of class [Bitcoinlike] without
    inputs whose output names a CashAddr address of an unknown type ends
    in a SigningError that carries the message alone, no failure code;
    and a transaction with an input ends in [NameError], which is not a
    SigningError. *)
Lemma failures_without_failure_type :
  let out1 := run (Example.scripted_host script_unknown_cashaddr)
                  (signer Bitcoinlike 0 tx_0in_1out tt Example.coin_bcash) tt in
  let out2 := run (Example.scripted_host Example.script_spend)
                  (signer Bitcoin 0 Example.tx_1in_2out tt Example.coin_bitcoin) tt in
  (fst <$> fst (fst out1))
  = Some (Err (SigningError [ArgStr "Unknown cashaddr address type"]))
  /\ carries_failure_type (SigningError [ArgStr "Unknown cashaddr address type"]) = false
  /\ (fst <$> fst (fst out2)) = Some (Err NameError)
  /\ carries_failure_type NameError = false.
Proof.
  split; [by vm_compute |]. split; [reflexivity |]. split; [by vm_compute | reflexivity].
Qed.

(** ** Before the user confirms *)

Section BeforeConfirmation.
Context `{Primitives}.
Variable cls : SignerClass.
Variable fuel : nat.

Lemma Forall_runs_intro {R} (P : list IO -> R -> Prop) (p : Prog R) :
  (forall tr r, P tr r) -> Forall_runs P p.
Proof.
  revert P. induction p as [r | X e k IH |]; simpl; intros P HP; [done | | done].
  intros x. by apply IH.
Qed.

(** Sequencing under an invariant of [self] that also holds on failure. *)
Lemma Forall_runs_mbind_inv {A B} (m : M A) (f : A -> M B) (s : Signer)
    (Inv : Signer -> Prop) :
  Forall_runs (fun _ rs => Inv (snd rs)) (m s) ->
  (forall a s', Inv s' -> Forall_runs (fun _ rs => Inv (snd rs)) (f a s')) ->
  Forall_runs (fun _ rs => Inv (snd rs)) (bind m f s).
Proof.
  intros Hm Hf. apply Forall_runs_mbind. eapply Forall_runs_impl; [| exact Hm]. simpl.
  intros tr [[a | e] s'] Hs; simpl in *; [| done].
  eapply Forall_runs_impl; [| by apply Hf]. done.
Qed.

(** A loop over [self]: [Frame] holds throughout, and [Inv] of the
    elements done holds for as long as nothing has failed. *)
Lemma Forall_runs_for_each {A} (l : list A) (body : A -> M unit)
    (Frame : Signer -> Prop) (Inv : list A -> Signer -> Prop) :
  (forall seen x s, Frame s -> Inv seen s ->
     Forall_runs (fun _ rs => Frame (snd rs) /\ (fst rs = Ok tt -> Inv (seen ++ [x]) (snd rs)))
       (body x s)) ->
  forall seen s, Frame s -> Inv seen s ->
    Forall_runs (fun _ rs => Frame (snd rs) /\ (fst rs = Ok tt -> Inv (seen ++ l) (snd rs)))
      (for_each l body s).
Proof.
  intros Hbody. induction l as [| x l IH]; intros seen s Hf Hi; simpl.
  - split; [done |]. intros _. by rewrite app_nil_r.
  - apply Forall_runs_mbind. eapply Forall_runs_impl; [| by apply (Hbody seen x s)]. simpl.
    intros tr [[[] | e] s'] [Hf' Hi']; simpl in *; [| done].
    eapply Forall_runs_impl; [| apply (IH (seen ++ [x]) s' Hf' (Hi' eq_refl))]. simpl.
    intros tr' rs. by rewrite <- app_assoc.
Qed.

Lemma get_prevtx_output_value_state (prev_hash : bytes) (prev_index : Z) (s : Signer) :
  Forall_runs (fun _ rs => snd rs = s) (get_prevtx_output_value cls fuel prev_hash prev_index s).
Proof.
  eapply Forall_runs_impl; [| apply get_prevtx_output_value_runs]. simpl. by intros tr rs [? _].
Qed.

(** [process_input] ends at its first statement: [add_input] of the
    wallet-path checker raises. *)
Lemma process_input_NameError (i : Z) (txi : TxInputType) (s : Signer) :
  process_input cls fuel i txi s = Ret (Err NameError, s).
Proof. by destruct s. Qed.

(** What [process_input] does to the fields that phases 4 to 7 rely on:
    nothing to what the host has been given, and one entry more in
    [segwit] if it succeeds. *)
Lemma process_input_state (self : Signer) (i : Z) (txi : TxInputType) (s : Signer) :
  same_output self s ->
  Forall_runs (fun _ rs =>
      same_output self (snd rs)
      /\ (fst rs = Ok tt -> segwit (snd rs) = <[i := input_is_segwit txi]> (segwit s)))
    (process_input cls fuel i txi s).
Proof. intros Hs. rewrite process_input_NameError. simpl. by split. Qed.

Lemma range_pos (n : Z) : 0 < n -> exists l, range n = 0 :: l.
Proof.
  intros Hn. unfold range. destruct (Z.to_nat n) as [| k] eqn:E; [lia |].
  simpl. by eexists.
Qed.

(** X17. Phase 1 does not get past the first input.  For a transaction
    with at least one input, [step1_process_inputs] asks for input 0,
    adds it to the weight, and ends in [NameError] when
    [process_input] calls [add_input]; nothing else of [self] has
    changed.  The signer as a whole therefore ends there too, after
    three exchanges (the progress display twice, input 0), with the
    same error, whatever the host sends. *)
Theorem step1_stops_at_first_input (self : Signer) (tx0 : SignTx) (keychain0 : Keychain)
    (coin0 : CoinInfo) :
  (0 < tx_inputs_count (tx self) ->
   fuel_free (step1_process_inputs cls fuel self)
   /\ Forall_runs (fun tr rs =>
        exists txi,
          tr = [Exchange progress_advance tt; Exchange (request_tx_input 0 None) txi]
          /\ rs = (Err NameError, set_weight (weight_add_input (weight self) txi) self))
      (step1_process_inputs cls fuel self))
  /\ (0 < tx_inputs_count tx0 ->
      fuel_free (signer cls fuel tx0 keychain0 coin0)
      /\ Forall_runs (fun tr rs =>
           exists txi,
             tr = [Exchange (progress_init (tx_inputs_count tx0) (tx_outputs_count tx0)) tt;
                   Exchange progress_advance tt; Exchange (request_tx_input 0 None) txi]
             /\ rs = (Err NameError,
                      set_weight
                        (weight_add_input (weight (initialize tx0 keychain0 coin0)) txi)
                        (initialize tx0 keychain0 coin0)))
         (signer cls fuel tx0 keychain0 coin0)).
Proof.
  assert (Hstep : forall s : Signer, 0 < tx_inputs_count (tx s) ->
    fuel_free (step1_process_inputs cls fuel s)
    /\ Forall_runs (fun tr rs =>
         exists txi,
           tr = [Exchange progress_advance tt; Exchange (request_tx_input 0 None) txi]
           /\ rs = (Err NameError, set_weight (weight_add_input (weight s) txi) s))
       (step1_process_inputs cls fuel s)).
  { intros s Hn. unfold step1_process_inputs.
    destruct (range_pos _ Hn) as [l Hl].
    split.
    all: unfold bind at 1; unfold gets at 1; cbn [prog_bind fst snd]; rewrite Hl;
      cbn [for_each].
    all: unfold bind at 1; unfold bind at 1; unfold await at 1; cbn [prog_bind fst snd].
    all: unfold bind at 1; unfold await at 1; cbn [prog_bind fst snd].
    all: unfold bind at 1; unfold modify at 1; cbn [prog_bind fst snd].
    - intros [] txi. rewrite process_input_NameError. done.
    - intros [] txi. rewrite process_input_NameError. simpl. by exists txi. }
  split; [apply Hstep |].
  intros Hn. unfold signer, signer_body.
  destruct (Hstep (initialize tx0 keychain0 coin0) Hn) as [Hfree Hruns].
  split.
  all: unfold bind at 1; unfold gets at 1; cbn [prog_bind fst snd].
  all: unfold bind at 1; unfold gets at 1; cbn [prog_bind fst snd].
  all: unfold bind at 1; unfold await at 1; cbn [prog_bind fst snd].
  - intros []. apply fuel_free_mbind_runs with (P := fun tr rs => fst rs = Err NameError).
    + exact Hfree.
    + eapply Forall_runs_impl; [| exact Hruns]. simpl. by intros tr rs (txi & _ & ->).
    + intros tr a s' [=].
  - intros []. apply Forall_runs_mbind.
    eapply Forall_runs_impl; [| exact Hruns]. simpl.
    intros tr rs (txi & -> & ->). simpl. by exists txi.
Qed.

Lemma step1_same_output (self s : Signer) :
  same_output self s ->
  Forall_runs (fun _ rs => same_output self (snd rs)) (step1_process_inputs cls fuel s).
Proof.
  intros Hs. unfold step1_process_inputs. unfold bind at 1. unfold gets at 1. simpl.
  eapply Forall_runs_impl;
    [| apply (Forall_runs_for_each _ _ (same_output self) (fun _ _ => True))
         with (seen := [])]; [by intros tr rs [? _] | | done | done].
  intros seen i s' Hs' _.
  unfold bind at 1. unfold await at 1. cbn [prog_bind fst snd Forall_runs]. intros [].
  unfold bind at 1. unfold await at 1. cbn [prog_bind fst snd Forall_runs]. intros txi.
  unfold bind at 1. unfold modify at 1. cbn [prog_bind fst snd].
  eapply Forall_runs_impl; [| apply (process_input_state self i txi)]; [| done].
  simpl. by intros tr rs [? _].
Qed.

Lemma confirm_output_same_output (self s : Signer) (i : Z) (txo : TxOutputType)
    (txo_bin : TxOutputBinType) :
  same_output self s ->
  Forall_runs (fun _ rs => same_output self (snd rs)) (confirm_output i txo txo_bin s).
Proof.
  intros Hs. unfold confirm_output. unfold_m.
  case_bool_decide; simpl; [| by intros []].
  destruct (output_is_change_state s txo) as (cw & cm & Hst & _).
  destruct (output_is_change s txo) as [[[] | e] s1]; simpl in *; subst s1; simpl;
    [done | by intros [] | done].
Qed.

Lemma step2_same_output (self s : Signer) :
  same_output self s ->
  Forall_runs (fun _ rs => same_output self (snd rs)) (step2_confirm_outputs cls s).
Proof.
  intros Hs. unfold step2_confirm_outputs. unfold bind at 1. unfold gets at 1. simpl.
  eapply Forall_runs_impl;
    [| apply (Forall_runs_for_each _ _ (same_output self) (fun _ _ => True))
         with (seen := [])]; [by intros tr rs [? _] | | done | done].
  intros seen i s' Hs' _.
  unfold bind at 1. unfold await at 1. simpl. intros txo.
  unfold bind at 1. simpl.
  destruct (output_derive_script cls s' txo) as [[script txo'] | e]; simpl; [| done].
  unfold bind at 1. unfold modify at 1. simpl.
  eapply Forall_runs_impl; [| apply (confirm_output_same_output self)]; [| done].
  simpl. by intros tr rs ?.
Qed.

Lemma step3_total_confirmed (s : Signer) :
  Forall_runs (fun tr rs => snd rs = s /\ (fst rs = Ok tt -> total_confirmed tr))
    (step3_confirm_tran cls s).
Proof.
  unfold step3_confirm_tran, on_negative_fee, Bitcoinlike_on_negative_fee,
    Bitcoin_on_negative_fee, total_confirmed.
  unfold_m.
  case_program; (split; [done |]); try done; intros _; eexists _, _;
    repeat (first [apply list_elem_of_here | apply list_elem_of_further]).
Qed.

(** X18. Nothing reaches the host unsigned for: in every run of the
    signer, against any host and user, either the user has said yes to
    the total, or the serialized transaction is still empty and no
    signature has been recorded. *)
Theorem no_signature_without_confirmed_total (tx0 : SignTx) (keychain0 : Keychain)
    (coin0 : CoinInfo) :
  Forall_runs (fun tr rs =>
      total_confirmed tr
      \/ (serialized_tx (snd rs) = [] /\ signature (snd rs) = None
          /\ signature_index (snd rs) = None))
    (signer cls fuel tx0 keychain0 coin0).
Proof.
  unfold signer, signer_body.
  set (self := initialize tx0 keychain0 coin0).
  unfold bind at 1. unfold gets at 1. cbn [prog_bind fst snd].
  unfold bind at 1. unfold gets at 1. cbn [prog_bind fst snd].
  unfold bind at 1. unfold await at 1. cbn [prog_bind fst snd Forall_runs]. intros [].
  apply Forall_runs_mbind.
  eapply Forall_runs_impl; [| apply (step1_same_output self self)]; [| done]. simpl.
  intros tr1 [[[] | e1] s1] Hs1; simpl in *; [| by right].
  apply Forall_runs_mbind.
  eapply Forall_runs_impl; [| apply (step2_same_output self s1 Hs1)]. simpl.
  intros tr2 [[[] | e2] s2] Hs2; simpl in *; [| by right].
  apply Forall_runs_mbind.
  eapply Forall_runs_impl; [| apply step3_total_confirmed]. simpl.
  intros tr3 [[[] | e3] s3] [-> Hc]; simpl in *; [| by right].
  apply Forall_runs_intro. intros tr4 rs. left.
  destruct (Hc eq_refl) as (sp & fee & Hin). exists sp, fee.
  apply elem_of_cons. right. rewrite !elem_of_app. eauto.
Qed.
End BeforeConfirmation.

Lemma step1_stops_at_first_input_witness :
  fuel_free (signer Bitcoin 0 Example.tx_1in_2out tt Example.coin_bitcoin).
Proof.
  apply (step1_stops_at_first_input Bitcoin 0 Example.signer_fresh Example.tx_1in_2out tt
           Example.coin_bitcoin).
  reflexivity.
Defined.

(** ** Phase 2 and the amounts of inputs *)

Section Phase2.
Context `{Primitives}.
Variable cls : SignerClass.

Lemma sum_amounts_app (l1 l2 : list TxOutputType) :
  sum_amounts (l1 ++ l2) = sum_amounts l1 + sum_amounts l2.
Proof.
  unfold sum_amounts. induction l1 as [| x l1 IH]; simpl; [done |]. rewrite IH. lia.
Qed.

(** A loop over [self] with an invariant of the elements done, the
    exchanges so far and [self], for as long as nothing has failed. *)
Lemma Forall_runs_for_each_trace {A} (l : list A) (body : A -> M unit)
    (Inv : list A -> list IO -> Signer -> Prop) :
  (forall seen x tr0 s, Inv seen tr0 s ->
     Forall_runs (fun tr rs => fst rs = Ok tt -> Inv (seen ++ [x]) (tr0 ++ tr) (snd rs))
       (body x s)) ->
  forall seen tr0 s, Inv seen tr0 s ->
    Forall_runs (fun tr rs => fst rs = Ok tt -> Inv (seen ++ l) (tr0 ++ tr) (snd rs))
      (for_each l body s).
Proof.
  intros Hbody. induction l as [| x l IH]; intros seen tr0 s Hi; simpl.
  - intros _. by rewrite !app_nil_r.
  - apply Forall_runs_mbind. eapply Forall_runs_impl; [| by apply (Hbody seen x tr0 s)]. simpl.
    intros tr [[[] | e] s'] Hi'; simpl in *; [| done].
    eapply Forall_runs_impl; [| apply (IH (seen ++ [x]) (tr0 ++ tr) s' (Hi' eq_refl))]. simpl.
    intros tr' rs. by rewrite <- !app_assoc.
Qed.

Lemma output_derive_script_amount (self : Signer) (txo txo' : TxOutputType) (script : bytes) :
  output_derive_script cls self txo = Ok (script, txo') -> txo_amount txo' = txo_amount txo.
Proof.
  unfold output_derive_script. case_bool_decide; [by intros [= _ <-] |].
  destruct (negb (is_empty (txo_address_n txo))).
  - destruct (get_address_for_change self txo) as [a | e]; [| done].
    repeat case_match; try done; by intros [= _ <-].
  - repeat case_match; try done; by intros [= _ <-].
Qed.

Lemma confirm_output_totals (s : Signer) (i : Z) (txo : TxOutputType)
    (txo_bin : TxOutputBinType) :
  Forall_runs (fun tr rs =>
      omap received_output tr = []
      /\ (fst rs = Ok tt ->
          total_out (snd rs) = total_out s + bin_amount txo_bin
          /\ tx (snd rs) = tx s
          /\ (change_out (snd rs) = change_out s \/ change_out (snd rs) = txo_amount txo)))
    (confirm_output i txo txo_bin s).
Proof.
  unfold confirm_output. unfold_m.
  case_bool_decide; simpl.
  2:{ intros []; simpl; (split; [done |]); [intros _; eauto | done]. }
  destruct (output_is_change_state s txo) as (cw & cm & Hst & _).
  destruct (output_is_change s txo) as [[[] | e] s1]; simpl in *; subst s1; simpl.
  - split; [done |]. intros _. eauto.
  - intros []; simpl; (split; [done |]); [intros _; eauto | done].
  - done.
Qed.

(** X19. When phase 2 succeeds, the host has sent exactly
    [outputs_count] outputs, [total_out] has grown by the sum of their
    amounts, and [change_out] is what it was or the amount of one of
    them. *)
Theorem step2_total_out (s : Signer) :
  Forall_runs (fun tr rs =>
      fst rs = Ok tt ->
      length (omap received_output tr) = Z.to_nat (tx_outputs_count (tx s))
      /\ total_out (snd rs) = total_out s + sum_amounts (omap received_output tr)
      /\ (change_out (snd rs) = change_out s
          \/ exists txo, txo ∈ omap received_output tr /\ change_out (snd rs) = txo_amount txo))
    (step2_confirm_outputs cls s).
Proof.
  unfold step2_confirm_outputs. unfold bind at 1. unfold gets at 1. simpl.
  eapply Forall_runs_impl;
    [| apply (Forall_runs_for_each_trace _ _
                (fun seen tr s' =>
                   length (omap received_output tr) = length seen
                   /\ total_out s' = total_out s + sum_amounts (omap received_output tr)
                   /\ (change_out s' = change_out s
                       \/ exists txo, txo ∈ omap received_output tr
                                      /\ change_out s' = txo_amount txo)))
         with (seen := []) (tr0 := [])].
  - simpl. intros tr rs Hinv Hok. destruct (Hinv Hok) as (Hlen & Hsum & Hch).
    split; [| done]. rewrite Hlen. unfold range. by rewrite length_fmap, length_seq.
  - intros seen i tr0 s' (Hlen & Hsum & Hch).
    unfold bind at 1. unfold await at 1. simpl. intros txo.
    unfold bind at 1. simpl.
    destruct (output_derive_script cls s' txo) as [[script txo'] | e] eqn:Ed; simpl; [| done].
    apply output_derive_script_amount in Ed.
    unfold bind at 1. unfold modify at 1. simpl.
    eapply Forall_runs_impl; [| apply confirm_output_totals]. simpl.
    intros tr rs [Hnone Hok] Hr. destruct (Hok Hr) as (Hto & _ & Hc).
    assert (Hrecv : omap received_output (tr0 ++ Exchange (request_tx_output i) txo :: tr)
                    = omap received_output tr0 ++ [txo]).
    { rewrite omap_app. f_equal.
      change (omap received_output (Exchange (request_tx_output i) txo :: tr))
        with (txo :: omap received_output tr).
      by rewrite Hnone. }
    rewrite Hrecv, !length_app, Hlen, sum_amounts_app.
    split; [done |].
    split; [rewrite Hto, Hsum, Ed; unfold sum_amounts; simpl; lia |].
    destruct Hc as [Hc | Hc]; rewrite Hc.
    + destruct Hch as [? | (t & Hin & ?)]; [by left |].
      right. exists t. split; [apply elem_of_app; by left | done].
    + right. exists txo. split; [| done].
      apply elem_of_app. right. apply list_elem_of_here.
  - simpl. split; [done |]. split; [unfold sum_amounts; simpl; lia | by left].
Qed.

(** X20. For an output that names a path, the address that comes with it
    from the host plays no part: the script is derived from the key at
    that path, whatever the address field says. *)
Theorem change_script_from_path (self : Signer) (txo : TxOutputType) (address : option string) :
  txo_address_n txo <> [] ->
  script_only (output_derive_script cls self (set_txo_address txo address))
  = script_only (output_derive_script cls self txo).
Proof.
  intros Hn. unfold output_derive_script. simpl.
  case_bool_decide; [done |].
  destruct (txo_address_n txo) as [| n0 path] eqn:En; [done |]. simpl.
  assert (Hsame : get_address_for_change self (set_txo_address txo address)
                  = get_address_for_change self txo).
  { unfold get_address_for_change. simpl. by rewrite En. }
  rewrite Hsame. by destruct (get_address_for_change self txo).
Qed.

(** X21. Inputs that declare their own amount (segwit inputs, and the
    inputs of coins that force BIP-143) are dealt with without asking
    the host for anything: the input is credited with its amount to both
    [total_in] and [bip143_in] and marked in [segwit], or it is refused
    and [self] is as before.  An amount that is missing or zero is
    refused with SigningError(DataError): "Segwit input without amount"
    on the segwit route, "Expected input with amount" on the BIP-143
    route; and [Bitcoinlike] refuses every segwit input of a coin without
    segwit, "Segwit not enabled on this coin". *)
Theorem declared_amount_inputs (fuel : nat) (self : Signer) (i : Z) (txi : TxInputType) :
  (exists rs,
     process_segwit_input cls i txi self = Ret rs /\ credited self i txi true rs
     /\ (cls = Bitcoinlike -> coin_segwit (coin self) = false ->
         fst rs = Err (SigningError [ArgFailure DataError;
                                     ArgStr "Segwit not enabled on this coin"]))
     /\ (cls = Bitcoin \/ coin_segwit (coin self) = true ->
         txi_amount txi = None \/ txi_amount txi = Some 0 ->
         fst rs = Err (SigningError [ArgFailure DataError;
                                     ArgStr "Segwit input without amount"])))
  /\ (coin_force_bip143 (coin self) = true ->
      exists rs,
        process_nonsegwit_input Bitcoinlike fuel i txi self = Ret rs
        /\ credited self i txi false rs
        /\ (txi_amount txi = None \/ txi_amount txi = Some 0 ->
            fst rs = Err (SigningError [ArgFailure DataError;
                                        ArgStr "Expected input with amount"]))).
Proof.
  split.
  - unfold process_segwit_input, Bitcoinlike_process_segwit_input, Bitcoin_process_segwit_input,
      credited, amount_missing.
    destruct (txi_amount txi) as [a |] eqn:Ha; [destruct (decide (a = 0)) as [-> | Hnz] |].
    all: rewrite ?bool_decide_eq_true_2 by done; rewrite ?bool_decide_eq_false_2 by done.
    all: destruct cls; [| destruct (coin_segwit (coin self)) eqn:Es]; unfold_m; rewrite ?Es;
      simpl.
    all: eexists; (split; [reflexivity |]); simpl.
    all: split; [first [done | by exists a] |].
    all: split; [first [done | by intros ? ?] |].
    all: first [done | by intros [? | ?] | by intros _ [? | [= ?]]].
  - intros Hforce.
    unfold process_nonsegwit_input, Bitcoinlike_process_nonsegwit_input, process_bip143_input,
      credited, amount_missing.
    unfold_m. rewrite Hforce.
    destruct (txi_amount txi) as [a |] eqn:Ha; [destruct (decide (a = 0)) as [-> | Hnz] |].
    all: rewrite ?bool_decide_eq_true_2 by done; rewrite ?bool_decide_eq_false_2 by done; simpl.
    all: eexists; (split; [reflexivity |]); simpl.
    all: split; [first [done | by exists a] |].
    all: first [done | by intros [? | [= ?]]].
Qed.
End Phase2.

Lemma change_script_from_path_witness :
  script_only (output_derive_script Bitcoin Example.signer_fresh
                 (set_txo_address (Example.txo_change 48000) (Some "1EveEveEveEveEveEveEve")))
  = script_only (output_derive_script Bitcoin Example.signer_fresh (Example.txo_change 48000)).
Proof.
  apply (change_script_from_path Bitcoin Example.signer_fresh (Example.txo_change 48000)
           (Some "1EveEveEveEveEveEveEve")).
  simpl. done.
Defined.

Lemma declared_amount_inputs_witness :
  exists rs,
    process_nonsegwit_input Bitcoinlike 0 0 (cash_input 0) cash_signer = Ret rs
    /\ fst rs = Err (SigningError [ArgFailure DataError; ArgStr "Expected input with amount"]).
Proof.
  destruct (proj2 (declared_amount_inputs Bitcoinlike 0 cash_signer 0 (cash_input 0)) eq_refl)
    as (rs & Hrun & _ & Hzero).
  exists rs. split; [exact Hrun |]. apply Hzero. right. reflexivity.
Defined.

(** ** Phases 5 and 6 *)

Section Phases5And6.
Context `{Primitives}.
Variable cls : SignerClass.

Lemma sum_input_amounts_app (l1 l2 : list TxInputType) :
  sum_input_amounts (l1 ++ l2) = sum_input_amounts l1 + sum_input_amounts l2.
Proof.
  unfold sum_input_amounts. induction l1 as [| x l1 IH]; simpl; [done |]. rewrite IH. lia.
Qed.

(** A loop over [self]: [Frame] holds throughout, and [Inv] of the
    elements done and the exchanges so far for as long as nothing has
    failed. *)
Lemma Forall_runs_for_each_frame_trace {A} (l : list A) (body : A -> M unit)
    (Frame : Signer -> Prop) (Inv : list A -> list IO -> Signer -> Prop) :
  (forall seen x tr0 s, Frame s -> Inv seen tr0 s ->
     Forall_runs (fun tr rs =>
         Frame (snd rs) /\ (fst rs = Ok tt -> Inv (seen ++ [x]) (tr0 ++ tr) (snd rs)))
       (body x s)) ->
  forall seen tr0 s, Frame s -> Inv seen tr0 s ->
    Forall_runs (fun tr rs =>
        Frame (snd rs) /\ (fst rs = Ok tt -> Inv (seen ++ l) (tr0 ++ tr) (snd rs)))
      (for_each l body s).
Proof.
  intros Hbody. induction l as [| x l IH]; intros seen tr0 s Hf Hi; simpl.
  - split; [done |]. intros _. by rewrite !app_nil_r.
  - apply Forall_runs_mbind. eapply Forall_runs_impl; [| by apply (Hbody seen x tr0 s)]. simpl.
    intros tr [[[] | e] s'] [Hf' Hi']; simpl in *; [| done].
    eapply Forall_runs_impl;
      [| apply (IH (seen ++ [x]) (tr0 ++ tr) s' Hf' (Hi' eq_refl))]. simpl.
    intros tr' rs. by rewrite <- !app_assoc.
Qed.

Lemma output_derive_script_ext (s s' : Signer) (txo : TxOutputType) :
  coin s' = coin s -> keychain s' = keychain s ->
  output_derive_script cls s' txo = output_derive_script cls s txo.
Proof.
  intros Hc Hk.
  unfold output_derive_script, get_address_for_change, get_raw_address,
    Bitcoinlike_get_raw_address, Bitcoin_get_raw_address.
  by rewrite Hc, Hk.
Qed.

(** X22. Phase 5 writes to the serialized transaction the number of
    outputs and then, for each output the host sends now, its amount and
    the script derived for it, in order; it records no signature.  The
    outputs are not compared with those confirmed in phase 2. *)
Theorem step5_serializes_outputs (s : Signer) :
  Forall_runs (fun tr rs =>
      signature (snd rs) = signature s /\ signature_index (snd rs) = signature_index s
      /\ h_confirmed (snd rs) = h_confirmed s
      /\ (fst rs = Ok tt ->
          length (omap received_output tr) = Z.to_nat (tx_outputs_count (tx s))
          /\ serialized_tx (snd rs)
             = serialized_tx s ++ writers_varint (tx_outputs_count (tx s))
                 ++ check_bytes cls s tr))
    (step5_serialize_outputs cls s).
Proof.
  unfold step5_serialize_outputs. unfold bind at 1. unfold modify at 1. simpl.
  unfold bind at 1. unfold gets at 1. simpl.
  set (s0 := set_serialized_tx _ s).
  pose (Frame := fun s' : Signer =>
    signature s' = signature s /\ signature_index s' = signature_index s
    /\ h_confirmed s' = h_confirmed s /\ coin s' = coin s /\ keychain s' = keychain s).
  eapply Forall_runs_impl;
    [| apply (Forall_runs_for_each_frame_trace _ _ Frame
                (fun seen tr s' =>
                   length (omap received_output tr) = length seen
                   /\ serialized_tx s'
                      = serialized_tx s ++ writers_varint (tx_outputs_count (tx s))
                          ++ check_bytes cls s tr))
         with (seen := []) (tr0 := []) (s := s0)].
  - simpl. intros tr rs [(? & ? & ? & _) Hinv]. do 3 (split; [done |]).
    intros Hok. destruct (Hinv Hok) as [Hlen Hser]. split; [| done].
    rewrite Hlen. unfold range. by rewrite length_fmap, length_seq.
  - intros seen i tr0 s' (Hsig & Hidx & Hh & Hc & Hk) [Hlen Hser].
    unfold serialize_output. unfold_m. intros [] txo.
    pose proof (output_derive_script_ext s s' txo Hc Hk) as Hext.
    destruct (output_derive_script cls s' txo) as [r | e] eqn:Ed; simpl; [| done].
    split; [done |]. intros _.
    rewrite !omap_app, !length_app, Hlen. split; [done |].
    assert (Hitem : check_bytes cls s
                      [Exchange progress_advance (); Exchange (request_tx_output i) txo]
                    = writers_tx_output
                        {| bin_amount := txo_amount txo; bin_script_pubkey := fst r |}).
    { unfold check_bytes. simpl. rewrite <- Hext. by rewrite app_nil_r. }
    rewrite check_bytes_app, Hser, Hitem. by rewrite <- !app_assoc.
  - done.
  - simpl. split; [done |]. unfold check_bytes. simpl. by rewrite app_nil_r.
Qed.

Lemma sign_segwit_input_deducts (i : Z) (s : Signer) :
  Forall_runs (fun tr rs =>
      segwit (snd rs) = segwit s
      /\ (0 <= bip143_in s -> 0 <= bip143_in (snd rs))
      /\ (fst rs = Ok tt ->
          exists txi, tr = [Exchange (request_tx_input i None) txi]
                      /\ bip143_in (snd rs) = bip143_in s - amount_or_zero (txi_amount txi)))
    (sign_segwit_input cls i s).
Proof.
  unfold sign_segwit_input, wallet_path_check_input, multisig_fingerprint_check_input,
    segwit_input_changed, keychain_derive_for.
  unfold_m. intros txi.
  destruct (check_input (wallet_path s) txi); simpl; [| done].
  destruct (check_input (multisig_fingerprint s) txi); simpl; [| done].
  destruct (input_is_segwit txi); simpl; [| done].
  destruct (txi_amount txi) as [amount |] eqn:Ea; simpl; [| done].
  case_bool_decide as Hgt; simpl; [done |].
  destruct (keychain_derive _ _ _) as [nd | e]; simpl; [| split; [done | split; [lia | done]]].
  destruct (txi_multisig txi) as [ms |]; simpl.
  - destruct (multisig_multisig_pubkey_index ms (node_public_key nd)); simpl.
    + split; [done |]. split; [lia |]. intros _. exists txi. by rewrite Ea.
    + split; [done | split; [lia | done]].
  - split; [done |]. split; [lia |]. intros _. exists txi. by rewrite Ea.
Qed.

(** X23. Phase 6 signs within what phase 1 counted: [bip143_in] never
    becomes negative, and when the phase succeeds it has gone down by
    exactly the sum of the amounts of the inputs that the host sent for
    signing, so that sum is at most the [bip143_in] the phase started
    with. *)
Theorem step6_signs_within_declared (s : Signer) :
  0 <= bip143_in s ->
  Forall_runs (fun tr rs =>
      0 <= bip143_in (snd rs)
      /\ (fst rs = Ok tt ->
          bip143_in (snd rs) = bip143_in s - sum_input_amounts (omap received_input tr)
          /\ sum_input_amounts (omap received_input tr) <= bip143_in s))
    (step6_sign_segwit_inputs cls s).
Proof.
  intros Hpos. unfold step6_sign_segwit_inputs.
  unfold bind at 1. unfold gets at 1. simpl.
  unfold bind at 1. unfold gets at 1. simpl.
  eapply Forall_runs_impl;
    [| apply (Forall_runs_for_each_frame_trace _ _
                (fun s' => segwit s' = segwit s /\ 0 <= bip143_in s')
                (fun _ tr s' =>
                   bip143_in s' = bip143_in s - sum_input_amounts (omap received_input tr)))
         with (seen := []) (tr0 := [])].
  - simpl. intros tr rs [[_ Hp] Hinv]. split; [done |]. intros Hok.
    rewrite <- (Hinv Hok) in *. split; [lia |]. specialize (Hinv Hok). lia.
  - intros seen i tr0 s' [Hseg Hp] Hinv.
    unfold bind at 1. unfold await at 1. cbn [prog_bind Forall_runs fst snd]. intros [].
    unfold bind at 1. unfold segwit_lookup at 1.
    destruct (segwit s' !! i) as [[] |]; cbn [prog_bind Forall_runs fst snd]; [| | done].
    + eapply Forall_runs_impl; [| apply sign_segwit_input_deducts]. simpl.
      intros tr rs (Hseg' & Hp' & Hok). split; [split; [congruence | by apply Hp'] |].
      intros Hr. destruct (Hok Hr) as (txi & -> & Hb).
      rewrite omap_app, sum_input_amounts_app, Hb, Hinv.
      unfold sum_input_amounts. simpl. lia.
    + destruct (any_segwit_value (segwit s)); unfold_m.
      * split; [done |]. intros _. rewrite omap_app, sum_input_amounts_app. simpl.
        rewrite Hinv. unfold sum_input_amounts. simpl. lia.
      * split; [done |]. intros _. rewrite omap_app, sum_input_amounts_app. simpl.
        rewrite Hinv. unfold sum_input_amounts. simpl. lia.
  - done.
  - unfold sum_input_amounts. simpl. lia.
Qed.
End Phases5And6.

Lemma step6_signs_within_declared_witness :
  Forall_runs (fun tr rs =>
      0 <= bip143_in (snd rs)
      /\ (fst rs = Ok tt ->
          bip143_in (snd rs)
          = bip143_in Example.signer_after_segwit_input
            - sum_input_amounts (omap received_input tr)
          /\ sum_input_amounts (omap received_input tr)
             <= bip143_in Example.signer_after_segwit_input))
    (step6_sign_segwit_inputs Bitcoin Example.signer_after_segwit_input).
Proof.
  apply (step6_signs_within_declared Bitcoin Example.signer_after_segwit_input).
  by vm_compute.
Defined.

(** ** The preimage of a legacy signature *)

Section LegacySignature.
Context `{Primitives}.
Variable cls : SignerClass.

Lemma signing_bytes_app (self : Signer) (i_sign : Z) (tr1 tr2 : list IO) :
  signing_bytes cls self i_sign (tr1 ++ tr2)
  = signing_bytes cls self i_sign tr1 ++ signing_bytes cls self i_sign tr2.
Proof. unfold signing_bytes. rewrite fmap_app. apply (join_app (A:=Byte.byte)). Qed.

Lemma signing_bytes_single (self : Signer) (i_sign : Z) (io : IO) :
  signing_bytes cls self i_sign [io] = signing_item cls self i_sign io.
Proof. unfold signing_bytes. simpl. by rewrite app_nil_r. Qed.

Lemma sign_nonsegwit_inputs_sign (i_sign : Z) (self : Signer) (h0 : bytes)
    (locals : sign_locals) (tr0 : list IO) :
  h_sign locals = h0 ++ signing_bytes cls self i_sign tr0 ->
  omap received_output tr0 = [] ->
  Forall_runs (fun tr rs =>
      snd rs = self
      /\ forall locals', fst rs = Ok locals' ->
           h_sign locals' = h0 ++ signing_bytes cls self i_sign (tr0 ++ tr)
           /\ omap received_output (tr0 ++ tr) = [])
    (sign_nonsegwit_inputs i_sign locals self).
Proof.
  intros Hinv Hno. unfold sign_nonsegwit_inputs. unfold bind at 1. unfold gets. simpl.
  apply (Forall_runs_for_each_with _ _
           (fun tr locals => h_sign locals = h0 ++ signing_bytes cls self i_sign tr
                             /\ omap received_output tr = [])); [| done].
  clear locals tr0 Hinv Hno. intros i locals tr0 [Hinv Hno].
  unfold wallet_path_check_input, multisig_fingerprint_check_input, keychain_derive_for.
  unfold_m. intros txi.
  assert (Hout : omap received_output (tr0 ++ [Exchange (request_tx_input i None) txi]) = []).
  { rewrite omap_app, Hno. done. }
  case_bool_decide as Hi; simpl.
  - destruct (check_input (wallet_path self) txi); simpl; [| done].
    destruct (check_input (multisig_fingerprint self) txi); simpl; [| done].
    destruct (keychain_derive _ _ _) as [nd | e] eqn:Ed; simpl; [| done].
    assert (Hitem : forall script,
              signing_script_of self txi (node_public_key nd) = Ok script ->
              write_tx_input (h_sign locals) (set_txi_script_sig txi script)
              = h0 ++ signing_bytes cls self i_sign
                        (tr0 ++ [Exchange (request_tx_input i None) txi])).
    { intros script Hsc. rewrite signing_bytes_app, signing_bytes_single, Hinv.
      unfold signing_item. rewrite bool_decide_eq_true_2 by done. rewrite Ed, Hsc.
      unfold write_tx_input. by rewrite app_assoc. }
    unfold signing_script_of, signing_script in Hitem. unfold signing_script.
    destruct (txi_script_type txi); simpl in *; try done.
    + split; [done |]. intros locals' [= <-]. simpl. split; [by apply Hitem | done].
    + destruct (txi_multisig txi); simpl in *; [| done].
      split; [done |]. intros locals' [= <-]. simpl. split; [by apply Hitem | done].
  - split; [done |]. intros locals' [= <-]. simpl. split; [| done].
    rewrite signing_bytes_app, signing_bytes_single, Hinv.
    unfold signing_item. rewrite bool_decide_eq_false_2 by done.
    unfold write_tx_input. by rewrite app_assoc.
Qed.

Lemma sign_nonsegwit_outputs_sign (i_sign : Z) (self : Signer) (h0 : bytes)
    (locals : sign_locals) (tr0 : list IO) :
  h_sign locals = h0 ++ signing_bytes cls self i_sign tr0 ->
  omap received_input tr0 = [] ->
  Forall_runs (fun tr rs =>
      snd rs = self
      /\ forall locals', fst rs = Ok locals' ->
           h_sign locals' = h0 ++ signing_bytes cls self i_sign (tr0 ++ tr)
           /\ omap received_input (tr0 ++ tr) = [])
    (sign_nonsegwit_outputs cls locals self).
Proof.
  intros Hinv Hno. unfold sign_nonsegwit_outputs. unfold bind at 1. unfold gets. simpl.
  apply (Forall_runs_for_each_with _ _
           (fun tr locals => h_sign locals = h0 ++ signing_bytes cls self i_sign tr
                             /\ omap received_input tr = [])); [| done].
  clear locals tr0 Hinv Hno. intros i locals tr0 [Hinv Hno].
  unfold_m. intros txo.
  destruct (output_derive_script cls self txo) as [r | e] eqn:Ed; simpl; [| done].
  split; [done |]. intros locals' [= <-]. simpl.
  split; [| rewrite omap_app, Hno; done].
  rewrite signing_bytes_app, signing_bytes_single, Hinv. unfold signing_item.
  by rewrite Ed, app_assoc.
Qed.

Lemma sign_nonsegwit_stream_sign (i_sign : Z) (self : Signer) :
  Forall_runs (fun tr rs =>
      snd rs = self
      /\ forall locals, fst rs = Ok locals ->
           exists tr_in tr_out,
             tr = tr_in ++ tr_out
             /\ omap received_output tr_in = [] /\ omap received_input tr_out = []
             /\ h_sign locals = signing_preimage cls self i_sign tr_in tr_out)
    (sign_nonsegwit_stream cls i_sign self).
Proof.
  unfold sign_nonsegwit_stream. unfold bind at 1. unfold gets at 1. simpl.
  apply Forall_runs_mbind.
  eapply Forall_runs_impl;
    [| apply (sign_nonsegwit_inputs_sign i_sign self
                (write_sign_tx_header cls self [] false) _ [])];
    [| unfold signing_bytes; simpl; by rewrite app_nil_r | done].
  simpl. intros tr1 [[locals1 | e] s1]; simpl; intros [-> Hc1]; [| done].
  destruct (Hc1 locals1 eq_refl) as [Hs1 Hno1].
  unfold bind at 1. unfold gets at 1. simpl.
  apply Forall_runs_mbind.
  eapply Forall_runs_impl;
    [| apply (sign_nonsegwit_outputs_sign i_sign self
                (h_sign locals1 ++ writers_varint (tx_outputs_count (tx self))) _ [])];
    [| unfold signing_bytes; simpl; by rewrite app_nil_r | done].
  simpl. intros tr2 [[locals2 | e] s2]; simpl; intros [-> Hc2]; [| done].
  destruct (Hc2 locals2 eq_refl) as [Hs2 Hno2].
  unfold_m. split; [done |]. intros locals [= <-]. simpl.
  exists tr1, tr2. rewrite app_nil_r. split; [done |]. split; [done |]. split; [done |].
  rewrite Hs2, Hs1. unfold signing_preimage. by rewrite <- !app_assoc.
Qed.

(** X24. What a legacy signature covers.  When [sign_nonsegwit_input]
    succeeds for a legacy input (class [Bitcoin], or a coin that does not
    force BIP-143), the exchanges of the call are the inputs followed by
    the outputs that the host streamed, and the signature recorded is an
    ECDSA signature of the hash (doubled if [coin.sign_hash_double]) of:
    the header and input count, every
    input streamed with its [script_sig] emptied, except input [i_sign]
    which carries the signing script, the output count, every output
    streamed with its derived script, the lock time and the hash type. *)
Theorem legacy_signature_preimage (i_sign : Z) (self : Signer) :
  cls = Bitcoin \/ coin_force_bip143 (coin self) = false ->
  Forall_runs (fun tr rs =>
      fst rs = Ok tt ->
      exists tr_in tr_out nd,
        tr = tr_in ++ tr_out
        /\ omap received_output tr_in = [] /\ omap received_input tr_out = []
        /\ signature (snd rs)
           = Some (ecdsa_sign nd
                     (get_tx_hash (signing_preimage cls self i_sign tr_in tr_out)
                        (coin_sign_hash_double (coin self)) false))
        /\ signature_index (snd rs) = Some i_sign)
    (sign_nonsegwit_input cls i_sign self).
Proof.
  intros Hlegacy. rewrite (sign_nonsegwit_input_legacy cls i_sign self Hlegacy).
  unfold Bitcoin_sign_nonsegwit_input.
  apply Forall_runs_mbind.
  eapply Forall_runs_impl; [| apply sign_nonsegwit_stream_sign]. simpl.
  intros tr [[locals | e] s1]; simpl; intros [-> Hc]; [| done].
  destruct (sign_nonsegwit_finish_result cls i_sign locals self) as (r & s' & -> & Hr). simpl.
  intros ->. destruct Hr as (_ & txi & nd & _ & _ & Hsig & Hidx).
  destruct (Hc locals eq_refl) as (tr_in & tr_out & -> & Hin & Hout & Hpre).
  exists tr_in, tr_out, nd. rewrite app_nil_r, <- Hpre. done.
Qed.
End LegacySignature.

Lemma legacy_signature_preimage_witness :
  Forall_runs (fun tr rs =>
      fst rs = Ok tt ->
      exists tr_in tr_out nd,
        tr = tr_in ++ tr_out
        /\ omap received_output tr_in = [] /\ omap received_input tr_out = []
        /\ signature (snd rs)
           = Some (ecdsa_sign nd
                     (get_tx_hash
                        (signing_preimage Bitcoin Example.signer_after_phase3 0 tr_in tr_out)
                        (coin_sign_hash_double (coin Example.signer_after_phase3)) false))
        /\ signature_index (snd rs) = Some 0)
    (sign_nonsegwit_input Bitcoin 0 Example.signer_after_phase3).
Proof.
  apply (legacy_signature_preimage Bitcoin 0 Example.signer_after_phase3).
  left. reflexivity.
Defined.
